(** * zpl-imager: the ZPL analyser, the drawers and the entry point

    A shallow embedding of [splitZplCommands] and [analyze]
    (src/ZplAnalyzer.ts), of the [VirtualPrinter] class, of the font
    loader, of the native Code 39 generator, of the drawers and of
    [drawElements] and [render].

    Conventions.
    - A JavaScript string is a [string], a sequence of code units in the
      range 0..255.  White space is what [String.prototype.trim] and the
      regular expression class [\s] recognise in that range.
      [toUpperCase] is the case mapping of the language on that range:
      a-z and the Latin-1 letters 224..254 go to their capitals, and the
      sharp s, 223, to the two letters SS.  The capitals of the micro
      sign, 181, and of the y with diaeresis, 255, are the code units 924
      and 376, outside the range: these two stand for their own upper
      case.  The program compares an upper-cased string with ASCII
      constants, looks it up under ASCII keys and takes its length, and
      none of that tells the two from their capitals.
    - A JavaScript number is a binary64 [float]; [parseInt], [parseFloat],
      [Math.floor], [Math.ceil] and [Math.min] are defined on top of the
      primitive operations and the rounding to nearest even of
      [SpecFloat].
    - A property that may be [undefined] or [null] is an [option].
    - The [graphics] object of the printer is a plain object: the finite
      map of its own properties, and its prototype, through which a
      lookup also finds what [Object.prototype] defines.
    - An asynchronous function returns the state it leaves and a
      [Promise]: fulfilled, rejected, or never settled.
    - The PNG decoder and encoder, the font metrics, the loading of a
      font file, the allocation of a bitmap and the barcode engine are
      libraries outside the repository: the definitions take them as
      parameters. *)

From Stdlib Require Import ZArith String Ascii List Bool Lia.
From Stdlib Require Import Floats.PrimFloat Floats.SpecFloat Floats.FloatOps.
From stdpp Require Import gmap strings.
Import ListNotations.

Local Open Scope string_scope.
Local Open Scope bool_scope.
Local Open Scope nat_scope.

Set Warnings "-inexact-float".

(** ** Strings *)

Module JsString.

Definition code (c : ascii) : nat := nat_of_ascii c.

(** [WhiteSpace] and [LineTerminator] code units below 256: TAB, LF, VT,
    FF, CR, SP and NBSP. *)
Definition isWhiteSpace (c : ascii) : bool :=
  let n := code c in
  ((9 <=? n) && (n <=? 13)) || (n =? 32) || (n =? 160).

Definition isDigit (c : ascii) : bool :=
  let n := code c in (48 <=? n) && (n <=? 57).

(** The upper case of a code unit, where it is one code unit of the range:
    a-z and the Latin-1 letters 224..254, the division sign 247 apart.
    It is also the canonical form under which a regular expression with
    the [i] flag compares code units. *)
Definition upperChar (c : ascii) : ascii :=
  let n := code c in
  if ((97 <=? n) && (n <=? 122))
     || ((224 <=? n) && (n <=? 254) && negb (n =? 247))
  then ascii_of_nat (n - 32) else c.

(** [s.toUpperCase()].  The sharp s, code unit 223, becomes the two
    letters SS, so the result can be longer than [s].  The micro sign,
    181, and the y with diaeresis, 255, whose capitals are outside the
    range, stay in place. *)
Fixpoint toUpperCase (s : string) : string :=
  match s with
  | EmptyString => EmptyString
  | String c r =>
      if code c =? 223 then String "S" (String "S" (toUpperCase r))
      else String (upperChar c) (toUpperCase r)
  end.

Fixpoint trimStart (s : string) : string :=
  match s with
  | EmptyString => EmptyString
  | String c r => if isWhiteSpace c then trimStart r else s
  end.

Fixpoint trimEnd (s : string) : string :=
  match s with
  | EmptyString => EmptyString
  | String c r =>
      match trimEnd r with
      | EmptyString => if isWhiteSpace c then EmptyString else String c EmptyString
      | r' => String c r'
      end
  end.

Definition trim (s : string) : string := trimEnd (trimStart s).

(** [s.substring(n)] *)
Fixpoint substringFrom (n : nat) (s : string) : string :=
  match n, s with
  | O, _ => s
  | S n', EmptyString => EmptyString
  | S n', String _ r => substringFrom n' r
  end.

Fixpoint take (n : nat) (s : string) : string :=
  match n, s with
  | O, _ => EmptyString
  | S n', EmptyString => EmptyString
  | S n', String c r => String c (take n' r)
  end.

(** [s.substring(a, b)] for [a <= b] *)
Definition substring (a b : nat) (s : string) : string :=
  take (b - a) (substringFrom a s).

(** [s.charAt(0)] *)
Definition charAt0 (s : string) : string := take 1 s.

Definition isEmpty (s : string) : bool :=
  match s with EmptyString => true | _ => false end.

Definition startsWithChar (c : ascii) (s : string) : bool :=
  match s with
  | String d _ => Ascii.eqb c d
  | EmptyString => false
  end.

(** [s.split(sep)] for a one-character separator: never the empty list. *)
Fixpoint split (sep : ascii) (s : string) : list string :=
  match s with
  | EmptyString => [EmptyString]
  | String c r =>
      if Ascii.eqb c sep then EmptyString :: split sep r
      else match split sep r with
           | w :: ws => String c w :: ws
           | [] => [String c EmptyString]
           end
  end.

(** [parts.join(sep)] *)
Fixpoint join (sep : string) (parts : list string) : string :=
  match parts with
  | [] => EmptyString
  | [p] => p
  | p :: ps => p +:+ sep +:+ join sep ps
  end.

(** [s.indexOf(c, from)], [None] standing for -1. *)
Fixpoint indexOfFrom (c : ascii) (from : nat) (s : string) : option nat :=
  match s with
  | EmptyString => None
  | String d r =>
      match from with
      | O => if Ascii.eqb c d then Some 0
             else option_map S (indexOfFrom c 0 r)
      | S from' => option_map S (indexOfFrom c from' r)
      end
  end.

(** [/[Yy]/.test(s)] *)
Fixpoint testYy (s : string) : bool :=
  match s with
  | EmptyString => false
  | String c r => Ascii.eqb (upperChar c) "Y" || testYy r
  end.

(** [/^[NRIB]/i.test(s)] *)
Definition testNRIB (s : string) : bool :=
  match s with
  | String c _ =>
      let u := upperChar c in
      Ascii.eqb u "N" || Ascii.eqb u "R" || Ascii.eqb u "I" || Ascii.eqb u "B"
  | EmptyString => false
  end.

(** [text.split(/\\&/)]: the separator is the two characters
    backslash, ampersand. *)
Fixpoint splitParagraphs (s : string) : list string :=
  match s with
  | EmptyString => [EmptyString]
  | String c r =>
      let keep :=
        match splitParagraphs r with
        | w :: ws => String c w :: ws
        | [] => [String c EmptyString]
        end in
      match r with
      | String d r' =>
          if Ascii.eqb c "\" && Ascii.eqb d "&"
          then EmptyString :: splitParagraphs r'
          else keep
      | EmptyString => keep
      end
  end.

(** [raw.split(/\s+/)]: fields between maximal runs of white space; a
    leading or trailing run leaves an empty first or last field. *)
Fixpoint splitWhiteSpaceFrom (inRun : bool) (s : string) : list string :=
  match s with
  | EmptyString => [EmptyString]
  | String c r =>
      if isWhiteSpace c then
        if inRun then splitWhiteSpaceFrom true r
        else EmptyString :: splitWhiteSpaceFrom true r
      else match splitWhiteSpaceFrom false r with
           | w :: ws => String c w :: ws
           | [] => [String c EmptyString]
           end
  end.

Definition splitWhiteSpace (s : string) : list string :=
  splitWhiteSpaceFrom false s.

End JsString.

(** ** Numbers *)

Module JsNumber.

(** The Number value of a mathematical integer: round to nearest, ties
    to even; overflow gives an infinity. *)
Definition ofZ (z : Z) : float :=
  SF2Prim (binary_normalize prec emax z 0%Z false).

Definition ofNat (n : nat) : float := ofZ (Z.of_nat n).

Definition signedZero (neg : bool) : float :=
  if neg then neg_zero else zero.

(** The Number value of [m * 10^k] for [0 <= m], negated when [neg].
    For [k < 0] the quotient is computed with at least 62 significant
    bits and a sticky bit, which rounding to 53 bits cannot tell from the
    exact value. *)
Definition ofDecimal (neg : bool) (m k : Z) : float :=
  if (m =? 0)%Z then signedZero neg
  else
    let sgn (v : Z) := if neg then (- v)%Z else v in
    if (0 <=? k)%Z then ofZ (sgn (m * 10 ^ k)%Z)
    else
      let d := (10 ^ (- k))%Z in
      let s := Z.max 0 (64 + Z.log2 d - Z.log2 m)%Z in
      let n := (m * 2 ^ s)%Z in
      let q := (n / d)%Z in
      let sticky := if (n mod d =? 0)%Z then 0%Z else 1%Z in
      SF2Prim (binary_normalize prec emax (sgn (2 * q + sticky)%Z)
                                (- (s + 1))%Z false).

(** [ToBoolean] of a number: false for [0], [-0] and [NaN]. *)
Definition truthy (x : float) : bool := negb (is_zero x || is_nan x).

(** [x || d] *)
Definition orElse (x d : float) : float := if truthy x then x else d.

(** [a > b] *)
Definition gt (a b : float) : bool := PrimFloat.ltb b a.

(** [Math.floor] *)
Definition floor (x : float) : float :=
  match Prim2SF x with
  | S754_finite s m e =>
      if (0 <=? e)%Z then x
      else
        let z := Z.shiftr (if s then Zneg m else Zpos m) (- e) in
        if (z =? 0)%Z then zero else ofZ z
  | _ => x
  end.

(** [Math.ceil] *)
Definition ceil (x : float) : float := PrimFloat.opp (floor (PrimFloat.opp x)).

(** [Math.min] of two numbers *)
Definition min (a b : float) : float :=
  if is_nan a || is_nan b then nan
  else if PrimFloat.ltb a b then a
  else if PrimFloat.ltb b a then b
  else if get_sign a then a else b.

(** *** Parsing *)

Fixpoint takeDigits (s : string) : string * string :=
  match s with
  | String c r =>
      if JsString.isDigit c
      then let (ds, rest) := takeDigits r in (String c ds, rest)
      else (EmptyString, s)
  | EmptyString => (EmptyString, EmptyString)
  end.

Fixpoint digitsValue (acc : Z) (ds : string) : Z :=
  match ds with
  | EmptyString => acc
  | String c r => digitsValue (10 * acc + Z.of_nat (JsString.code c - 48))%Z r
  end.

(** An optional sign: whether it is a minus, and what follows it. *)
Definition takeSign (s : string) : bool * string :=
  match s with
  | String c r =>
      if Ascii.eqb c "-" then (true, r)
      else if Ascii.eqb c "+" then (false, r)
      else (false, s)
  | EmptyString => (false, s)
  end.

(** [parseInt(s, 10)] *)
Definition parseInt (s : string) : float :=
  let (neg, body) := takeSign (JsString.trimStart s) in
  let (ds, _) := takeDigits body in
  match ds with
  | EmptyString => nan
  | _ =>
      let v := digitsValue 0 ds in
      if (v =? 0)%Z then signedZero neg
      else ofZ (if neg then (- v)%Z else v)
  end.

(** [parseInt(parts[i], 10)]: an index past the end reads [undefined],
    whose string form has no digits. *)
Definition parseIntAt (parts : list string) (i : nat) : float :=
  match nth_error parts i with
  | Some s => parseInt s
  | None => nan
  end.

(** The exponent part of a decimal literal, when one is there. *)
Definition takeExponent (s : string) : Z :=
  match s with
  | String c r =>
      if Ascii.eqb (JsString.upperChar c) "E" then
        let (neg, body) := takeSign r in
        let (ds, _) := takeDigits body in
        match ds with
        | EmptyString => 0%Z
        | _ => let v := digitsValue 0 ds in if neg then (- v)%Z else v
        end
      else 0%Z
  | EmptyString => 0%Z
  end.

Fixpoint startsWith (p s : string) : bool :=
  match p, s with
  | EmptyString, _ => true
  | String a p', String b s' => Ascii.eqb a b && startsWith p' s'
  | String _ _, EmptyString => false
  end.

(** [parseFloat(s)]: the longest prefix that is a [StrDecimalLiteral]. *)
Definition parseFloat (s : string) : float :=
  let (neg, body) := takeSign (JsString.trimStart s) in
  if startsWith "Infinity" body
  then (if neg then neg_infinity else infinity)
  else
    let (ip, r1) := takeDigits body in
    let (fp, r2) :=
      match r1 with
      | String c r => if Ascii.eqb c "." then takeDigits r else (EmptyString, r1)
      | EmptyString => (EmptyString, r1)
      end in
    match ip, fp with
    | EmptyString, EmptyString => nan
    | _, _ =>
        ofDecimal neg (digitsValue 0 (ip +:+ fp))
                  (takeExponent r2 - Z.of_nat (String.length fp))%Z
    end.

End JsNumber.

(** ** The element model *)

Inductive Orientation := OrN | OrR | OrI | OrB.

Inductive OriginType := TopLeft | Baseline.

Inductive CodeType :=
  code39 | code128 | ean13 | code93 | interleaved2of5
| qrcode | datamatrix | pdf417.

(** The [options] object of a barcode: a property that was never assigned
    is [None]. *)
Record BarcodeOptions := {
  opt_scale : option float;
  opt_ecclevel : option string;
  opt_securitylevel : option float;
  opt_columns : option float;
  opt_rows : option float;
  opt_rowheight : option float;
  opt_truncated : option bool
}.

Definition noOptions : BarcodeOptions :=
  {| opt_scale := None; opt_ecclevel := None; opt_securitylevel := None;
     opt_columns := None; opt_rows := None; opt_rowheight := None;
     opt_truncated := None |}.

(** What the [graphic] property of an Image element can hold.  The store
    is given the object literal of [~DG] and the one of [~DY] with its
    decoded [Buffer].  The store is a plain object, so a recall can also
    find what the object inherits: a method of [Object.prototype], that
    prototype itself, and, once a download named [__proto__] has put a
    graphic in its place, a property of that graphic.  Only values that
    are truthy get into an element. *)
Inductive Graphic :=
| RawGraphic (totalBytes bytesPerRow : float) (dataString : string)
| PngGraphic (data : list Byte.byte)
| ObjectPrototype
| BuiltinFunction (name : string)
| NumberProperty (value : float)
| StringProperty (value : string)
| BufferProperty (data : list Byte.byte).

Record TextElement := {
  text_x : float;
  text_y : float;
  text_text : string;
  text_height : float;
  text_width : float;
  text_fontName : option string;
  text_orientation : Orientation;
  text_originType : OriginType;
  text_blockWidth : option float;
  text_blockAlign : option string
}.

Record BarcodeElement := {
  barcode_x : float;
  barcode_y : float;
  barcode_codeType : CodeType;
  barcode_text : string;
  barcode_height : float;
  barcode_moduleWidth : float;
  barcode_ratio : float;
  barcode_options : BarcodeOptions;
  barcode_orientation : Orientation;
  barcode_printInterpretation : bool;
  barcode_printAbove : bool
}.

Record BoxElement := {
  box_x : float;
  box_y : float;
  box_width : float;
  box_height : float;
  box_thickness : float;
  box_color : string;
  box_reverse : bool
}.

Record CircleElement := {
  circle_x : float;
  circle_y : float;
  circle_diameter : float;
  circle_thickness : float;
  circle_color : string;
  circle_reverse : bool
}.

Record DiagonalElement := {
  diagonal_x : float;
  diagonal_y : float;
  diagonal_width : float;
  diagonal_height : float;
  diagonal_thickness : float;
  diagonal_color : string;
  diagonal_reverse : bool
}.

Record ImageElement := {
  image_x : float;
  image_y : float;
  image_scaleX : float;
  image_scaleY : float;
  image_reverse : bool;
  image_orientation : Orientation;
  image_graphic : option Graphic
}.

(** An element is tagged by its [type] property. *)
Inductive Element :=
| Text (e : TextElement)
| Barcode (e : BarcodeElement)
| Box (e : BoxElement)
| Circle (e : CircleElement)
| Diagonal (e : DiagonalElement)
| Image (e : ImageElement).

Record Label := { elements : list Element }.

(** The [reverse] property of an element; [None] where the object literal
    has no such property. *)
Definition reverseOf (el : Element) : option bool :=
  match el with
  | Text _ | Barcode _ => None
  | Box e => Some (box_reverse e)
  | Circle e => Some (circle_reverse e)
  | Diagonal e => Some (diagonal_reverse e)
  | Image e => Some (image_reverse e)
  end.

(** The [text] property of an element. *)
Definition textOf (el : Element) : option string :=
  match el with
  | Text e => Some (text_text e)
  | Barcode e => Some (barcode_text e)
  | _ => None
  end.

(** ** The virtual printer *)

Record Position := {
  pos_x : float;
  pos_y : float;
  pos_bottom : bool;
  pos_originType : OriginType
}.

Record BarcodeSpec := {
  spec_codeType : CodeType;
  spec_orientation : Orientation;
  spec_height : float;
  spec_moduleWidth : float;
  spec_ratio : float;
  spec_options : BarcodeOptions;
  spec_printInterpretation : bool;
  spec_printAbove : bool
}.

Record FieldBlock := {
  fb_width : float;
  fb_lines : float;
  fb_lineSpacing : float;
  fb_align : string;
  fb_indent : float
}.

Record Font := {
  font_name : option string;
  font_orientation : Orientation;
  font_height : float;
  font_width : float
}.

(** The fields of the class.  The object [graphics] is its own
    properties and its prototype: [None] is [Object.prototype], which the
    literal [{}] of [reset] starts with. *)
Record VirtualPrinter := {
  nextPosition : option Position;
  fontName : option string;
  fontHeight : float;
  fontWidth : float;
  orientation : Orientation;
  barcodeModuleWidth : float;
  barcodeRatio : float;
  barcodeHeight : float;
  pendingBarcode : option BarcodeSpec;
  labelHome : float * float;
  reverseNext : bool;
  fieldBlock : option FieldBlock;
  fieldOrientation : option Orientation;
  graphics : gmap string Graphic;
  graphicsPrototype : option Graphic
}.

Module Printer.

Definition reset : VirtualPrinter :=
  {| nextPosition := None;
     fontName := Some "0";
     fontHeight := 10;
     fontWidth := 0;
     orientation := OrN;
     barcodeModuleWidth := 2;
     barcodeRatio := 3;
     barcodeHeight := 50;
     pendingBarcode := None;
     labelHome := (0%float, 0%float);
     reverseNext := false;
     fieldBlock := None;
     fieldOrientation := None;
     graphics := ∅;
     graphicsPrototype := None |}.

Definition withNextPosition (v : option Position) (p : VirtualPrinter) :=
  {| nextPosition := v;
     fontName := fontName p; fontHeight := fontHeight p;
     fontWidth := fontWidth p; orientation := orientation p;
     barcodeModuleWidth := barcodeModuleWidth p;
     barcodeRatio := barcodeRatio p; barcodeHeight := barcodeHeight p;
     pendingBarcode := pendingBarcode p; labelHome := labelHome p;
     reverseNext := reverseNext p; fieldBlock := fieldBlock p;
     fieldOrientation := fieldOrientation p; graphics := graphics p;
     graphicsPrototype := graphicsPrototype p |}.

Definition setNextPosition (x y : float) (bottom : bool) (o : OriginType) :=
  withNextPosition
    (Some {| pos_x := x; pos_y := y; pos_bottom := bottom; pos_originType := o |}).

Definition clearNextPosition := withNextPosition None.

(** [setFont(fontName, orientation, height, width = 0)]: [None] is an
    argument that is [undefined]; an undefined width takes the default
    of the parameter. *)
Definition setFont (name : option string) (o : Orientation)
    (height width : option float) (p : VirtualPrinter) : VirtualPrinter :=
  let w := match width with Some w => w | None => 0%float end in
  {| nextPosition := nextPosition p;
     fontName := name;
     fontHeight :=
       match height with
       | Some h => if negb (is_nan h) && JsNumber.gt h 0 then h else fontHeight p
       | None => fontHeight p
       end;
     fontWidth :=
       if negb (is_nan w) && PrimFloat.leb 0 w then w else fontWidth p;
     orientation :=
       match fieldOrientation p with Some fo => fo | None => o end;
     barcodeModuleWidth := barcodeModuleWidth p;
     barcodeRatio := barcodeRatio p; barcodeHeight := barcodeHeight p;
     pendingBarcode := pendingBarcode p; labelHome := labelHome p;
     reverseNext := reverseNext p; fieldBlock := fieldBlock p;
     fieldOrientation := fieldOrientation p; graphics := graphics p;
     graphicsPrototype := graphicsPrototype p |}.

Definition getFont (p : VirtualPrinter) : Font :=
  {| font_name := fontName p;
     font_orientation :=
       match fieldOrientation p with Some fo => fo | None => orientation p end;
     font_height := fontHeight p;
     font_width := fontWidth p |}.

Definition setBarcodeDefaults (moduleWidth : float) (ratio height : option float)
    (p : VirtualPrinter) : VirtualPrinter :=
  let positive (o : option float) (old : float) :=
    match o with
    | Some v => if JsNumber.gt v 0 then v else old
    | None => old
    end in
  {| nextPosition := nextPosition p;
     fontName := fontName p; fontHeight := fontHeight p;
     fontWidth := fontWidth p; orientation := orientation p;
     barcodeModuleWidth := positive (Some moduleWidth) (barcodeModuleWidth p);
     barcodeRatio := positive ratio (barcodeRatio p);
     barcodeHeight := positive height (barcodeHeight p);
     pendingBarcode := pendingBarcode p; labelHome := labelHome p;
     reverseNext := reverseNext p; fieldBlock := fieldBlock p;
     fieldOrientation := fieldOrientation p; graphics := graphics p;
     graphicsPrototype := graphicsPrototype p |}.

Definition withReverseNext (v : bool) (p : VirtualPrinter) :=
  {| nextPosition := nextPosition p;
     fontName := fontName p; fontHeight := fontHeight p;
     fontWidth := fontWidth p; orientation := orientation p;
     barcodeModuleWidth := barcodeModuleWidth p;
     barcodeRatio := barcodeRatio p; barcodeHeight := barcodeHeight p;
     pendingBarcode := pendingBarcode p; labelHome := labelHome p;
     reverseNext := v; fieldBlock := fieldBlock p;
     fieldOrientation := fieldOrientation p; graphics := graphics p;
     graphicsPrototype := graphicsPrototype p |}.

Definition setReverseNext := withReverseNext true.

(** Returns the flag and the printer with the flag cleared. *)
Definition consumeReverseNext (p : VirtualPrinter) : bool * VirtualPrinter :=
  (reverseNext p, withReverseNext false p).

Definition withPendingBarcode (v : option BarcodeSpec) (p : VirtualPrinter) :=
  {| nextPosition := nextPosition p;
     fontName := fontName p; fontHeight := fontHeight p;
     fontWidth := fontWidth p; orientation := orientation p;
     barcodeModuleWidth := barcodeModuleWidth p;
     barcodeRatio := barcodeRatio p; barcodeHeight := barcodeHeight p;
     pendingBarcode := v; labelHome := labelHome p;
     reverseNext := reverseNext p; fieldBlock := fieldBlock p;
     fieldOrientation := fieldOrientation p; graphics := graphics p;
     graphicsPrototype := graphicsPrototype p |}.

Definition setPendingBarcode (s : BarcodeSpec) := withPendingBarcode (Some s).

Definition clearPendingBarcode := withPendingBarcode None.

Definition setLabelHome (x y : float) (p : VirtualPrinter) :=
  {| nextPosition := nextPosition p;
     fontName := fontName p; fontHeight := fontHeight p;
     fontWidth := fontWidth p; orientation := orientation p;
     barcodeModuleWidth := barcodeModuleWidth p;
     barcodeRatio := barcodeRatio p; barcodeHeight := barcodeHeight p;
     pendingBarcode := pendingBarcode p;
     labelHome := (JsNumber.orElse x 0, JsNumber.orElse y 0);
     reverseNext := reverseNext p; fieldBlock := fieldBlock p;
     fieldOrientation := fieldOrientation p; graphics := graphics p;
     graphicsPrototype := graphicsPrototype p |}.

Definition withFieldBlock (v : option FieldBlock) (p : VirtualPrinter) :=
  {| nextPosition := nextPosition p;
     fontName := fontName p; fontHeight := fontHeight p;
     fontWidth := fontWidth p; orientation := orientation p;
     barcodeModuleWidth := barcodeModuleWidth p;
     barcodeRatio := barcodeRatio p; barcodeHeight := barcodeHeight p;
     pendingBarcode := pendingBarcode p; labelHome := labelHome p;
     reverseNext := reverseNext p; fieldBlock := v;
     fieldOrientation := fieldOrientation p; graphics := graphics p;
     graphicsPrototype := graphicsPrototype p |}.

Definition setFieldBlock (width lines lineSpacing : float) (align : string)
    (indent : float) :=
  withFieldBlock
    (Some {| fb_width := JsNumber.orElse width 0;
             fb_lines := JsNumber.orElse lines 0;
             fb_lineSpacing := JsNumber.orElse lineSpacing 0;
             fb_align :=
               JsString.toUpperCase
                 (if JsString.isEmpty align then "L" else align);
             fb_indent := JsNumber.orElse indent 0 |}).

Definition clearFieldBlock := withFieldBlock None.

Definition orientationOfString (s : string) : option Orientation :=
  if String.eqb s "N" then Some OrN
  else if String.eqb s "R" then Some OrR
  else if String.eqb s "I" then Some OrI
  else if String.eqb s "B" then Some OrB
  else None.

Definition setFieldOrientation (o : string) (p : VirtualPrinter) :=
  match orientationOfString (JsString.toUpperCase o) with
  | Some fo =>
      {| nextPosition := nextPosition p;
         fontName := fontName p; fontHeight := fontHeight p;
         fontWidth := fontWidth p; orientation := orientation p;
         barcodeModuleWidth := barcodeModuleWidth p;
         barcodeRatio := barcodeRatio p; barcodeHeight := barcodeHeight p;
         pendingBarcode := pendingBarcode p; labelHome := labelHome p;
         reverseNext := reverseNext p; fieldBlock := fieldBlock p;
         fieldOrientation := Some fo; graphics := graphics p;
     graphicsPrototype := graphicsPrototype p |}
  | None => p
  end.

(** The methods of [Object.prototype], which every plain object
    inherits. *)
Definition objectPrototypeMethods : list string :=
  ["constructor"; "__defineGetter__"; "__defineSetter__"; "hasOwnProperty";
   "__lookupGetter__"; "__lookupSetter__"; "isPrototypeOf";
   "propertyIsEnumerable"; "toString"; "valueOf"; "toLocaleString"].

(** [ToBoolean] of a value found in the store: objects and functions are
    true, a number and a string as in the language. *)
Definition truthyGraphic (g : Graphic) : bool :=
  match g with
  | NumberProperty v => JsNumber.truthy v
  | StringProperty s => negb (JsString.isEmpty s)
  | _ => true
  end.

(** The own properties of a graphic that stands as prototype: those of
    the literal that [saveGraphic] was given. *)
Definition propertyOf (g : Graphic) (key : string) : option Graphic :=
  match g with
  | RawGraphic totalBytes bytesPerRow dataString =>
      if String.eqb key "totalBytes" then Some (NumberProperty totalBytes)
      else if String.eqb key "bytesPerRow" then Some (NumberProperty bytesPerRow)
      else if String.eqb key "dataString" then Some (StringProperty dataString)
      else None
  | PngGraphic data =>
      if String.eqb key "data" then Some (BufferProperty data)
      else if String.eqb key "type" then Some (StringProperty "png")
      else None
  | _ => None
  end.

(** What [Object.prototype] answers for [key]. *)
Definition inheritedFromObject (key : string) : option Graphic :=
  if existsb (String.eqb key) objectPrototypeMethods
  then Some (BuiltinFunction key) else None.

(** What the chain of prototypes answers for a [key] that is no own
    property: under [__proto__] the accessor of [Object.prototype] gives
    the prototype itself. *)
Definition inherited (key : string) (prototype : option Graphic) : option Graphic :=
  if String.eqb key "__proto__" then
    Some (match prototype with Some g => g | None => ObjectPrototype end)
  else
    match prototype with
    | Some g =>
        match propertyOf g key with
        | Some v => Some v
        | None => inheritedFromObject key
        end
    | None => inheritedFromObject key
    end.

(** [if (key) this.graphics[key] = graphic]: the assignment makes an own
    property, but under [__proto__], where it goes to the accessor of
    [Object.prototype] and replaces the prototype when it is given an
    object. *)
Definition saveGraphic (key : string) (g : Graphic) (p : VirtualPrinter) :=
  let toPrototype :=
    String.eqb key "__proto__"
    && match graphics p !! key with Some _ => false | None => true end in
  let isObject :=
    match g with
    | NumberProperty _ | StringProperty _ => false
    | _ => true
    end in
  if JsString.isEmpty key then p
  else
    {| nextPosition := nextPosition p;
       fontName := fontName p; fontHeight := fontHeight p;
       fontWidth := fontWidth p; orientation := orientation p;
       barcodeModuleWidth := barcodeModuleWidth p;
       barcodeRatio := barcodeRatio p; barcodeHeight := barcodeHeight p;
       pendingBarcode := pendingBarcode p; labelHome := labelHome p;
       reverseNext := reverseNext p; fieldBlock := fieldBlock p;
       fieldOrientation := fieldOrientation p;
       graphics := if toPrototype then graphics p else <[key := g]> (graphics p);
       graphicsPrototype :=
         if toPrototype && isObject then Some g else graphicsPrototype p |}.

(** [this.graphics[key]] as its two callers read it, under
    [graphic || null]: an own property first, then the chain of
    prototypes; [None] is [undefined] and every other falsy value. *)
Definition getGraphic (key : string) (p : VirtualPrinter) : option Graphic :=
  match graphics p !! key with
  | Some g => Some g
  | None =>
      match inherited key (graphicsPrototype p) with
      | Some v => if truthyGraphic v then Some v else None
      | None => None
      end
  end.

End Printer.

(** ** The tokenizer *)

Definition isIntroducer (c : ascii) : bool :=
  Ascii.eqb c "^" || Ascii.eqb c "~".

(** LF, VT, FF, CR *)
Definition isVerticalSpace (c : ascii) : bool :=
  let n := JsString.code c in (10 <=? n) && (n <=? 13).

(** [zpl.replace(/[\n\v\f\r]+/g, "")] *)
Fixpoint stripVertical (s : string) : string :=
  match s with
  | EmptyString => EmptyString
  | String c r =>
      if isVerticalSpace c then stripVertical r else String c (stripVertical r)
  end.

(** The scanning loop of [splitZplCommands], from some index on, with the
    [commands] pushed and the [buffer] filled so far. *)
Fixpoint splitLoop (clean : string) (commands : list string) (buffer : string)
    : list string :=
  match clean with
  | EmptyString =>
      if JsString.isEmpty buffer then commands else commands ++ [buffer]
  | String c rest =>
      if isIntroducer c && negb (JsString.isEmpty buffer)
      then splitLoop rest (commands ++ [buffer]) (String c EmptyString)
      else splitLoop rest commands (buffer +:+ String c EmptyString)
  end.

Definition splitZplCommands (zpl : string) : list string :=
  if JsString.isEmpty zpl then []
  else splitLoop (stripVertical zpl) [] EmptyString.

(** Tokens put back end to end. *)
Definition concatTokens (tokens : list string) : string :=
  fold_right String.append EmptyString tokens.

(** ** The analyser *)

Record AnalyzerState := {
  printer : VirtualPrinter;
  labels : list Label;
  currentElements : list Element
}.

Definition initialState : AnalyzerState :=
  {| printer := Printer.reset; labels := []; currentElements := [] |}.

Definition pushLabel (st : AnalyzerState) : AnalyzerState :=
  {| printer :=
       Printer.clearNextPosition (Printer.clearPendingBarcode (printer st));
     labels := labels st ++ [ {| elements := currentElements st |} ];
     currentElements := [] |}.

(** [/^\^XA/i.test(cmd)] and [/^\^XZ/i.test(cmd)] *)
Definition testLabelCommand (third : ascii) (cmd : string) : bool :=
  match cmd with
  | String c0 (String c1 (String c2 _)) =>
      Ascii.eqb c0 "^" && Ascii.eqb (JsString.upperChar c1) "X"
      && Ascii.eqb (JsString.upperChar c2) third
  | _ => false
  end.

Definition testXA : string -> bool := testLabelCommand "A".
Definition testXZ : string -> bool := testLabelCommand "Z".

(** [cmd.substring(1, 3).toUpperCase()] *)
Definition commandPrefix (cmd : string) : string :=
  JsString.toUpperCase (JsString.substring 1 3 cmd).

(** [cmd.substring(3).split(",")] *)
Definition commandParts (cmd : string) : list string :=
  JsString.split "," (JsString.substringFrom 3 cmd).

(** [parts.length > i ? parseInt(parts[i], 10) : d] *)
Definition parseIntOr (parts : list string) (i : nat) (d : float) : float :=
  match nth_error parts i with
  | Some s => JsNumber.parseInt s
  | None => d
  end.

(** [parts.length > i ? parts[i].trim().toUpperCase() : d] *)
Definition upperPartOr (parts : list string) (i : nat) (d : string) : string :=
  match nth_error parts i with
  | Some s => JsString.toUpperCase (JsString.trim s)
  | None => d
  end.

(** [printer.nextPosition || { x: dx, y: dy }] *)
Definition positionOr (p : VirtualPrinter) (d : float * float) : float * float :=
  match nextPosition p with
  | Some pos => (pos_x pos, pos_y pos)
  | None => d
  end.

Definition origin : float * float := (0%float, 0%float).

(** A command handler returns the printer it leaves and the elements it
    pushes on [currentElements]. *)
Definition Handler := string -> VirtualPrinter -> VirtualPrinter * list Element.

(** [^FO] and [^FT] *)
Definition fieldPosition (o : OriginType) : Handler := fun cmd p =>
  let parts := commandParts cmd in
  let x := JsNumber.orElse (JsNumber.parseIntAt parts 0) 0 in
  let y := JsNumber.orElse (JsNumber.parseIntAt parts 1) 0 in
  let bottom :=
    match nth_error parts 2 with
    | Some s => String.eqb (JsString.toUpperCase (JsString.trim s)) "B"
    | None => false
    end in
  (Printer.setNextPosition (fst (labelHome p) + x)%float
                           (snd (labelHome p) + y)%float bottom o p, []).

(** [^LH] *)
Definition labelHomeCommand : Handler := fun cmd p =>
  let parts := commandParts cmd in
  let x := JsNumber.orElse (JsNumber.parseIntAt parts 0) 0 in
  let y := JsNumber.orElse (JsNumber.parseIntAt parts 1) 0 in
  (Printer.setLabelHome x y p, []).

(** [^BY] *)
Definition barcodeDefaults : Handler := fun cmd p =>
  let parts := commandParts cmd in
  let moduleWidth := JsNumber.parseIntAt parts 0 in
  let ratio := option_map JsNumber.parseFloat (nth_error parts 1) in
  let height := option_map JsNumber.parseInt (nth_error parts 2) in
  (Printer.setBarcodeDefaults moduleWidth ratio height p, []).

(** [^GB] *)
Definition graphicBox : Handler := fun cmd p =>
  let parts := commandParts cmd in
  let w := JsNumber.orElse (JsNumber.parseIntAt parts 0) 0 in
  let h := parseIntOr parts 1 0 in
  let t := parseIntOr parts 2 1 in
  let c := upperPartOr parts 3 "B" in
  let pos := positionOr p origin in
  let (flag, p1) := Printer.consumeReverseNext p in
  (Printer.clearNextPosition p1,
   [Box {| box_x := fst pos; box_y := snd pos; box_width := w;
           box_height := h; box_thickness := t; box_color := c;
           box_reverse := flag |}]).

(** [^GC] *)
Definition graphicCircle : Handler := fun cmd p =>
  let parts := commandParts cmd in
  let d := JsNumber.orElse (JsNumber.parseIntAt parts 0) 0 in
  let t := parseIntOr parts 1 0 in
  let c := upperPartOr parts 2 "B" in
  let pos := positionOr p origin in
  let (flag, p1) := Printer.consumeReverseNext p in
  (Printer.clearNextPosition p1,
   [Circle {| circle_x := fst pos; circle_y := snd pos; circle_diameter := d;
              circle_thickness := t; circle_color := c;
              circle_reverse := flag |}]).

(** [^GD] *)
Definition graphicDiagonal : Handler := fun cmd p =>
  let parts := commandParts cmd in
  let w := JsNumber.orElse (JsNumber.parseIntAt parts 0) 0 in
  let h := parseIntOr parts 1 0 in
  let t := parseIntOr parts 2 1 in
  let c := upperPartOr parts 3 "B" in
  let pos := positionOr p origin in
  let (flag, p1) := Printer.consumeReverseNext p in
  (Printer.clearNextPosition p1,
   [Diagonal {| diagonal_x := fst pos; diagonal_y := snd pos;
                diagonal_width := w; diagonal_height := h;
                diagonal_thickness := t; diagonal_color := c;
                diagonal_reverse := flag |}]).

(** [^FR] *)
Definition fieldReverse : Handler := fun _ p => (Printer.setReverseNext p, []).

(** [parts.length > i]: the valid part of [parseInt(parts[i], 10)], else
    [undefined] *)
Definition validIntAt (parts : list string) (i : nat) : option float :=
  match nth_error parts i with
  | Some s => let v := JsNumber.parseInt s in if is_nan v then None else Some v
  | None => None
  end.

(** [^CF] *)
Definition changeFont : Handler := fun cmd p =>
  let parts := commandParts cmd in
  let fontDesignator :=
    match nth_error parts 0 with
    | Some s =>
        let t := JsString.trim s in
        if JsString.isEmpty t then None else Some (JsString.charAt0 t)
    | None => None
    end in
  let height := validIntAt parts 1 in
  let width := validIntAt parts 2 in
  (Printer.setFont
     (match fontDesignator with Some d => Some d | None => fontName p end)
     (orientation p) height width p, []).

(** [^FW] *)
Definition fieldOrientationCommand : Handler := fun cmd p =>
  let paramString := JsString.trim (JsString.substringFrom 3 cmd) in
  if JsString.isEmpty paramString then (p, [])
  else
    (Printer.setFieldOrientation
       (JsString.toUpperCase (JsString.charAt0 paramString)) p, []).

(** [^FB] *)
Definition fieldBlockCommand : Handler := fun cmd p =>
  let parts := commandParts cmd in
  let width := parseIntOr parts 0 0 in
  let lines := parseIntOr parts 1 0 in
  let spacing := parseIntOr parts 2 0 in
  let align :=
    match nth_error parts 3 with
    | Some s =>
        let t := JsString.trim s in
        if JsString.isEmpty t then "L"
        else JsString.toUpperCase (JsString.charAt0 t)
    | None => "L"
    end in
  let indent := parseIntOr parts 4 0 in
  (Printer.setFieldBlock width lines spacing align indent p, []).

(** The magnification of [^IM] and [^XG]: [parts[i]] parsed when it is
    there and not empty, 1 otherwise and for [NaN]. *)
Definition magnification (parts : list string) (i : nat) : float :=
  match nth_error parts i with
  | Some s =>
      if JsString.isEmpty s then 1%float
      else let m := JsNumber.parseFloat s in if is_nan m then 1%float else m
  | None => 1%float
  end.

(** [^IM] and [^XG] *)
Definition recallGraphic : Handler := fun cmd p =>
  let parts := commandParts cmd in
  let fileSpec :=
    match nth_error parts 0 with
    | Some s => if JsString.isEmpty s then "" else JsString.trim s
    | None => ""
    end in
  let mx := magnification parts 1 in
  let my := magnification parts 2 in
  let pos := positionOr p (labelHome p) in
  let graphic := Printer.getGraphic fileSpec p in
  let (flag, p1) := Printer.consumeReverseNext p in
  (Printer.clearFieldBlock (Printer.clearNextPosition p1),
   [Image {| image_x := fst pos; image_y := snd pos;
             image_scaleX := mx; image_scaleY := my;
             image_reverse := flag;
             image_orientation :=
               match fieldOrientation p with Some o => o | None => OrN end;
             image_graphic := graphic |}]).

(** [~DG] *)
Definition downloadGraphic : Handler := fun cmd p =>
  let paramString := JsString.substringFrom 3 cmd in
  match JsString.indexOfFrom "," 0 paramString with
  | Some first =>
      match JsString.indexOfFrom "," (first + 1) paramString with
      | Some second =>
          match JsString.indexOfFrom "," (second + 1) paramString with
          | Some third =>
              let name := JsString.trim (JsString.substring 0 first paramString) in
              let total :=
                JsNumber.orElse
                  (JsNumber.parseInt (JsString.substring (first + 1) second paramString)) 0 in
              let bytesPerRow :=
                JsNumber.orElse
                  (JsNumber.parseInt (JsString.substring (second + 1) third paramString)) 0 in
              let data := JsString.substringFrom (third + 1) paramString in
              (Printer.saveGraphic name (RawGraphic total bytesPerRow data) p, [])
          | None => (p, [])
          end
      | None => (p, [])
      end
  | None => (p, [])
  end.

Definition hexValue (c : ascii) : option nat :=
  let n := JsString.code c in
  if (48 <=? n) && (n <=? 57) then Some (n - 48)
  else if (65 <=? n) && (n <=? 70) then Some (n - 55)
  else if (97 <=? n) && (n <=? 102) then Some (n - 87)
  else None.

(** [Buffer.from(s, "hex")]: pairs of hexadecimal digits, up to the first
    pair that is not one; it does not throw, so the [catch] of [~DY] is
    never entered. *)
Fixpoint bufferFromHex (s : string) : list Byte.byte :=
  match s with
  | String a (String b r) =>
      match hexValue a, hexValue b with
      | Some x, Some y => byte_of_ascii (ascii_of_nat (16 * x + y)) :: bufferFromHex r
      | _, _ => []
      end
  | _ => []
  end.

(** [~DY] *)
Definition downloadObject : Handler := fun cmd p =>
  let parts := commandParts cmd in
  if 6 <=? List.length parts then
    let name := JsString.trim (nth 0 parts "") in
    let dataHex := JsString.join "," (skipn 5 parts) in
    (Printer.saveGraphic name (PngGraphic (bufferFromHex (JsString.trim dataHex))) p, [])
  else (p, []).

(** *** Field data *)

(** [font.name && font.name.toString().toUpperCase() === "0"] *)
Definition isFontZero (name : option string) : bool :=
  match name with
  | Some s => negb (JsString.isEmpty s) && String.eqb (JsString.toUpperCase s) "0"
  | None => false
  end.

(** The horizontal scale estimated for the font, as in the text drawer. *)
Definition estimateScaleX (font : Font) : float :=
  if isFontZero (font_name font) then
    if JsNumber.truthy (font_width font) && JsNumber.gt (font_width font) 0
       && JsNumber.truthy (font_height font) && JsNumber.gt (font_height font) 0
    then (font_width font / font_height font)%float
    else 0.65%float
  else 1%float.

(** The inner loop over the words of one paragraph, entered with the
    current [line]; returns the lines pushed, the last one included. *)
Fixpoint packWords (maxChars : float) (words : list string) (line : string)
    : list string :=
  match words with
  | [] => [line]
  | word :: rest =>
      let prospective :=
        if JsString.isEmpty line then word else line +:+ " " +:+ word in
      if negb (PrimFloat.eqb maxChars infinity)
         && JsNumber.gt (JsNumber.ofNat (String.length prospective)) maxChars
         && negb (JsString.isEmpty line)
      then line :: packWords maxChars rest word
      else packWords maxChars rest prospective
  end.

Definition wrapText (maxChars : float) (text : string) : list string :=
  flat_map (fun raw => packWords maxChars (JsString.splitWhiteSpace raw) "")
           (JsString.splitParagraphs text).

(** The loop [for (let i = 0; i < maxLines; i++)] from index [i] on, over
    the wrapped lines from that index on. *)
Fixpoint blockElements (font : Font) (originType : OriginType) (block : FieldBlock)
    (pos : float * float) (fontHeight offsetY maxLines : float)
    (i : nat) (lines : list string) : list Element :=
  match lines with
  | [] => []
  | line :: rest =>
      if PrimFloat.ltb (JsNumber.ofNat i) maxLines then
        let xOffset :=
          match i with
          | O => 0%float
          | S _ => JsNumber.orElse (fb_indent block) 0
          end in
        Text {| text_x := (fst pos + xOffset)%float;
                text_y := (snd pos + offsetY
                           + JsNumber.ofNat i * (fontHeight + fb_lineSpacing block))%float;
                text_text := line;
                text_height := fontHeight;
                text_width := font_width font;
                text_fontName := font_name font;
                text_orientation := font_orientation font;
                text_originType := originType;
                text_blockWidth := Some (fb_width block);
                text_blockAlign := Some (fb_align block) |}
        :: blockElements font originType block pos fontHeight offsetY maxLines (S i) rest
      else []
  end.

(** The characters a line of the block may hold: [Infinity] for a block
    without a positive width. *)
Definition maxCharsOf (font : Font) (block : FieldBlock) : float :=
  let fontHeight := JsNumber.orElse (font_height font) 10 in
  let scaleX := estimateScaleX font in
  let charWidth := (fontHeight * 0.6 * scaleX)%float in
  if JsNumber.gt (fb_width block) 0
  then JsNumber.floor (fb_width block / JsNumber.orElse charWidth 1)%float
  else infinity.

(** The text of a field block: wrapped, cut to the allowed lines and
    centred vertically when fewer lines are produced. *)
Definition fieldBlockText (font : Font) (originType : OriginType)
    (block : FieldBlock) (pos : float * float) (text : string) : list Element :=
  let fontHeight := JsNumber.orElse (font_height font) 10 in
  let wrappedLines := wrapText (maxCharsOf font block) text in
  let actualLineCount := JsNumber.ofNat (List.length wrappedLines) in
  let limited := JsNumber.truthy (fb_lines block) && JsNumber.gt (fb_lines block) 0 in
  let maxLines :=
    if limited then JsNumber.min (fb_lines block) actualLineCount
    else actualLineCount in
  let lineHeight := (fontHeight + fb_lineSpacing block)%float in
  let offsetY :=
    if limited && JsNumber.gt (fb_lines block) actualLineCount then
      let totalHeight := (actualLineCount * lineHeight - fb_lineSpacing block)%float in
      let availableHeight := (fb_lines block * lineHeight - fb_lineSpacing block)%float in
      JsNumber.floor ((availableHeight - totalHeight) / 2)%float
    else 0%float in
  blockElements font originType block pos fontHeight offsetY maxLines 0 wrappedLines.

(** [^FD] *)
Definition fieldData : Handler := fun cmd p =>
  let text := JsString.substringFrom 3 cmd in
  let pos := positionOr p (labelHome p) in
  match pendingBarcode p with
  | Some bc =>
      (Printer.clearNextPosition (Printer.clearPendingBarcode p),
       [Barcode {| barcode_x := fst pos; barcode_y := snd pos;
                   barcode_codeType := spec_codeType bc;
                   barcode_text := text;
                   barcode_height := JsNumber.orElse (spec_height bc) (barcodeHeight p);
                   barcode_moduleWidth :=
                     JsNumber.orElse (spec_moduleWidth bc) (barcodeModuleWidth p);
                   barcode_ratio := JsNumber.orElse (spec_ratio bc) (barcodeRatio p);
                   barcode_options := spec_options bc;
                   barcode_orientation := spec_orientation bc;
                   barcode_printInterpretation := spec_printInterpretation bc;
                   barcode_printAbove := spec_printAbove bc |}])
  | None =>
      let font := Printer.getFont p in
      let originType :=
        match nextPosition p with
        | Some np => pos_originType np
        | None => TopLeft
        end in
      match fieldBlock p with
      | Some block =>
          (Printer.clearNextPosition (Printer.clearFieldBlock p),
           fieldBlockText font originType block pos text)
      | None =>
          (Printer.clearNextPosition p,
           [Text {| text_x := fst pos; text_y := snd pos;
                    text_text := text;
                    text_height := font_height font;
                    text_width := font_width font;
                    text_fontName := font_name font;
                    text_orientation := font_orientation font;
                    text_originType := originType;
                    text_blockWidth := None;
                    text_blockAlign := None |}])
      end
  end.

(** [^FS] *)
Definition fieldSeparator : Handler := fun _ p =>
  (Printer.clearPendingBarcode (Printer.clearNextPosition p), []).

(** *** Barcode and font commands *)

(** [while (s.startsWith(",")) s = s.substring(1)] *)
Fixpoint dropCommas (s : string) : string :=
  match s with
  | String c r => if Ascii.eqb c "," then dropCommas r else s
  | EmptyString => EmptyString
  end.

(** The optional orientation letter and, after it, one optional comma. *)
Definition takeOrientation (s : string) : Orientation * string :=
  if JsString.testNRIB (JsString.charAt0 s) then
    let o :=
      match Printer.orientationOfString (JsString.toUpperCase (JsString.charAt0 s)) with
      | Some o => o
      | None => OrN
      end in
    let rest := JsString.substringFrom 1 s in
    (o, if JsString.startsWithChar "," rest then JsString.substringFrom 1 rest else rest)
  else (OrN, s).

(** [s.length > 0 ? s.split(",") : []] *)
Definition splitParams (s : string) : list string :=
  if JsString.isEmpty s then [] else JsString.split "," s.

(** [parseIntSafe(params[i])] under the guard [params.length > i] *)
Definition parseIntSafeAt (params : list string) (i : nat) : option float :=
  validIntAt params i.

(** [/[Yy]/.test(params[i])] under the guard [params.length > i], else [d] *)
Definition flagAt (params : list string) (i : nat) (d : bool) : bool :=
  match nth_error params i with
  | Some s => JsString.testYy s
  | None => d
  end.

Definition orDefault (o : option float) (d : float) : float :=
  match o with Some v => v | None => d end.

(** The specification a [^Bx] command arms; [None] for an unknown [x]. *)
Definition barcodeSpecOf (second : option ascii) (o : Orientation)
    (params : list string) (p : VirtualPrinter) : option BarcodeSpec :=
  let linear (ct : CodeType) (h : nat) :=
    Some {| spec_codeType := ct; spec_orientation := o;
            spec_height := orDefault (parseIntSafeAt params h) (barcodeHeight p);
            spec_moduleWidth := barcodeModuleWidth p;
            spec_ratio := barcodeRatio p;
            spec_options := noOptions;
            spec_printInterpretation := flagAt params (h + 1) true;
            spec_printAbove := flagAt params (h + 2) false |} in
  let matrix (ct : CodeType) (mw : float) (opts : BarcodeOptions) :=
    Some {| spec_codeType := ct; spec_orientation := o;
            spec_height := barcodeHeight p;
            spec_moduleWidth := mw;
            spec_ratio := barcodeRatio p;
            spec_options := opts;
            spec_printInterpretation := false;
            spec_printAbove := false |} in
  match second with
  | Some c =>
      if Ascii.eqb c "C" then linear code128 0
      else if Ascii.eqb c "3" then linear code39 1
      else if Ascii.eqb c "E" || Ascii.eqb c "8" then linear ean13 0
      else if Ascii.eqb c "9" || Ascii.eqb c "A" then linear code93 0
      else if Ascii.eqb c "2" then linear interleaved2of5 0
      else if Ascii.eqb c "Q" then
        matrix qrcode (barcodeModuleWidth p)
          {| opt_scale := parseIntSafeAt params 0;
             opt_ecclevel :=
               match nth_error params 1 with
               | Some s =>
                   if JsString.isEmpty s then None
                   else Some (JsString.toUpperCase (JsString.trim s))
               | None => None
               end;
             opt_securitylevel := None; opt_columns := None; opt_rows := None;
             opt_rowheight := None; opt_truncated := None |}
      else if Ascii.eqb c "X" then
        matrix datamatrix (barcodeModuleWidth p)
          {| opt_scale := parseIntSafeAt params 0;
             opt_ecclevel := None;
             opt_securitylevel := None; opt_columns := None; opt_rows := None;
             opt_rowheight := None; opt_truncated := None |}
      else if Ascii.eqb c "7" then
        matrix pdf417
          (orDefault (parseIntSafeAt params 0) (barcodeModuleWidth p))
          {| opt_scale := None; opt_ecclevel := None;
             opt_securitylevel := parseIntSafeAt params 1;
             opt_columns := parseIntSafeAt params 2;
             opt_rows := parseIntSafeAt params 3;
             opt_rowheight := parseIntSafeAt params 4;
             opt_truncated := option_map JsString.testYy (nth_error params 5) |}
      else if Ascii.eqb c "D" then linear code128 0
      else None
  | None => None
  end.

(** [prefix[1]] *)
Definition secondOf (prefix : string) : option ascii :=
  match prefix with
  | String _ (String c _) => Some c
  | _ => None
  end.

(** [^Bx] *)
Definition barcodeCommand (prefix : string) : Handler := fun cmd p =>
  let restParams := dropCommas (JsString.substringFrom 3 cmd) in
  let (o, rest) := takeOrientation restParams in
  match barcodeSpecOf (secondOf prefix) o (splitParams rest) p with
  | Some spec => (Printer.setPendingBarcode spec p, [])
  | None => (p, [])
  end.

(** [^Ax] *)
Definition fontCommand (prefix : string) : Handler := fun cmd p =>
  let fontDesignator :=
    option_map (fun c => String c EmptyString) (secondOf prefix) in
  let (o, rest) := takeOrientation (dropCommas (JsString.substringFrom 3 cmd)) in
  let fparts := splitParams rest in
  let fheight := option_map JsNumber.parseInt (nth_error fparts 0) in
  let fwidth := option_map JsNumber.parseInt (nth_error fparts 1) in
  (Printer.setFont fontDesignator o fheight fwidth p, []).

(** *** The command loop *)

(** The [switch (prefix)] of [analyze]. *)
Definition execCommand (prefix : string) : Handler := fun cmd p =>
  if String.eqb prefix "FO" then fieldPosition TopLeft cmd p
  else if String.eqb prefix "FT" then fieldPosition Baseline cmd p
  else if String.eqb prefix "LH" then labelHomeCommand cmd p
  else if String.eqb prefix "BY" then barcodeDefaults cmd p
  else if String.eqb prefix "GB" then graphicBox cmd p
  else if String.eqb prefix "FR" then fieldReverse cmd p
  else if String.eqb prefix "CF" then changeFont cmd p
  else if String.eqb prefix "FW" then fieldOrientationCommand cmd p
  else if String.eqb prefix "FB" then fieldBlockCommand cmd p
  else if String.eqb prefix "IM" then recallGraphic cmd p
  else if String.eqb prefix "DG" then downloadGraphic cmd p
  else if String.eqb prefix "DY" then downloadObject cmd p
  else if String.eqb prefix "XG" then recallGraphic cmd p
  else if String.eqb prefix "GC" then graphicCircle cmd p
  else if String.eqb prefix "GD" then graphicDiagonal cmd p
  else if String.eqb prefix "FD" then fieldData cmd p
  else if String.eqb prefix "FS" then fieldSeparator cmd p
  else if JsString.startsWithChar "B" prefix then barcodeCommand prefix cmd p
  else if JsString.startsWithChar "A" prefix then fontCommand prefix cmd p
  else (p, []).

(** One iteration of [for (let rawCmd of commands)]. *)
Definition step (st : AnalyzerState) (rawCmd : string) : AnalyzerState :=
  let cmd := JsString.trim rawCmd in
  if String.length cmd <? 2 then st
  else if testXA cmd then
    {| printer := Printer.reset; labels := labels st; currentElements := [] |}
  else if testXZ cmd then pushLabel st
  else
    let (p, pushed) := execCommand (commandPrefix cmd) cmd (printer st) in
    {| printer := p; labels := labels st;
       currentElements := currentElements st ++ pushed |}.

Definition run (commands : list string) (st : AnalyzerState) : AnalyzerState :=
  fold_left step commands st.

(** The state when the loop of [analyze] is left. *)
Definition interpret (zpl : string) : AnalyzerState :=
  run (splitZplCommands zpl) initialState.

Definition analyze (zpl : string) : list Label :=
  let st := interpret zpl in
  labels (match currentElements st with
          | [] => st
          | _ :: _ => pushLabel st
          end).

(** *** Shapes of tokens and commands, for the statements below *)

Definition startsWithIntroducer (t : string) : bool :=
  match t with
  | String c _ => isIntroducer c
  | EmptyString => false
  end.

Fixpoint noIntroducer (s : string) : bool :=
  match s with
  | EmptyString => true
  | String c r => negb (isIntroducer c) && noIntroducer r
  end.

(** A token is not empty and no introducer occurs after its first
    character. *)
Definition tokenShape (t : string) : bool :=
  match t with
  | String _ r => noIntroducer r
  | EmptyString => false
  end.

(** The token is a [~DG] or [~DY] command. *)
Definition isDownload (rawCmd : string) : bool :=
  let prefix := commandPrefix (JsString.trim rawCmd) in
  String.eqb prefix "DG" || String.eqb prefix "DY".

(** The token is an [^XG] or [^IM] command. *)
Definition isRecall (rawCmd : string) : bool :=
  let prefix := commandPrefix (JsString.trim rawCmd) in
  String.eqb prefix "XG" || String.eqb prefix "IM".

(** The last character of the string is white space. *)
Fixpoint endsWithWhiteSpace (s : string) : bool :=
  match s with
  | EmptyString => false
  | String c EmptyString => JsString.isWhiteSpace c
  | String _ r => endsWithWhiteSpace r
  end.

(** The texts of the elements, label by label. *)
Definition textsOf (ls : list Label) : list (list (option string)) :=
  map (fun l => map textOf (elements l)) ls.

(** What the scanning loop maintains while the buffer is not empty: the
    commands pushed, with the buffer as one more, are well-shaped tokens,
    all but the first starting with an introducer. *)
Definition wellSplit (tokens : list string) : Prop :=
  Forall (fun t => tokenShape t = true) tokens
  /\ Forall (fun t => startsWithIntroducer t = true) (tl tokens).

(** ** Promises *)

(** How an awaited promise ends: fulfilled with a value, rejected with a
    reason, or never settled. *)
Inductive Promise (E A : Type) : Type :=
| Fulfilled (value : A)
| Rejected (reason : E)
| Pending.

Arguments Fulfilled {E A} value.
Arguments Rejected {E A} reason.
Arguments Pending {E A}.

(** Why a promise of the program is rejected: the [Error] that [render]
    throws itself, and the errors that come up from the image library,
    when the load of the regular face is rejected, when [PImage.make]
    throws, and when a call on the context of the canvas or the encoder
    fails. *)
Inductive Failure :=
| NoLabelsDetected
| FontNotLoaded
| CanvasNotMade
| DrawingFailed.


(** ** The font loader *)

(** What [ensureFont] asks of the image library. *)
Inductive FontCall :=
| RegisterFont (path family : string)
| LoadFont (path : string).

(** The state of the module: its [loaded] flag, and the calls it has made
    to the image library so far. *)
Record FontModule := {
  loaded : bool;
  fontCalls : list FontCall
}.

Definition boldFontPath : string :=
  "/usr/share/fonts/truetype/dejavu/DejaVuSans-Bold.ttf".

Definition condensedBoldPath : string :=
  "/usr/share/fonts/truetype/dejavu/DejaVuSansCondensed-Bold.ttf".

Section Fonts.

(** The bundled font sits next to the module.  How the [load()] of a
    registered face ends is the image library's and the file system's
    business: it can resolve, reject, or throw outside the promise and
    leave it unsettled. *)
Variable normalFontPath : string.
Variable loadFont : string -> Promise unit unit.

(** [ensureFont]: the state it leaves and how its promise ends.  The
    regular face is awaited bare, the two bold faces inside [try]
    blocks, which take a rejection but not a promise that never
    settles. *)
Definition ensureFont (s : FontModule) : FontModule * Promise Failure unit :=
  if loaded s then (s, Fulfilled tt)
  else
    let calls :=
      (fontCalls s
       ++ [RegisterFont normalFontPath "DejaVu Sans";
           RegisterFont boldFontPath "DejaVu Sans Bold";
           RegisterFont condensedBoldPath "DejaVu Sans Condensed Bold";
           LoadFont normalFontPath])%list in
    match loadFont normalFontPath with
    | Fulfilled _ =>
        match loadFont boldFontPath with
        | Pending =>
            ({| loaded := false;
                fontCalls := (calls ++ [LoadFont boldFontPath])%list |}, Pending)
        | _ =>
            let calls' :=
              (calls ++ [LoadFont boldFontPath; LoadFont condensedBoldPath])%list in
            match loadFont condensedBoldPath with
            | Pending => ({| loaded := false; fontCalls := calls' |}, Pending)
            | _ => ({| loaded := true; fontCalls := calls' |}, Fulfilled tt)
            end
        end
    | Rejected _ =>
        ({| loaded := false; fontCalls := calls |}, Rejected FontNotLoaded)
    | Pending => ({| loaded := false; fontCalls := calls |}, Pending)
    end.

End Fonts.


(** ** The native Code 39 generator *)

Module Code39.

(** [CODE39_PATTERNS[ch]] *)
Definition CODE39_PATTERNS (ch : ascii) : option string :=
  let table : list (string * string) :=
    [("0", "nnnwwnwnn"); ("1", "wnnwnnnnw"); ("2", "nnwwnnnnw");
     ("3", "wnwwnnnnn"); ("4", "nnnwwnnnw"); ("5", "wnnwwnnnn");
     ("6", "nnwwwnnnn"); ("7", "nnnwnnwnw"); ("8", "wnnwnnwnn");
     ("9", "nnwwnnwnn"); ("A", "wnnnnwnnw"); ("B", "nnwnnwnnw");
     ("C", "wnwnnwnnn"); ("D", "nnnnwwnnw"); ("E", "wnnnwwnnn");
     ("F", "nnwnwwnnn"); ("G", "nnnnnwwnw"); ("H", "wnnnnwwnn");
     ("I", "nnwnnwwnn"); ("J", "nnnnwwwnn"); ("K", "wnnnnnnww");
     ("L", "nnwnnnnww"); ("M", "wnwnnnnwn"); ("N", "nnnnwnnww");
     ("O", "wnnnwnnwn"); ("P", "nnwnwnnwn"); ("Q", "nnnnnnwww");
     ("R", "wnnnnnwwn"); ("S", "nnwnnnwwn"); ("T", "nnnnwnwwn");
     ("U", "wwnnnnnnw"); ("V", "nwwnnnnnw"); ("W", "wwwnnnnnn");
     ("X", "nwnnwnnnw"); ("Y", "wwnnwnnnn"); ("Z", "nwwnwnnnn");
     ("-", "nwnnnnwnw"); (".", "wwnnnnwnn"); (" ", "nwwnnnwnn");
     ("$", "nwnwnwnnn"); ("/", "nwnwnnnwn"); ("+", "nwnnnwnwn");
     ("%", "nnnwnwnwn"); ("*", "nwnnwnwnn")] in
  option_map snd
    (List.find (fun e => String.eqb (fst e) (String ch EmptyString)) table).

(** [CODE39_PATTERNS[ch] || CODE39_PATTERNS["-"]] *)
Definition patternOrDash (ch : ascii) : string :=
  match CODE39_PATTERNS ch with
  | Some pat => pat
  | None => "nwnnnnwnw"
  end.

Definition quietModules : float := 10.

(** Modules of one element of a pattern: [c === "w" ? ratio : 1] *)
Definition elementModules (ratio : float) (c : ascii) : float :=
  if Ascii.eqb c "w" then ratio else 1%float.

(** [for (const c of pat) totalModules += ...] *)
Fixpoint addPattern (ratio : float) (pat : string) (totalModules : float) : float :=
  match pat with
  | EmptyString => totalModules
  | String c r => addPattern ratio r (totalModules + elementModules ratio c)%float
  end.

(** The loop over [encoded]: each character adds its pattern, and one
    module more unless it is the last. *)
Fixpoint addCharacters (ratio : float) (encoded : string) (totalModules : float)
    : float :=
  match encoded with
  | EmptyString => totalModules
  | String ch rest =>
      let t := addPattern ratio (patternOrDash ch) totalModules in
      addCharacters ratio rest
        (if JsString.isEmpty rest then t else (t + 1)%float)
  end.

Definition totalModules (ratio : float) (encoded : string) : float :=
  (addCharacters ratio encoded quietModules + quietModules)%float.

(** A [fillRect(x, 0, w, h)] of the bar colour. *)
Record Bar := { bar_x : float; bar_width : float; bar_height : float }.

(** The elements of one pattern from index [i] on, drawn from [x] on:
    the bars filled and the [x] reached. *)
Fixpoint drawPattern (ratio narrow barHeight : float) (pat : string) (i : nat)
    (x : float) : list Bar * float :=
  match pat with
  | EmptyString => ([], x)
  | String c r =>
      let moduleWidth := (elementModules ratio c * narrow)%float in
      let (bars, x') :=
        drawPattern ratio narrow barHeight r (S i) (x + moduleWidth)%float in
      (if Nat.even i
       then {| bar_x := JsNumber.floor x; bar_width := JsNumber.ceil moduleWidth;
               bar_height := barHeight |} :: bars
       else bars, x')
  end.

Fixpoint drawCharacters (ratio narrow barHeight : float) (encoded : string)
    (x : float) : list Bar * float :=
  match encoded with
  | EmptyString => ([], x)
  | String ch rest =>
      let (bars, x1) := drawPattern ratio narrow barHeight (patternOrDash ch) 0 x in
      let x2 := if JsString.isEmpty rest then x1 else (x1 + narrow)%float in
      let (more, x3) := drawCharacters ratio narrow barHeight rest x2 in
      ((bars ++ more)%list, x3)
  end.

(** The interpretation line: the string drawn, its font size and its
    baseline; the horizontal position comes from the metrics of the font. *)
Record Interpretation := {
  interp_text : string;
  interp_fontSize : float;
  interp_baseline : float
}.

(** The bitmap: the width and height given to [PImage.make], the bars
    filled and the interpretation line, if one is drawn. *)
Record Code39Image := {
  img_width : float;
  img_height : float;
  img_bars : list Bar;
  img_interpretation : option Interpretation
}.

Definition margin : float := 4.

(** What [generateCode39Image] computes and draws: the size it asks
    [PImage.make] for, the bars it fills and the interpretation line. *)
Definition image (element : BarcodeElement) : Code39Image :=
  let narrow := JsNumber.orElse (barcode_moduleWidth element) 2 in
  let ratio := JsNumber.orElse (barcode_ratio element) 2 in
  let heightDots := JsNumber.orElse (barcode_height element) 50 in
  let printInterp := barcode_printInterpretation element in
  let encoded := "*" +:+ JsString.toUpperCase (barcode_text element) +:+ "*" in
  let width := JsNumber.ceil (totalModules ratio encoded * narrow)%float in
  let fontSize :=
    if printInterp then JsNumber.floor (heightDots * 0.2)%float else 0%float in
  let barHeight :=
    if printInterp then
      let h := (heightDots - (fontSize + margin))%float in
      if PrimFloat.ltb h 1 then 1%float else h
    else heightDots in
  {| img_width := JsNumber.orElse width 1;
     img_height := JsNumber.orElse heightDots 1;
     img_bars :=
       fst (drawCharacters ratio narrow barHeight encoded (quietModules * narrow)%float);
     img_interpretation :=
       if printInterp && JsNumber.gt fontSize 0 then
         Some {| interp_text := encoded;
                 interp_fontSize := fontSize;
                 interp_baseline :=
                   if barcode_printAbove element then fontSize
                   else (barHeight + margin + fontSize - 2)%float |}
       else None |}.

(** The right edge of the rightmost bar. *)
Definition barsRightEdge (bars : list Bar) : float :=
  fold_left (fun m b =>
               let r := (bar_x b + bar_width b)%float in
               if PrimFloat.ltb m r then r else m) bars 0%float.

Section Generator.

Variable normalFontPath : string.
Variable loadFont : string -> Promise unit unit.

(** [PImage.make(w, h)]: whether the image library returns a bitmap of
    that size; it throws when it cannot allocate the pixels. *)
Variable makes : float -> float -> bool.

(** The body of [generateCode39Image] after its [await ensureFont()]:
    nothing is drawn when [PImage.make] throws. *)
Definition made (element : BarcodeElement) : option Code39Image :=
  let img := image element in
  if makes (img_width img) (img_height img) then Some img else None.

(** [generateCode39Image]: an asynchronous function, so the exception of
    [PImage.make] is its rejection, and it ends as [ensureFont] ends when
    that does not resolve. *)
Definition generateCode39Image (fonts : FontModule) (element : BarcodeElement)
    : FontModule * Promise Failure Code39Image :=
  match ensureFont normalFontPath loadFont fonts with
  | (fonts', Fulfilled _) =>
      (fonts',
       match made element with
       | Some img => Fulfilled img
       | None => Rejected CanvasNotMade
       end)
  | (fonts', Rejected reason) => (fonts', Rejected reason)
  | (fonts', Pending) => (fonts', Pending)
  end.

End Generator.

End Code39.

(** ** Preparing elements and sizing the canvas *)

(** A decoded bitmap, as far as the layout reads it. *)
Record Bitmap := { bitmap_width : float; bitmap_height : float }.

(** An element after its drawer's [prepare]. *)
Record Prepared := {
  prepared_element : Element;
  renderWidth : float;
  renderHeight : float;
  hasImage : bool
}.

Inductive Angle := MinusHalfPi | HalfPi | FullPi.

(** Calls made on the 2D context. *)
Inductive CanvasOp :=
| OpSave
| OpRestore
| OpTranslate (x y : float)
| OpRotate (a : Angle)
| OpDrawImage (dx dy dw dh : float).

Section Drawers.

(** The codecs and the font metrics are libraries outside the
    repository. *)
Variable decodePng : list Byte.byte -> option Bitmap.
Variable measureText : option string -> float -> string -> float.
Variable delegatedBarcode : BarcodeElement -> float * float * bool.

(** [PImage.make(w, h)]: whether the image library returns a bitmap of
    that size; it throws when it cannot allocate the pixels. *)
Variable makes : float -> float -> bool.

(** [ImageDrawer.prepare]: the bitmap decoded, if any, and the render
    size.  Only the literal of [~DY] has a [data] property; for every
    other value the drawer finds nothing to decode. *)
Definition prepareImage (e : ImageElement) : option Bitmap * float * float :=
  match image_graphic e with
  | None => (None, 0%float, 0%float)
  | Some (PngGraphic data) =>
      match decodePng data with
      | Some img =>
          (Some img,
           (bitmap_width img * JsNumber.orElse (image_scaleX e) 1)%float,
           (bitmap_height img * JsNumber.orElse (image_scaleY e) 1)%float)
      | None => (None, 0%float, 0%float)
      end
  | Some _ => (None, 0%float, 0%float)
  end.

(** [ImageDrawer.draw] *)
Definition drawImage (e : ImageElement) (image : option Bitmap) : list CanvasOp :=
  match image with
  | None => []
  | Some img =>
      let sx := JsNumber.orElse (image_scaleX e) 1 in
      let sy := JsNumber.orElse (image_scaleY e) 1 in
      let w := (bitmap_width img * sx)%float in
      let h := (bitmap_height img * sy)%float in
      let rotated (a : Angle) :=
        [OpSave; OpTranslate (image_x e) (image_y e); OpRotate a;
         OpDrawImage 0 0 w h; OpRestore] in
      match image_orientation e with
      | OrR => rotated MinusHalfPi
      | OrI => rotated FullPi
      | OrB => rotated HalfPi
      | OrN => [OpSave; OpDrawImage (image_x e) (image_y e) w h; OpRestore]
      end
  end.

(** [TextDrawer.prepare] *)
Definition prepareText (e : TextElement) : float * float :=
  let fontSize := JsNumber.orElse (text_height e) 10 in
  let scaleX :=
    if isFontZero (text_fontName e) then
      if JsNumber.truthy (text_width e) && JsNumber.gt (text_width e) 0
         && JsNumber.truthy (text_height e) && JsNumber.gt (text_height e) 0
      then (text_width e / text_height e)%float
      else 0.65%float
    else 1%float in
  ((measureText (text_fontName e) fontSize (text_text e) * scaleX)%float, fontSize).

(** The [prepare] of the drawer [getDrawer] selects, as [drawElements]
    runs it: after [ensureFont] has resolved, so that the calls of
    [ensureFont] inside the drawers return at once.  A Code 39 barcode
    goes to the native generator and, when that throws, to the barcode
    engine like the other symbologies. *)
Definition prepare (el : Element) : Prepared :=
  match el with
  | Text e =>
      let (w, h) := prepareText e in
      {| prepared_element := el; renderWidth := w; renderHeight := h;
         hasImage := false |}
  | Barcode e =>
      let engine :=
        let '(w, h, i) := delegatedBarcode e in
        {| prepared_element := el; renderWidth := w; renderHeight := h;
           hasImage := i |} in
      match barcode_codeType e with
      | code39 =>
          match Code39.made makes e with
          | Some img =>
              {| prepared_element := el;
                 renderWidth := Code39.img_width img;
                 renderHeight := Code39.img_height img;
                 hasImage := true |}
          | None => engine
          end
      | _ => engine
      end
  | Box e =>
      {| prepared_element := el; renderWidth := box_width e;
         renderHeight := box_height e; hasImage := false |}
  | Circle e =>
      {| prepared_element := el; renderWidth := circle_diameter e;
         renderHeight := circle_diameter e; hasImage := false |}
  | Diagonal e =>
      {| prepared_element := el; renderWidth := diagonal_width e;
         renderHeight := diagonal_height e; hasImage := false |}
  | Image e =>
      let '(img, w, h) := prepareImage e in
      {| prepared_element := el; renderWidth := w; renderHeight := h;
         hasImage := match img with Some _ => true | None => false end |}
  end.

(** [el.x], [el.y] *)
Definition xyOf (el : Element) : float * float :=
  match el with
  | Text e => (text_x e, text_y e)
  | Barcode e => (barcode_x e, barcode_y e)
  | Box e => (box_x e, box_y e)
  | Circle e => (circle_x e, circle_y e)
  | Diagonal e => (diagonal_x e, diagonal_y e)
  | Image e => (image_x e, image_y e)
  end.

(** [el.width || 0], [el.height || 0] *)
Definition declaredSize (el : Element) : float * float :=
  match el with
  | Text e => (JsNumber.orElse (text_width e) 0, JsNumber.orElse (text_height e) 0)
  | Barcode e => (0%float, JsNumber.orElse (barcode_height e) 0)
  | Box e => (JsNumber.orElse (box_width e) 0, JsNumber.orElse (box_height e) 0)
  | Diagonal e =>
      (JsNumber.orElse (diagonal_width e) 0, JsNumber.orElse (diagonal_height e) 0)
  | Circle _ | Image _ => (0%float, 0%float)
  end.

(** [el.orientation || "N"] *)
Definition orientationOf (el : Element) : Orientation :=
  match el with
  | Text e => text_orientation e
  | Barcode e => barcode_orientation e
  | Image e => image_orientation e
  | Box _ | Circle _ | Diagonal _ => OrN
  end.

(** One iteration of the extent loop of [drawElements]. *)
Definition extend (acc : float * float) (pe : Prepared) : float * float :=
  let el := prepared_element pe in
  let (width, height) :=
    if negb (JsNumber.truthy (renderWidth pe)) || negb (JsNumber.truthy (renderHeight pe))
    then declaredSize el
    else (renderWidth pe, renderHeight pe) in
  let (rotW, rotH) :=
    match orientationOf el with
    | OrR | OrB => (height, width)
    | OrN | OrI => (width, height)
    end in
  let ex := (fst (xyOf el) + rotW)%float in
  let ey := (snd (xyOf el) + rotH)%float in
  (if JsNumber.gt ex (fst acc) then ex else fst acc,
   if JsNumber.gt ey (snd acc) then ey else snd acc).

Definition canvasMargin : float := 4.

(** The size of the canvas [drawElements] makes. *)
Definition canvasSize (els : list Element) : float * float :=
  let (maxX, maxY) := fold_left extend (map prepare els) (0%float, 0%float) in
  let canvasWidth := JsNumber.ceil (maxX + canvasMargin)%float in
  let canvasHeight := JsNumber.ceil (maxY + canvasMargin)%float in
  (if JsNumber.gt canvasWidth 0 then canvasWidth else 1%float,
   if JsNumber.gt canvasHeight 0 then canvasHeight else 1%float).

(** What [render] does with the labels of [analyze]: an exception when
    there is none, else the first label goes to [drawElements]. *)
Definition renderTarget (zpl : string) : option (list Element) :=
  match analyze zpl with
  | [] => None
  | l :: _ => Some (elements l)
  end.

End Drawers.

(** ** The cleaned input, in the words of the specification *)

(** The vertical white space the specification names: LF, VT, FF and
    CR. *)
Definition verticalWhiteSpace : list ascii :=
  ["010"%char; "011"%char; "012"%char; "013"%char].

Definition isVerticalWhiteSpace (c : ascii) : bool :=
  existsb (Ascii.eqb c) verticalWhiteSpace.

(** The input with all vertical white space removed. *)
Fixpoint withoutVerticalWhiteSpace (s : string) : string :=
  match s with
  | EmptyString => EmptyString
  | String c r =>
      if isVerticalWhiteSpace c then withoutVerticalWhiteSpace r
      else String c (withoutVerticalWhiteSpace r)
  end.

Fixpoint hasVerticalWhiteSpace (s : string) : bool :=
  match s with
  | EmptyString => false
  | String c r => isVerticalWhiteSpace c || hasVerticalWhiteSpace r
  end.

(** ** Counting and classifying tokens *)

(** The token is an [^XZ] command. *)
Definition isLabelEnd (rawCmd : string) : bool := testXZ (JsString.trim rawCmd).

(** The token is an [^XA] command. *)
Definition isLabelStart (rawCmd : string) : bool := testXA (JsString.trim rawCmd).

Definition countLabelEnds (commands : list string) : nat :=
  List.length (List.filter isLabelEnd commands).

(** The designators with a [case] of their own in the [switch]. *)
Definition handledDesignators : list string :=
  ["FO"; "FT"; "LH"; "BY"; "GB"; "FR"; "CF"; "FW"; "FB"; "IM"; "DG"; "DY";
   "XG"; "GC"; "GD"; "FD"; "FS"].

(** The token is skipped by the loop or falls through the [switch]: it is
    shorter than two characters, or it is no label command, has no [case]
    and starts neither a barcode nor a font command. *)
Definition isIgnored (rawCmd : string) : bool :=
  let cmd := JsString.trim rawCmd in
  let prefix := commandPrefix cmd in
  (String.length cmd <? 2)
  || (negb (testXA cmd) && negb (testXZ cmd)
      && negb (existsb (String.eqb prefix) handledDesignators)
      && negb (JsString.startsWithChar "B" prefix)
      && negb (JsString.startsWithChar "A" prefix)).

(** The token is an [^FW] command. *)
Definition isFieldOrientation (rawCmd : string) : bool :=
  String.eqb (commandPrefix (JsString.trim rawCmd)) "FW".

(** The name an [^XG] or [^IM] token asks for: [parts[0].trim()]. *)
Definition recalledName (rawCmd : string) : string :=
  JsString.trim (nth 0 (commandParts (JsString.trim rawCmd)) "").

(** The store as the literal of [reset] leaves it: no own property, and
    [Object.prototype] as prototype. *)
Definition freshStore (p : VirtualPrinter) : Prop :=
  graphics p = ∅ /\ graphicsPrototype p = None.

(** The numeric settings of the printer are usable: a positive font
    height, a font width that is a number and not negative, positive
    barcode defaults. *)
Definition usableSettings (p : VirtualPrinter) : bool :=
  JsNumber.gt (fontHeight p) 0
  && negb (is_nan (fontWidth p)) && PrimFloat.leb 0 (fontWidth p)
  && JsNumber.gt (barcodeModuleWidth p) 0
  && JsNumber.gt (barcodeRatio p) 0
  && JsNumber.gt (barcodeHeight p) 0.

(** ** Code 39 patterns *)

(** The characters [CODE39_PATTERNS] has an entry for. *)
Definition code39Alphabet : list ascii :=
  list_ascii_of_string "0123456789ABCDEFGHIJKLMNOPQRSTUVWXYZ-. $/+%*".


Fixpoint countWide (pat : string) : nat :=
  match pat with
  | EmptyString => 0
  | String c r => (if Ascii.eqb c "w" then 1 else 0) + countWide r
  end.



(** The line is not longer than [maxChars]. *)
Definition fitsIn (maxChars : float) (line : string) : bool :=
  negb (JsNumber.gt (JsNumber.ofNat (String.length line)) maxChars).

(** ** Drawing *)

(** Calls made on the 2D context by the drawers. *)
Inductive ContextCall :=
| Canvas (op : CanvasOp)
| SetFillStyle (colour : string)
| SetStrokeStyle (colour : string)
| SetLineWidth (w : float)
| SetFont (size : float) (face : string)
| FillRect (x y w h : float)
| StrokeRect (x y w h : float)
| BeginPath
| ClosePath
| Fill
| Stroke
| Arc (cx cy r : float)
| MoveTo (x y : float)
| LineTo (x y : float)
| Scale (sx sy : float)
| FillText (text : string) (x y : float).

(** [BoxDrawer.draw] *)
Definition drawBox (e : BoxElement) : list ContextCall :=
  let shouldFill :=
    (negb (JsString.isEmpty (box_color e))
     && String.eqb (JsString.toUpperCase (box_color e)) "F")
    || (PrimFloat.leb (box_width e) (box_thickness e)
        && PrimFloat.leb (box_height e) (box_thickness e)) in
  let colour := if box_reverse e then "white" else "black" in
  [Canvas OpSave]
  ++ (if shouldFill
      then [SetFillStyle colour;
            FillRect (box_x e) (box_y e) (box_width e) (box_height e)]
      else [SetLineWidth (JsNumber.orElse (box_thickness e) 1);
            SetStrokeStyle colour;
            StrokeRect (box_x e) (box_y e) (box_width e) (box_height e)])
  ++ [Canvas OpRestore].

(** [CircleDrawer.draw] *)
Definition drawCircle (e : CircleElement) : list ContextCall :=
  let radius := (circle_diameter e / 2)%float in
  [Canvas OpSave; BeginPath;
   Arc (circle_x e + radius)%float (circle_y e + radius)%float radius]
  ++ (if PrimFloat.eqb (circle_thickness e) 0 || String.eqb (circle_color e) "F"
      then [SetFillStyle "black"; Fill]
      else [SetLineWidth (circle_thickness e); SetStrokeStyle "black"; Stroke])
  ++ [ClosePath; Canvas OpRestore].

(** [DiagonalLineDrawer.draw] *)
Definition drawDiagonal (e : DiagonalElement) : list ContextCall :=
  [Canvas OpSave;
   SetLineWidth (JsNumber.orElse (diagonal_thickness e) 1);
   SetStrokeStyle "black";
   BeginPath;
   MoveTo (diagonal_x e) (diagonal_y e);
   LineTo (diagonal_x e + diagonal_width e)%float
          (diagonal_y e + diagonal_height e)%float;
   Stroke; ClosePath; Canvas OpRestore].

(** The face the text drawer selects for a font designator. *)
Definition fontFace (name : option string) : string :=
  if isFontZero name then "DejaVu Sans Condensed Bold" else "DejaVu Sans".

(** The [scaleX] that [TextDrawer.prepare] leaves on the element. *)
Definition textScaleX (e : TextElement) : float :=
  if isFontZero (text_fontName e) then
    if JsNumber.truthy (text_width e) && JsNumber.gt (text_width e) 0
       && JsNumber.truthy (text_height e) && JsNumber.gt (text_height e) 0
    then (text_width e / text_height e)%float
    else 0.65%float
  else 1%float.

(** [BarcodeDrawer.draw], on the element as [prepare] left it. *)
Definition drawBarcode (e : BarcodeElement) (pe : Prepared) : list ContextCall :=
  if hasImage pe then
    let w := renderWidth pe in
    let h := renderHeight pe in
    let rotated (a : Angle) :=
      [Canvas OpSave; Canvas (OpTranslate (barcode_x e) (barcode_y e));
       Canvas (OpRotate a); Canvas (OpDrawImage 0 0 w h); Canvas OpRestore] in
    match barcode_orientation e with
    | OrR => rotated MinusHalfPi
    | OrI => rotated FullPi
    | OrB => rotated HalfPi
    | OrN =>
        [Canvas OpSave; Canvas (OpDrawImage (barcode_x e) (barcode_y e) w h);
         Canvas OpRestore]
    end
  else [].

Section Drawing.

Variable decodePng : list Byte.byte -> option Bitmap.
Variable measureText : option string -> float -> string -> float.
Variable delegatedBarcode : BarcodeElement -> float * float * bool.
Variable makes : float -> float -> bool.

(** [TextDrawer.draw], on the element as [prepare] left it. *)
Definition drawText (e : TextElement) : list ContextCall :=
  let renderHeight := snd (prepareText measureText e) in
  let fontSize :=
    JsNumber.orElse (text_height e) (JsNumber.orElse renderHeight 10) in
  let baseY :=
    match text_originType e with
    | TopLeft => (text_y e + fontSize)%float
    | Baseline => text_y e
    end in
  let sx := JsNumber.orElse (textScaleX e) 1 in
  let baseX :=
    match text_blockWidth e, text_blockAlign e with
    | Some blockWidth, Some blockAlign =>
        if JsNumber.truthy blockWidth && negb (JsString.isEmpty blockAlign) then
          let actual :=
            (measureText (text_fontName e) fontSize (text_text e) * sx)%float in
          let align := JsString.toUpperCase blockAlign in
          let delta :=
            if String.eqb align "C" then ((blockWidth - actual) / 2)%float
            else if String.eqb align "R" then (blockWidth - actual)%float
            else 0%float in
          (text_x e + delta)%float
        else text_x e
    | _, _ => text_x e
    end in
  let fill :=
    if isFontZero (text_fontName e)
    then [FillText (text_text e) 0 0; FillText (text_text e) 1 0;
          FillText (text_text e) 0 1]
    else [FillText (text_text e) 0 0] in
  let rotation :=
    match text_orientation e with
    | OrR => [Canvas (OpRotate MinusHalfPi)]
    | OrI => [Canvas (OpRotate FullPi)]
    | OrB => [Canvas (OpRotate HalfPi)]
    | OrN => []
    end in
  [Canvas OpSave; SetFillStyle "black";
   SetFont fontSize (fontFace (text_fontName e));
   Canvas (OpTranslate baseX baseY)]
  ++ rotation ++ [Scale sx 1] ++ fill ++ [Canvas OpRestore].

(** The [draw] of the drawer [getDrawer] selects, after [prepare]. *)
Definition drawElement (el : Element) : list ContextCall :=
  match el with
  | Text e => drawText e
  | Barcode e =>
      drawBarcode e (prepare decodePng measureText delegatedBarcode makes el)
  | Box e => drawBox e
  | Circle e => drawCircle e
  | Diagonal e => drawDiagonal e
  | Image e => map Canvas (drawImage e (fst (fst (prepareImage decodePng e))))
  end.

(** The calls of [drawElements] on the context: the white background,
    then every element in emission order. *)
Definition drawCalls (els : list Element) : list ContextCall :=
  let canvasWidth :=
    JsNumber.ceil
      (fst (fold_left extend
                      (map (prepare decodePng measureText delegatedBarcode makes) els)
                      (0%float, 0%float))
       + canvasMargin)%float in
  let canvasHeight :=
    JsNumber.ceil
      (snd (fold_left extend
                      (map (prepare decodePng measureText delegatedBarcode makes) els)
                      (0%float, 0%float))
       + canvasMargin)%float in
  [SetFillStyle "white"; FillRect 0 0 canvasWidth canvasHeight]
  ++ flat_map drawElement els.

End Drawing.

(** The calls keep every transform between a [save] and its [restore]:
    from depth [d], no [restore] without a [save] before it, no
    translation, rotation or scaling at depth 0, and the depth found at
    the end. *)
Fixpoint scopedFrom (d : nat) (calls : list ContextCall) : option nat :=
  match calls with
  | [] => Some d
  | Canvas OpSave :: rest => scopedFrom (S d) rest
  | Canvas OpRestore :: rest =>
      match d with
      | O => None
      | S d' => scopedFrom d' rest
      end
  | Canvas (OpTranslate _ _) :: rest
  | Canvas (OpRotate _) :: rest
  | Scale _ _ :: rest =>
      match d with
      | O => None
      | S _ => scopedFrom d rest
      end
  | _ :: rest => scopedFrom d rest
  end.

(** ** Rendering *)

Definition isText (el : Element) : bool :=
  match el with Text _ => true | _ => false end.

Section Rendering.

Variable decodePng : list Byte.byte -> option Bitmap.
Variable measureText : option string -> float -> string -> float.
Variable delegatedBarcode : BarcodeElement -> float * float * bool.
Variable makes : float -> float -> bool.
Variable normalFontPath : string.
Variable loadFont : string -> Promise unit unit.

(** [PImage.encodePNGToStream(img, writable)] on the bitmap of the given
    size after the given calls on its context, with the bytes written to
    the stream.  This is the work of the image library on the canvas: an
    exception of a call on the context rejects the promise of
    [drawElements] as a rejection of the encoder does. *)
Variable encodePNGToStream :
  float -> float -> list ContextCall -> Promise unit (list Byte.byte).

(** [drawElements]: the fonts, the [prepare] of every element, the
    canvas, the [draw] of every element and the encoder.  The text drawer
    makes a bitmap of 1 x 1 to measure on; like the canvas it is made
    outside any [try], so an exception of [PImage.make] rejects the
    promise.  The other drawers catch what their [prepare] throws. *)
Definition drawElements (fonts : FontModule) (els : list Element)
    : FontModule * Promise Failure (list Byte.byte) :=
  match ensureFont normalFontPath loadFont fonts with
  | (fonts', Fulfilled _) =>
      (fonts',
       if existsb isText els && negb (makes 1 1) then Rejected CanvasNotMade
       else
         let size := canvasSize decodePng measureText delegatedBarcode makes els in
         if makes (fst size) (snd size) then
           match encodePNGToStream (fst size) (snd size)
                   (drawCalls decodePng measureText delegatedBarcode makes els) with
           | Fulfilled png => Fulfilled png
           | Rejected _ => Rejected DrawingFailed
           | Pending => Pending
           end
         else Rejected CanvasNotMade)
  | (fonts', Rejected reason) => (fonts', Rejected reason)
  | (fonts', Pending) => (fonts', Pending)
  end.

(** [render]: the error for a document without labels, else the first
    label drawn. *)
Definition render (fonts : FontModule) (zpl : string)
    : FontModule * Promise Failure (list Byte.byte) :=
  match analyze zpl with
  | [] => (fonts, Rejected NoLabelsDetected)
  | label :: _ => drawElements fonts (elements label)
  end.

End Rendering.

(** A bound that no host goes beyond: the language limits the length of
    an array buffer to 2^53 - 1 bytes, and a bitmap takes four bytes for
    each pixel. *)
Definition withinArrayLimit (w h : float) : bool :=
  PrimFloat.leb (w * h * 4)%float 9007199254740991%float.

(** * Properties *)

(** ** Strings *)

Lemma append_cons (c : ascii) (s t : string) :
  String c s +:+ t = String c (s +:+ t).
Proof. reflexivity. Qed.

Lemma append_empty_l (s : string) : "" +:+ s = s.
Proof. reflexivity. Qed.

Lemma append_empty_r (s : string) : s +:+ "" = s.
Proof.
  induction s as [|c s IH]; [reflexivity |].
  now rewrite append_cons, IH.
Qed.

Lemma append_assoc (a b c : string) : (a +:+ b) +:+ c = a +:+ (b +:+ c).
Proof.
  induction a as [|x a IH]; [reflexivity |].
  now rewrite !append_cons, IH.
Qed.

Lemma isEmpty_true (s : string) : JsString.isEmpty s = true -> s = "".
Proof. destruct s; simpl; [reflexivity | discriminate]. Qed.

Lemma isEmpty_false (s : string) :
  JsString.isEmpty s = false -> exists c r, s = String c r.
Proof. destruct s as [|c r]; simpl; [discriminate | eauto]. Qed.

(** ** The tokenizer *)

Lemma concatTokens_app (a b : list string) :
  concatTokens (a ++ b) = concatTokens a +:+ concatTokens b.
Proof.
  induction a as [|t a IH]; simpl; [reflexivity |].
  now rewrite IH, append_assoc.
Qed.

Lemma splitLoop_concat (clean : string) :
  forall commands buffer,
    concatTokens (splitLoop clean commands buffer)
    = concatTokens commands +:+ buffer +:+ clean.
Proof.
  induction clean as [|c rest IH]; intros commands buffer; simpl.
  - destruct buffer as [|b bs]; simpl.
    + now rewrite append_empty_r.
    + rewrite concatTokens_app. simpl. now rewrite !append_empty_r.
  - destruct (isIntroducer c && negb (JsString.isEmpty buffer)).
    + rewrite IH, concatTokens_app. simpl.
      now rewrite append_empty_r, append_assoc.
    + rewrite IH. now rewrite !append_assoc.
Qed.

Lemma wellSplit_snoc (tokens : list string) (t : string) :
  wellSplit tokens -> tokenShape t = true ->
  (tokens <> [] -> startsWithIntroducer t = true) ->
  wellSplit (tokens ++ [t]).
Proof.
  intros [Hs Hi] Ht Hstart. split.
  - apply Forall_app. split; [assumption | now constructor].
  - destruct tokens as [|t0 ts]; simpl; [constructor |].
    apply Forall_app. split; [assumption |].
    constructor; [apply Hstart; discriminate | constructor].
Qed.

Lemma wellSplit_unsnoc (tokens : list string) (t : string) :
  wellSplit (tokens ++ [t]) ->
  wellSplit tokens /\ tokenShape t = true
  /\ (tokens <> [] -> startsWithIntroducer t = true).
Proof.
  intros [Hs Hi]. apply Forall_app in Hs as [Hs Ht].
  inversion Ht; subst. repeat split; try assumption.
  - destruct tokens as [|t0 ts]; simpl in *; [constructor |].
    apply Forall_app in Hi. tauto.
  - intros Hne. destruct tokens as [|t0 ts]; [congruence |]. simpl in Hi.
    apply Forall_app in Hi as [_ Hi]. now inversion Hi.
Qed.

Lemma noIntroducer_snoc (s : string) (c : ascii) :
  noIntroducer s = true -> isIntroducer c = false ->
  noIntroducer (s +:+ String c "") = true.
Proof.
  intros Hs Hc. induction s as [|x s IH]; simpl in *.
  - now rewrite Hc.
  - apply andb_true_iff in Hs as [Hx Hs]. rewrite Hx. simpl. now apply IH.
Qed.

Lemma splitLoop_wellSplit (clean : string) :
  forall commands buffer,
    (buffer = "" /\ commands = []) \/ (buffer <> "" /\ wellSplit (commands ++ [buffer])) ->
    wellSplit (splitLoop clean commands buffer).
Proof.
  induction clean as [|c rest IH]; intros commands buffer Hinv; simpl.
  - destruct Hinv as [[-> ->] | [Hne Hw]].
    + simpl. split; constructor.
    + destruct buffer; [congruence | exact Hw].
  - destruct (isIntroducer c) eqn:Hc; simpl.
    + destruct buffer as [|b bs]; simpl.
      * apply IH. right. split; [discriminate |].
        destruct Hinv as [[_ ->] | [Hne _]]; [| congruence].
        simpl. split; [| constructor].
        constructor; [reflexivity | constructor].
      * apply IH. right. split; [discriminate |].
        destruct Hinv as [[Hb _] | [_ Hw]]; [discriminate |].
        apply wellSplit_snoc; [assumption | reflexivity |].
        intros _. simpl. exact Hc.
    + apply IH. right. split; [destruct buffer; discriminate |].
      destruct Hinv as [[-> ->] | [Hne Hw]].
      * simpl. split; [| constructor].
        constructor; [reflexivity | constructor].
      * apply wellSplit_unsnoc in Hw as (Hw & Hshape & Hstart).
        destruct buffer as [|b bs]; [congruence |].
        apply wellSplit_snoc; [assumption | |].
        -- simpl in *. now apply noIntroducer_snoc.
        -- intros Hcs. simpl. exact (Hstart Hcs).
Qed.

Lemma isVerticalSpace_spec (c : ascii) :
  isVerticalSpace c = isVerticalWhiteSpace c.
Proof. destruct c as [[] [] [] [] [] [] [] []]; reflexivity. Qed.

Lemma stripVertical_spec (s : string) :
  stripVertical s = withoutVerticalWhiteSpace s.
Proof.
  induction s as [|c s IH]; [reflexivity |].
  simpl. now rewrite isVerticalSpace_spec, IH.
Qed.

Lemma withoutVerticalWhiteSpace_clean (s : string) :
  hasVerticalWhiteSpace (withoutVerticalWhiteSpace s) = false.
Proof.
  induction s as [|c s IH]; [reflexivity |].
  simpl. destruct (isVerticalWhiteSpace c) eqn:Hc; [exact IH |].
  simpl. now rewrite Hc.
Qed.

Lemma hasVerticalWhiteSpace_app (a b : string) :
  hasVerticalWhiteSpace (a +:+ b)
  = hasVerticalWhiteSpace a || hasVerticalWhiteSpace b.
Proof.
  induction a as [|c a IH]; [reflexivity |].
  rewrite append_cons. simpl. now rewrite IH, orb_assoc.
Qed.

Lemma concatTokens_clean (tokens : list string) :
  hasVerticalWhiteSpace (concatTokens tokens) = false ->
  Forall (fun t => hasVerticalWhiteSpace t = false) tokens.
Proof.
  induction tokens as [|t rest IH]; intros H; constructor.
  - change (concatTokens (t :: rest)) with (t +:+ concatTokens rest) in H.
    rewrite hasVerticalWhiteSpace_app in H. now apply orb_false_iff in H.
  - apply IH.
    change (concatTokens (t :: rest)) with (t +:+ concatTokens rest) in H.
    rewrite hasVerticalWhiteSpace_app in H. now apply orb_false_iff in H.
Qed.

(** C8. For every input string, the tokens of [splitZplCommands] put back
    end to end are the input with all vertical white space (LF, VT, FF,
    CR) removed, which is what the cleaning of the code computes, and no
    token holds any of these characters; every token after the first
    begins with [^] or [~]; and every token is non-empty with no
    introducer after its first character, so each introducer is the first
    character of the token it starts. *)
Theorem splitZplCommands_tokens (zpl : string) :
  concatTokens (splitZplCommands zpl) = stripVertical zpl
  /\ Forall (fun t => startsWithIntroducer t = true) (tl (splitZplCommands zpl))
  /\ Forall (fun t => tokenShape t = true) (splitZplCommands zpl)
  /\ concatTokens (splitZplCommands zpl) = withoutVerticalWhiteSpace zpl
  /\ Forall (fun t => hasVerticalWhiteSpace t = false) (splitZplCommands zpl).
Proof.
  assert (Hconcat : concatTokens (splitZplCommands zpl) = stripVertical zpl).
  { unfold splitZplCommands. destruct (JsString.isEmpty zpl) eqn:He.
    - apply isEmpty_true in He. now subst.
    - now rewrite splitLoop_concat. }
  split; [exact Hconcat |].
  assert (Hshape :
    Forall (fun t => startsWithIntroducer t = true) (tl (splitZplCommands zpl))
    /\ Forall (fun t => tokenShape t = true) (splitZplCommands zpl)).
  { unfold splitZplCommands. destruct (JsString.isEmpty zpl) eqn:He.
    - split; constructor.
    - pose proof (splitLoop_wellSplit (stripVertical zpl) [] "") as [Hs Hi].
      + left. split; reflexivity.
      + split; assumption. }
  destruct Hshape as [Hstart Htok].
  split; [exact Hstart |]. split; [exact Htok |].
  rewrite stripVertical_spec in Hconcat. split; [exact Hconcat |].
  apply concatTokens_clean. rewrite Hconcat.
  apply withoutVerticalWhiteSpace_clean.
Qed.

(** ** Reading a command *)

Lemma toUpperCase_cons (c : ascii) (r : string) :
  JsString.code c <> 223 ->
  JsString.toUpperCase (String c r)
  = String (JsString.upperChar c) (JsString.toUpperCase r).
Proof.
  intros Hc. simpl. destruct (JsString.code c =? 223) eqn:E; [| reflexivity].
  apply Nat.eqb_eq in E. contradiction.
Qed.

(** A code unit whose canonical form is not the sharp s is not the sharp
    s. *)
Lemma upperChar_not_sharp (c d : ascii) :
  JsString.upperChar c = d -> JsString.code d <> 223 -> JsString.code c <> 223.
Proof.
  intros Hu Hd Hc. apply Hd. rewrite <- Hu. unfold JsString.upperChar.
  rewrite Hc. exact Hc.
Qed.

(** A code unit outside ASCII never has an ASCII upper case: comparing an
    upper-cased string with an ASCII constant reads ASCII letters only. *)
Lemma upperChar_ascii (c : ascii) :
  JsString.code (JsString.upperChar c) < 128 -> JsString.code c < 128.
Proof.
  destruct c as [[] [] [] [] [] [] [] []]; vm_compute; intros H; lia.
Qed.

Lemma commandPrefix_cons3 (c0 c1 c2 : ascii) (r : string) :
  JsString.code c1 <> 223 -> JsString.code c2 <> 223 ->
  commandPrefix (String c0 (String c1 (String c2 r)))
  = String (JsString.upperChar c1) (String (JsString.upperChar c2) "").
Proof.
  intros H1 H2.
  change (commandPrefix (String c0 (String c1 (String c2 r))))
    with (JsString.toUpperCase (String c1 (String c2 ""))).
  now rewrite !toUpperCase_cons.
Qed.

(** A designator is read from a command of two characters at least. *)
Lemma commandPrefix_length2 (cmd : string) :
  String.length (commandPrefix cmd) = 2 -> (String.length cmd <? 2) = false.
Proof. destruct cmd as [|c0 [|c1 r]]; simpl; try discriminate; reflexivity. Qed.

Lemma testLabelCommand_prefix (third : ascii) (cmd : string) :
  JsString.code third <> 223 ->
  testLabelCommand third cmd = true ->
  commandPrefix cmd = String "X" (String third "").
Proof.
  intros Hthird.
  destruct cmd as [|c0 [|c1 [|c2 r]]]; simpl; try discriminate.
  intros H. apply andb_true_iff in H as [H H2].
  apply andb_true_iff in H as [_ H1].
  apply Ascii.eqb_eq in H1, H2.
  rewrite commandPrefix_cons3, H1, H2; [reflexivity | |].
  - apply (upperChar_not_sharp _ _ H1). discriminate.
  - apply (upperChar_not_sharp _ _ H2 Hthird).
Qed.

Lemma testLabelCommand_length (third : ascii) (cmd : string) :
  testLabelCommand third cmd = true -> (String.length cmd <? 2) = false.
Proof. destruct cmd as [|c0 [|c1 [|c2 r]]]; simpl; try discriminate; reflexivity. Qed.

(** The two label commands exclude each other. *)
Lemma testXZ_not_XA (cmd : string) : testXZ cmd = true -> testXA cmd = false.
Proof.
  intros Hz. destruct (testXA cmd) eqn:Ha; [| reflexivity].
  apply testLabelCommand_prefix in Hz, Ha; try discriminate. congruence.
Qed.

(** A token whose designator is neither [XA] nor [XZ] goes through the
    [switch]. *)
Lemma step_dispatch (st : AnalyzerState) (rawCmd prefix : string) :
  commandPrefix (JsString.trim rawCmd) = prefix ->
  String.length prefix = 2 -> prefix <> "XA" -> prefix <> "XZ" ->
  step st rawCmd =
    {| printer := fst (execCommand prefix (JsString.trim rawCmd) (printer st));
       labels := labels st;
       currentElements :=
         currentElements st
         ++ snd (execCommand prefix (JsString.trim rawCmd) (printer st)) |}.
Proof.
  intros Hp Hlen Ha Hz. unfold step.
  assert (Hl : String.length (commandPrefix (JsString.trim rawCmd)) = 2)
    by now rewrite Hp.
  rewrite (commandPrefix_length2 _ Hl).
  destruct (testXA (JsString.trim rawCmd)) eqn:Hxa.
  { apply testLabelCommand_prefix in Hxa; [congruence | discriminate]. }
  destruct (testXZ (JsString.trim rawCmd)) eqn:Hxz.
  { apply testLabelCommand_prefix in Hxz; [congruence | discriminate]. }
  rewrite Hp.
  now destruct (execCommand prefix (JsString.trim rawCmd) (printer st)).
Qed.

Lemma step_XA (st : AnalyzerState) (rawCmd : string) :
  testXA (JsString.trim rawCmd) = true ->
  step st rawCmd =
    {| printer := Printer.reset; labels := labels st; currentElements := [] |}.
Proof.
  intros H. unfold step.
  now rewrite (testLabelCommand_length _ _ H), H.
Qed.

Lemma step_XZ (st : AnalyzerState) (rawCmd : string) :
  testXZ (JsString.trim rawCmd) = true -> step st rawCmd = pushLabel st.
Proof.
  intros H. unfold step.
  now rewrite (testLabelCommand_length _ _ H), (testXZ_not_XA _ H), H.
Qed.

(** A designator spelled out selects its handler. *)
Ltac dispatch H :=
  rewrite (step_dispatch _ _ _ H) by (reflexivity || discriminate);
  cbn [execCommand String.eqb Ascii.eqb Bool.eqb fst snd printer currentElements labels].

(** ** Numbers that differ *)

Lemma float_neq (a b : float) :
  PrimFloat.eqb a b = false -> PrimFloat.eqb a a = true -> a <> b.
Proof. intros Hab Haa E. rewrite <- E in Hab. congruence. Qed.

(** ** The end of a label *)

(** C3, as the code has it. Immediately after an [^XZ] command the
    pending barcode and the next position of the virtual printer are
    cleared; the field block is left as it was before the command. *)
Theorem label_end_clears_pending (st : AnalyzerState) (rawCmd : string) :
  testXZ (JsString.trim rawCmd) = true ->
  pendingBarcode (printer (step st rawCmd)) = None
  /\ nextPosition (printer (step st rawCmd)) = None
  /\ fieldBlock (printer (step st rawCmd)) = fieldBlock (printer st).
Proof.
  intros H. rewrite (step_XZ _ _ H). repeat split; reflexivity.
Qed.

Lemma label_end_clears_pending_witness :
  let st := interpret "^XA^FO3,4^FB60,2^BCN,10" in
  pendingBarcode (printer (step st "^XZ")) = None
  /\ nextPosition (printer (step st "^XZ")) = None
  /\ fieldBlock (printer (step st "^XZ")) = fieldBlock (printer st).
Proof.
  exact (label_end_clears_pending (interpret "^XA^FO3,4^FB60,2^BCN,10") "^XZ" eq_refl).
Defined.

(** C3 as stated fails: after [^XA^FB60^XZ] the field block armed by
    [^FB] is still there. *)
Lemma field_block_survives_label_end :
  ~ (pendingBarcode (printer (interpret "^XA^FB60^XZ")) = None
     /\ fieldBlock (printer (interpret "^XA^FB60^XZ")) = None).
Proof. intros [_ H]. vm_compute in H. discriminate. Qed.

(** ** The default font *)

(** C4, as the code has it. For every [^CF] command: a missing height
    field leaves [fontHeight] as it was, a missing or blank designator
    leaves [fontName] as it was, and a missing width field sets
    [fontWidth] to 0, the default of [setFont]'s parameter. *)
Theorem changeFont_absent_fields (st : AnalyzerState) (rawCmd : string) :
  commandPrefix (JsString.trim rawCmd) = "CF" ->
  let parts := commandParts (JsString.trim rawCmd) in
  (nth_error parts 1 = None ->
   fontHeight (printer (step st rawCmd)) = fontHeight (printer st))
  /\ (nth_error parts 2 = None ->
      fontWidth (printer (step st rawCmd)) = 0%float)
  /\ (JsString.trim (nth 0 parts "") = "" ->
      fontName (printer (step st rawCmd)) = fontName (printer st)).
Proof.
  intros H parts. dispatch H. unfold changeFont. fold parts.
  repeat split; intros Habs; simpl.
  - unfold validIntAt. now rewrite Habs.
  - unfold validIntAt. now rewrite Habs.
  - destruct parts as [|s rest]; simpl in *; [reflexivity |].
    now rewrite Habs.
Qed.

Lemma changeFont_absent_fields_witness :
  let st := interpret "^XA^A0N,20,10" in
  fontHeight (printer (step st "^CF")) = fontHeight (printer st)
  /\ fontWidth (printer (step st "^CF")) = 0%float
  /\ fontName (printer (step st "^CF")) = fontName (printer st).
Proof.
  pose proof (changeFont_absent_fields (interpret "^XA^A0N,20,10") "^CF" eq_refl)
    as (Hh & Hw & Hn).
  cbv zeta. split; [| split]; [apply Hh | apply Hw | apply Hn]; reflexivity.
Defined.

(** C4 as stated fails: [^CF0] after [^A0N,20,10] does not leave the
    font width, 10, unchanged. *)
Lemma changeFont_resets_width :
  fontWidth (printer (interpret "^XA^A0N,20,10")) = 10%float
  /\ fontWidth (printer (interpret "^XA^A0N,20,10^CF0"))
     <> fontWidth (printer (interpret "^XA^A0N,20,10")).
Proof.
  split; [vm_compute; reflexivity |].
  apply float_neq; vm_compute; reflexivity.
Qed.

(** ** Field data *)

Lemma trimEnd_cons (c : ascii) (r : string) :
  JsString.isWhiteSpace c = false ->
  JsString.trimEnd (String c r) = String c (JsString.trimEnd r).
Proof.
  intros H. simpl. destruct (JsString.trimEnd r); [now rewrite H | reflexivity].
Qed.

Lemma trimEnd_unchanged (s : string) :
  endsWithWhiteSpace s = false -> JsString.trimEnd s = s.
Proof.
  induction s as [|c r IH]; [reflexivity |].
  intros H. destruct r as [|d r'].
  - simpl in *. now rewrite H.
  - change (endsWithWhiteSpace (String c (String d r')))
      with (endsWithWhiteSpace (String d r')) in H.
    specialize (IH H).
    change (JsString.trimEnd (String c (String d r')))
      with (match JsString.trimEnd (String d r') with
            | EmptyString =>
                if JsString.isWhiteSpace c then EmptyString else String c EmptyString
            | r0 => String c r0
            end).
    now rewrite IH.
Qed.

(** Trimming an [^FD] token trims its payload at the end only. *)
Lemma trim_field_data (payload : string) :
  JsString.trim ("^FD" +:+ payload) = "^FD" +:+ JsString.trimEnd payload.
Proof.
  unfold JsString.trim.
  change (JsString.trimStart ("^FD" +:+ payload))
    with (String "^" (String "F" (String "D" payload))).
  now rewrite !trimEnd_cons by reflexivity.
Qed.

Lemma blockElements_texts font originType block pos fontHeight offsetY maxLines :
  forall lines i,
    exists k,
      map textOf (blockElements font originType block pos fontHeight offsetY
                                maxLines i lines)
      = map Some (firstn k lines).
Proof.
  induction lines as [|line rest IH]; intros i; simpl.
  - exists 0. reflexivity.
  - destruct (PrimFloat.ltb (JsNumber.ofNat i) maxLines).
    + destruct (IH (S i)) as [k Hk]. exists (S k). simpl. now rewrite Hk.
    + exists 0. reflexivity.
Qed.

Lemma blockElements_reverse font originType block pos fontHeight offsetY maxLines :
  forall lines i,
    Forall (fun el => reverseOf el = None)
           (blockElements font originType block pos fontHeight offsetY
                          maxLines i lines).
Proof.
  induction lines as [|line rest IH]; intros i; simpl; [constructor |].
  destruct (PrimFloat.ltb (JsNumber.ofNat i) maxLines); constructor;
    [reflexivity | apply IH].
Qed.

(** What [^FD] pushes, by the state of the printer. *)
Lemma fieldData_pushed (cmd : string) (p : VirtualPrinter) :
  let text := JsString.substringFrom 3 cmd in
  match pendingBarcode p, fieldBlock p with
  | Some _, _ =>
      exists e, snd (fieldData cmd p) = [Barcode e] /\ barcode_text e = text
  | None, None =>
      exists e, snd (fieldData cmd p) = [Text e] /\ text_text e = text
  | None, Some block =>
      exists k,
        map textOf (snd (fieldData cmd p))
        = map Some (firstn k (wrapText (maxCharsOf (Printer.getFont p) block) text))
  end.
Proof.
  unfold fieldData. destruct (pendingBarcode p) as [bc|].
  - simpl. eexists. split; reflexivity.
  - destruct (fieldBlock p) as [block|]; simpl.
    + apply blockElements_texts.
    + eexists. split; reflexivity.
Qed.

(** [^FD] neither reads nor clears the reverse flag, and what it pushes
    has no [reverse] property. *)
Lemma fieldData_reverse (cmd : string) (p : VirtualPrinter) :
  reverseNext (fst (fieldData cmd p)) = reverseNext p
  /\ Forall (fun el => reverseOf el = None) (snd (fieldData cmd p)).
Proof.
  unfold fieldData. destruct (pendingBarcode p) as [bc|].
  - simpl. split; [reflexivity | repeat constructor].
  - destruct (fieldBlock p) as [block|]; simpl.
    + split; [reflexivity | apply blockElements_reverse].
    + split; [reflexivity | repeat constructor].
Qed.

Lemma step_fieldData_reverse (st : AnalyzerState) (rawCmd : string) :
  commandPrefix (JsString.trim rawCmd) = "FD" ->
  reverseNext (printer (step st rawCmd)) = reverseNext (printer st)
  /\ exists pushed : list Element,
       currentElements (step st rawCmd) = (currentElements st ++ pushed)%list
       /\ Forall (fun el => reverseOf el = None) pushed.
Proof.
  intros H. dispatch H.
  destruct (fieldData_reverse (JsString.trim rawCmd) (printer st)) as [Hr Hp].
  split; [exact Hr | eauto].
Qed.

(** The shape and image commands do consume the flag. *)
Lemma step_consumes_reverse (st : AnalyzerState) (rawCmd : string) :
  In (commandPrefix (JsString.trim rawCmd)) ["GB"; "GC"; "GD"; "IM"; "XG"] ->
  reverseNext (printer (step st rawCmd)) = false
  /\ exists el : Element,
       currentElements (step st rawCmd) = (currentElements st ++ [el])%list
       /\ reverseOf el = Some (reverseNext (printer st)).
Proof.
  intros Hin. simpl in Hin.
  destruct Hin as [H | [H | [H | [H | [H | []]]]]]; symmetry in H; dispatch H;
    (split; [reflexivity | eexists; split; reflexivity]).
Qed.

(** C2, at the input where the code departs from it. In
    [^XA^FR^FO0,0^FDA] the flag armed by [^FR] is still armed after [^FD]
    has pushed its Text element, which has no [reverse] property; a [^GB]
    that follows in another field is the element that captures it. *)
Theorem reverse_flag_survives_field_data :
  reverseNext (printer (interpret "^XA^FR^FO0,0")) = true
  /\ map reverseOf (currentElements (interpret "^XA^FR^FO0,0^FDA")) = [None]
  /\ reverseNext (printer (interpret "^XA^FR^FO0,0^FDA")) = true
  /\ map (fun l => map reverseOf (elements l))
         (analyze "^XA^FR^FO0,0^FDA^FS^FO0,0^GB10,10,1^FS^XZ")
     = [[None; Some true]].
Proof. repeat split; vm_compute; reflexivity. Qed.

(** C5, as the code has it. For every [^FD] token the payload is read
    from the trimmed token, so the text of the element is the payload
    without its trailing white space: verbatim for a payload that does not
    end in white space, leading white space included.  A pending barcode
    takes it as the text of one Barcode element, a printer without field
    block as the text of one Text element; under a field block the Text
    elements carry, in order, the first lines of the payload split at
    [\&] and at white space and repacked. *)
Theorem fieldData_text (st : AnalyzerState) (payload : string) :
  let text := JsString.trimEnd payload in
  let p := printer st in
  (endsWithWhiteSpace payload = false -> text = payload)
  /\ exists pushed : list Element,
       currentElements (step st ("^FD" +:+ payload)) = (currentElements st ++ pushed)%list
       /\ match pendingBarcode p, fieldBlock p with
          | Some _, _ => exists e, pushed = [Barcode e] /\ barcode_text e = text
          | None, None => exists e, pushed = [Text e] /\ text_text e = text
          | None, Some block =>
              exists k,
                map textOf pushed
                = map Some (firstn k (wrapText (maxCharsOf (Printer.getFont p) block) text))
          end.
Proof.
  intros text p. split; [apply trimEnd_unchanged |].
  assert (H : commandPrefix (JsString.trim ("^FD" +:+ payload)) = "FD")
    by now rewrite trim_field_data.
  dispatch H. rewrite trim_field_data. eexists. split; [reflexivity |].
  exact (fieldData_pushed ("^FD" +:+ JsString.trimEnd payload) (printer st)).
Qed.

Lemma fieldData_text_witness :
  JsString.trimEnd "  a b" = "  a b"
  /\ exists pushed : list Element,
       currentElements (step (interpret "^XA^FO1,2") "^FD  a b") = pushed
       /\ exists e, pushed = [Text e] /\ text_text e = "  a b".
Proof.
  destruct (fieldData_text (interpret "^XA^FO1,2") "  a b") as [Hid [pushed [Hc Hm]]].
  split; [apply Hid; reflexivity |].
  exists pushed. split; [exact Hc | exact Hm].
Defined.

(** C5 as stated fails: the payload of [^FDhi ] ends in a space, which
    the text of the element does not have. *)
Lemma fieldData_trailing_space_lost :
  exists e,
    analyze "^XA^FO0,0^FDhi ^FS^XZ" = [ {| elements := [Text e] |} ]
    /\ text_text e = "hi" /\ text_text e <> "hi ".
Proof. eexists. split; [vm_compute; reflexivity |]. split; [reflexivity | discriminate]. Qed.

(** ** The graphic store *)

(** Only the two download commands write to the store. *)
Lemma execCommand_graphics (prefix cmd : string) (p : VirtualPrinter) :
  prefix <> "DG" -> prefix <> "DY" ->
  graphics (fst (execCommand prefix cmd p)) = graphics p.
Proof.
  intros Hdg Hdy. unfold execCommand.
  repeat match goal with
         | |- context [String.eqb prefix ?s] =>
             let E := fresh "E" in
             destruct (String.eqb prefix s) eqn:E;
             [ try (apply String.eqb_eq in E; congruence) | clear E ]
         end;
    try reflexivity.
  - unfold fieldOrientationCommand.
    destruct (JsString.isEmpty _); [reflexivity |].
    simpl. unfold Printer.setFieldOrientation.
    now destruct (Printer.orientationOfString _).
  - unfold fieldData. destruct (pendingBarcode p); [reflexivity |].
    now destruct (fieldBlock p).
  - destruct (JsString.startsWithChar "B" prefix).
    + unfold barcodeCommand. destruct (takeOrientation _) as [o rest].
      now destruct (barcodeSpecOf _ _ _ _).
    + destruct (JsString.startsWithChar "A" prefix); [| reflexivity].
      unfold fontCommand. now destruct (takeOrientation _) as [o rest].
Qed.

Lemma execCommand_graphicsPrototype (prefix cmd : string) (p : VirtualPrinter) :
  prefix <> "DG" -> prefix <> "DY" ->
  graphicsPrototype (fst (execCommand prefix cmd p)) = graphicsPrototype p.
Proof.
  intros Hdg Hdy. unfold execCommand.
  repeat match goal with
         | |- context [String.eqb prefix ?s] =>
             let E := fresh "E" in
             destruct (String.eqb prefix s) eqn:E;
             [ try (apply String.eqb_eq in E; congruence) | clear E ]
         end;
    try reflexivity.
  - unfold fieldOrientationCommand.
    destruct (JsString.isEmpty _); [reflexivity |].
    simpl. unfold Printer.setFieldOrientation.
    now destruct (Printer.orientationOfString _).
  - unfold fieldData. destruct (pendingBarcode p); [reflexivity |].
    now destruct (fieldBlock p).
  - destruct (JsString.startsWithChar "B" prefix).
    + unfold barcodeCommand. destruct (takeOrientation _) as [o rest].
      now destruct (barcodeSpecOf _ _ _ _).
    + destruct (JsString.startsWithChar "A" prefix); [| reflexivity].
      unfold fontCommand. now destruct (takeOrientation _) as [o rest].
Qed.

Lemma step_graphics_empty (st : AnalyzerState) (rawCmd : string) :
  freshStore (printer st) -> isDownload rawCmd = false ->
  freshStore (printer (step st rawCmd)).
Proof.
  intros Hempty Hnd. unfold step.
  destruct (String.length (JsString.trim rawCmd) <? 2); [assumption |].
  destruct (testXA (JsString.trim rawCmd)); [split; reflexivity |].
  destruct (testXZ (JsString.trim rawCmd)); [assumption |].
  apply orb_false_iff in Hnd as [Hdg Hdy].
  apply String.eqb_neq in Hdg, Hdy.
  pose proof (execCommand_graphics _ (JsString.trim rawCmd) (printer st) Hdg Hdy) as Hg.
  pose proof (execCommand_graphicsPrototype _ (JsString.trim rawCmd) (printer st) Hdg Hdy)
    as Hp.
  destruct (execCommand _ _ _) as [p' pushed]. destruct Hempty as [He Hn].
  simpl in *. split; congruence.
Qed.

Lemma run_graphics_empty (commands : list string) :
  forall st,
    freshStore (printer st) ->
    forallb (fun t => negb (isDownload t)) commands = true ->
    freshStore (printer (run commands st)).
Proof.
  induction commands as [|t rest IH]; intros st Hempty Hall; simpl in *.
  - assumption.
  - apply andb_true_iff in Hall as [Ht Hrest].
    apply IH; [| assumption].
    apply step_graphics_empty; [assumption |].
    now apply negb_true_iff in Ht.
Qed.

(** What a recall pushes: one Image whose graphic is what the store
    answers for the trimmed name. *)
Lemma recallGraphic_pushed (cmd : string) (p : VirtualPrinter) :
  exists e : ImageElement,
    snd (recallGraphic cmd p) = [Image e]
    /\ image_graphic e
       = Printer.getGraphic (JsString.trim (nth 0 (commandParts cmd) "")) p.
Proof.
  unfold recallGraphic. simpl. eexists. split; [reflexivity |]. simpl.
  destruct (commandParts cmd) as [|s rest]; [reflexivity |].
  simpl. now destruct s.
Qed.

Lemma step_recall (st : AnalyzerState) (rawCmd : string) :
  isRecall rawCmd = true ->
  exists e : ImageElement,
    currentElements (step st rawCmd) = (currentElements st ++ [Image e])%list
    /\ image_graphic e
       = Printer.getGraphic
           (JsString.trim (nth 0 (commandParts (JsString.trim rawCmd)) ""))
           (printer st).
Proof.
  intros Hr.
  destruct (recallGraphic_pushed (JsString.trim rawCmd) (printer st)) as (e & He & Hg).
  exists e. split; [| exact Hg].
  apply orb_true_iff in Hr.
  destruct Hr as [H | H]; apply String.eqb_eq in H; dispatch H; now rewrite He.
Qed.

Lemma getGraphic_fresh (key : string) (p : VirtualPrinter) :
  freshStore p -> Printer.getGraphic key p = Printer.inherited key None.
Proof.
  intros [He Hn]. unfold Printer.getGraphic. rewrite He, Hn, lookup_empty.
  unfold Printer.inherited, Printer.inheritedFromObject.
  destruct (String.eqb key "__proto__"); [reflexivity |].
  now destruct (existsb _ _).
Qed.

(** Every [^XA] resets the virtual printer and so leaves the store
    without a property of its own, whatever was downloaded before; as
    long as no [~DG] or [~DY] follows it, an [^XG] or [^IM] pushes one
    Image element whose graphic is what a plain empty object answers for
    the name: null, but for the names that [Object.prototype] defines. *)
Lemma label_start_clears_own_graphics
    (st : AnalyzerState) (xa : string) (between : list string) (recall : string) :
  testXA (JsString.trim xa) = true ->
  forallb (fun t => negb (isDownload t)) between = true ->
  isRecall recall = true ->
  printer (step st xa) = Printer.reset
  /\ exists e : ImageElement,
       currentElements (step (run between (step st xa)) recall)
       = (currentElements (run between (step st xa)) ++ [Image e])%list
       /\ image_graphic e
          = Printer.inherited
              (JsString.trim (nth 0 (commandParts (JsString.trim recall)) "")) None
       /\ (existsb (String.eqb
                      (JsString.trim (nth 0 (commandParts (JsString.trim recall)) "")))
                   ("__proto__" :: Printer.objectPrototypeMethods) = false ->
           image_graphic e = None).
Proof.
  intros Hxa Hbetween Hrecall.
  assert (Hreset : printer (step st xa) = Printer.reset)
    by now rewrite (step_XA _ _ Hxa).
  split; [exact Hreset |].
  assert (Hfresh : freshStore (printer (run between (step st xa)))).
  { apply run_graphics_empty; [| assumption]. rewrite Hreset. split; reflexivity. }
  destruct (step_recall (run between (step st xa)) recall Hrecall) as (e & He & Hg).
  exists e. split; [exact He |].
  rewrite (getGraphic_fresh _ _ Hfresh) in Hg. split; [exact Hg |].
  intros Hname. rewrite Hg. unfold Printer.inherited, Printer.inheritedFromObject.
  cbn [existsb] in Hname. apply orb_false_iff in Hname as [Hp Hm].
  now rewrite Hp, Hm.
Qed.

(** C10, at the input where the code departs from it.  A graphic is
    downloaded under the name [constructor] and a second label starts.
    The [^XA] leaves the store without a property of its own, but the
    store is a plain object: the [^XG] that names the graphic finds the
    method that every object inherits from [Object.prototype], and the
    Image element it pushes has that function as its graphic, not null. *)
Theorem label_start_recalls_inherited_member :
  let before := "^XA~DGconstructor,2,1,FFFF^XZ" in
  graphics (printer (interpret before)) !! "constructor"
  = Some (RawGraphic 2 1 "FFFF")
  /\ graphics (printer (interpret (before +:+ "^XA"))) = ∅
  /\ graphicsPrototype (printer (interpret (before +:+ "^XA"))) = None
  /\ map (fun l => map (fun el => match el with
                                  | Image e => image_graphic e
                                  | _ => None
                                  end) (elements l))
         (analyze (before +:+ "^XA^XGconstructor,1,1^XZ"))
     = [[]; [Some (BuiltinFunction "constructor")]]
  /\ map (fun l => map (fun el => match el with
                                  | Image e => image_graphic e
                                  | _ => None
                                  end) (elements l))
         (analyze (before +:+ "^XA^XGR:A.GRF,1,1^XZ"))
     = [[]; [None]].
Proof. repeat split; vm_compute; reflexivity. Qed.


(** ** The scenarios *)

(** C1 as stated fails: the field block of the scenario does not give the
    three elements "Hello", "world", "here". *)
Lemma field_block_scenario_not_three_lines :
  textsOf (analyze "^XA^FO0,0^FB60,0,0,C,0^A0N,20,10^FDHello world here^FS^XZ")
  <> [[Some "Hello"; Some "world"; Some "here"]].
Proof. vm_compute. discriminate. Qed.

(** C1, as the code has it. The font of the scenario is font 0 with
    height 20 and width 10, so the scale is width / height = 0.5, a
    character is estimated at 20 x 0.6 x 0.5 = 6 dots and a line of the
    60-dot block holds floor(60 / 6) = 10 characters: greedy packing gives
    exactly one label of exactly two Text elements, "Hello" and
    "world here", in that order. *)
Theorem field_block_scenario :
  let before := interpret "^XA^FO0,0^FB60,0,0,C,0^A0N,20,10" in
  let text (x y : float) (s : string) :=
    Text {| text_x := x; text_y := y; text_text := s;
            text_height := 20; text_width := 10; text_fontName := Some "0";
            text_orientation := OrN; text_originType := TopLeft;
            text_blockWidth := Some 60%float; text_blockAlign := Some "C" |} in
  estimateScaleX (Printer.getFont (printer before)) = 0.5%float
  /\ option_map (maxCharsOf (Printer.getFont (printer before)))
                (fieldBlock (printer before)) = Some 10%float
  /\ wrapText 10 "Hello world here" = ["Hello"; "world here"]
  /\ analyze "^XA^FO0,0^FB60,0,0,C,0^A0N,20,10^FDHello world here^FS^XZ"
     = [ {| elements := [text 0 0 "Hello"; text 0 20 "world here"]%float |} ].
Proof. repeat split; vm_compute; reflexivity. Qed.

(** C9. The scenario yields exactly one Barcode element with the fields
    of the claim.  For it the generator counts 84 modules: 10 of quiet
    zone, 12 for each of the five characters of [*123*] (six narrow
    elements and three wide ones of ratio 2), 4 gaps of one module between
    them, and 10 of quiet zone; the bitmap is ceil(84 x 2) = 168 dots
    wide, the first bar starts at dot 20 and the last one ends at dot 148,
    20 dots before the right edge.  On every host the generator returns
    this bitmap once the fonts are there and the image library has made
    the 168 x 50 bitmap; it rejects when the library throws instead, and
    ends as [ensureFont] ends when that does not resolve. *)
Theorem code39_scenario :
  let e :=
    {| barcode_x := 0; barcode_y := 0; barcode_codeType := code39;
       barcode_text := "123"; barcode_height := 50; barcode_moduleWidth := 2;
       barcode_ratio := 2; barcode_options := noOptions;
       barcode_orientation := OrN; barcode_printInterpretation := false;
       barcode_printAbove := false |} in
  let img := Code39.image e in
  analyze "^XA^BY2,2,50^FO0,0^B3N,N,50,N,N^FD123^FS^XZ"
  = [ {| elements := [Barcode e] |} ]
  /\ map (fun ch => Code39.addPattern 2 (Code39.patternOrDash ch) 0)
         (list_ascii_of_string "*123*")
     = [12; 12; 12; 12; 12]%float
  /\ Code39.totalModules 2 "*123*" = (10 + (12 + 12 + 12 + 12 + 12) + 4 + 10)%float
  /\ Code39.totalModules 2 "*123*" = 84%float
  /\ Code39.img_width img = JsNumber.ceil (Code39.totalModules 2 "*123*" * 2)%float
  /\ Code39.img_width img = 168%float
  /\ Code39.img_height img = 50%float
  /\ option_map Code39.bar_x (head (Code39.img_bars img)) = Some (10 * 2)%float
  /\ forallb (fun b => PrimFloat.leb 20 (Code39.bar_x b)
                       && PrimFloat.leb (Code39.bar_x b + Code39.bar_width b) 148)
             (Code39.img_bars img) = true
  /\ Code39.barsRightEdge (Code39.img_bars img) = (168 - 10 * 2)%float
  /\ (forall (normalFontPath : string) (loadFont : string -> Promise unit unit)
             (makes : float -> float -> bool) (fonts : FontModule),
         snd (Code39.generateCode39Image normalFontPath loadFont makes fonts e)
         = match snd (ensureFont normalFontPath loadFont fonts) with
           | Fulfilled _ =>
               if makes 168%float 50%float then Fulfilled img
               else Rejected CanvasNotMade
           | Rejected reason => Rejected reason
           | Pending => Pending
           end).
Proof.
  repeat split; try (vm_compute; reflexivity).
  intros normalFontPath loadFont makes fonts.
  unfold Code39.generateCode39Image, Code39.made.
  destruct (ensureFont normalFontPath loadFont fonts) as [fonts' [[] | reason |]];
    try reflexivity.
  cbn [snd].
  change (Code39.img_width (Code39.image _)) with (Code39.img_width (Code39.image
    {| barcode_x := 0; barcode_y := 0; barcode_codeType := code39;
       barcode_text := "123"; barcode_height := 50; barcode_moduleWidth := 2;
       barcode_ratio := 2; barcode_options := noOptions;
       barcode_orientation := OrN; barcode_printInterpretation := false;
       barcode_printAbove := false |})).
  replace (Code39.img_width _) with 168%float by (vm_compute; reflexivity).
  replace (Code39.img_height _) with 50%float by (vm_compute; reflexivity).
  now destruct (makes 168%float 50%float).
Qed.

(** C6, as the code has it. In the scenario [~DY] stores a PNG graphic
    under "R:L.PNG" and [^XG] pushes the one element of the one label, an
    Image that refers to it.  With a decoder that fails on the stored
    bytes, [prepare] leaves no bitmap and a render size of 0 x 0, [draw]
    issues nothing, and the canvas is the 4-dot margin alone: 4 x 4. *)
Theorem download_recall_scenario
    (decodePng : list Byte.byte -> option Bitmap)
    (measureText : option string -> float -> string -> float)
    (delegatedBarcode : BarcodeElement -> float * float * bool)
    (makes : float -> float -> bool) :
  let doc := "^XA~DYR:L.PNG,P,P,4,,,89504E470D0A1A0A^FO0,0^XGR:L.PNG,1,1^FS^XZ" in
  (forall data,
      Printer.getGraphic "R:L.PNG" (printer (interpret doc)) = Some (PngGraphic data) ->
      decodePng data = None) ->
  exists data e,
    Printer.getGraphic "R:L.PNG" (printer (interpret doc)) = Some (PngGraphic data)
    /\ analyze doc = [ {| elements := [Image e] |} ]
    /\ e = {| image_x := 0; image_y := 0; image_scaleX := 1; image_scaleY := 1;
              image_reverse := false; image_orientation := OrN;
              image_graphic := Some (PngGraphic data) |}
    /\ prepareImage decodePng e = (None, 0%float, 0%float)
    /\ drawImage e (fst (fst (prepareImage decodePng e))) = []
    /\ canvasSize decodePng measureText delegatedBarcode makes [Image e]
       = (4%float, 4%float).
Proof.
  intros doc Hfail.
  assert (Hg : Printer.getGraphic "R:L.PNG" (printer (interpret doc))
               = Some (PngGraphic [])) by (vm_compute; reflexivity).
  pose proof (Hfail _ Hg) as Hd.
  eexists. eexists. split; [exact Hg |].
  split; [vm_compute; reflexivity |].
  split; [reflexivity |].
  assert (Hp : prepareImage decodePng
                 {| image_x := 0; image_y := 0; image_scaleX := 1; image_scaleY := 1;
                    image_reverse := false; image_orientation := OrN;
                    image_graphic := Some (PngGraphic []) |}
               = (None, 0%float, 0%float)).
  { unfold prepareImage. simpl. now rewrite Hd. }
  split; [exact Hp |].
  split; [now rewrite Hp |].
  unfold canvasSize. simpl. unfold prepare. rewrite Hp.
  vm_compute. reflexivity.
Qed.

Lemma download_recall_scenario_witness :
  exists data e,
    Printer.getGraphic "R:L.PNG"
      (printer (interpret "^XA~DYR:L.PNG,P,P,4,,,89504E470D0A1A0A^FO0,0^XGR:L.PNG,1,1^FS^XZ"))
    = Some (PngGraphic data)
    /\ analyze "^XA~DYR:L.PNG,P,P,4,,,89504E470D0A1A0A^FO0,0^XGR:L.PNG,1,1^FS^XZ"
       = [ {| elements := [Image e] |} ]
    /\ prepareImage (fun _ => None) e = (None, 0%float, 0%float)
    /\ canvasSize (fun _ => None) (fun _ _ _ => 0%float)
                  (fun _ => (0%float, 0%float, false)) (fun _ _ => true) [Image e]
       = (4%float, 4%float).
Proof.
  destruct (download_recall_scenario (fun _ => None) (fun _ _ _ => 0%float)
              (fun _ => (0%float, 0%float, false)) (fun _ _ => true)
              (fun _ _ => eq_refl))
    as (data & e & Hg & Ha & _ & Hp & _ & Hc).
  exists data, e. repeat split; assumption.
Defined.

(** C6 as stated fails: with a decoder that fails, the canvas of the
    scenario is not 5 x 5. *)
Lemma download_recall_canvas_not_5x5 :
  ~ (exists els,
        renderTarget "^XA~DYR:L.PNG,P,P,4,,,89504E470D0A1A0A^FO0,0^XGR:L.PNG,1,1^FS^XZ"
        = Some els
        /\ canvasSize (fun _ => None) (fun _ _ _ => 0%float)
                      (fun _ => (0%float, 0%float, false)) (fun _ _ => true) els
           = (5%float, 5%float)).
Proof.
  intros (els & Hr & Hc).
  vm_compute in Hr. injection Hr as <-.
  apply (f_equal fst) in Hc. vm_compute in Hc.
  revert Hc. apply float_neq; vm_compute; reflexivity.
Qed.

(** The bytes [~DY] stores in the scenario: the data field is preceded by
    an empty field, the joined string starts with a comma and the
    hexadecimal decoding stops right there. *)
Lemma download_recall_stored_bytes :
  graphics (printer (interpret "^XA~DYR:L.PNG,P,P,4,,,89504E470D0A1A0A")) !! "R:L.PNG"
  = Some (PngGraphic [])
  /\ graphics (printer (interpret "^XA~DYR:L.PNG,P,P,4,,89504E470D0A1A0A")) !! "R:L.PNG"
     = Some (PngGraphic [Byte.x89; Byte.x50; Byte.x4e; Byte.x47;
                         Byte.x0d; Byte.x0a; Byte.x1a; Byte.x0a]).
Proof. split; vm_compute; reflexivity. Qed.

(** ** The entry point *)

(** [render] throws exactly when [analyze] returns no label; otherwise it
    hands the elements of the first label to [drawElements]. *)
Lemma renderTarget_none (zpl : string) :
  renderTarget zpl = None <-> analyze zpl = [].
Proof. unfold renderTarget. destruct (analyze zpl); split; congruence. Qed.

Lemma renderTarget_examples :
  renderTarget "" = None
  /\ renderTarget "^XA^FO1,1" = None
  /\ renderTarget "^XA^XZ" = Some [].
Proof. repeat split; vm_compute; reflexivity. Qed.

(** ** The entry point, with the host *)

Section RenderProofs.

Variable decodePng : list Byte.byte -> option Bitmap.
Variable measureText : option string -> float -> string -> float.
Variable delegatedBarcode : BarcodeElement -> float * float * bool.
Variable makes : float -> float -> bool.
Variable normalFontPath : string.
Variable loadFont : string -> Promise unit unit.
Variable encodePNGToStream :
  float -> float -> list ContextCall -> Promise unit (list Byte.byte).

Lemma ensureFont_reason (fonts : FontModule) (reason : Failure) :
  snd (ensureFont normalFontPath loadFont fonts) = Rejected reason ->
  reason = FontNotLoaded.
Proof.
  unfold ensureFont. destruct (loaded fonts); [discriminate |].
  destruct (loadFont normalFontPath) as [[] | [] |];
    [destruct (loadFont boldFontPath) as [[] | [] |];
     destruct (loadFont condensedBoldPath) as [[] | [] |] | |];
    cbn [snd]; intros H; try discriminate H; now injection H.
Qed.

(** [drawElements] never rejects with the error of [render]. *)
Lemma drawElements_reason (fonts : FontModule) (els : list Element) :
  snd (drawElements decodePng measureText delegatedBarcode makes normalFontPath
         loadFont encodePNGToStream fonts els)
  <> Rejected NoLabelsDetected.
Proof.
  unfold drawElements.
  destruct (ensureFont normalFontPath loadFont fonts) as [fonts' [[] | reason |]]
    eqn:He; cbn [snd]; try discriminate.
  - destruct (existsb isText els && negb (makes 1%float 1%float));
      [discriminate |].
    destruct (makes _ _); [| discriminate].
    destruct (encodePNGToStream _ _ _); discriminate.
  - intros H. injection H as ->.
    pose proof (ensureFont_reason fonts NoLabelsDetected) as Hr.
    rewrite He in Hr. discriminate (Hr eq_refl).
Qed.

(** When [drawElements] returns the bytes of the encoder. *)
Lemma drawElements_fulfilled (fonts : FontModule) (els : list Element)
    (png : list Byte.byte) :
  snd (drawElements decodePng measureText delegatedBarcode makes normalFontPath
         loadFont encodePNGToStream fonts els) = Fulfilled png
  <-> snd (ensureFont normalFontPath loadFont fonts) = Fulfilled tt
      /\ (existsb isText els = true -> makes 1%float 1%float = true)
      /\ makes (fst (canvasSize decodePng measureText delegatedBarcode makes els))
               (snd (canvasSize decodePng measureText delegatedBarcode makes els))
         = true
      /\ encodePNGToStream
           (fst (canvasSize decodePng measureText delegatedBarcode makes els))
           (snd (canvasSize decodePng measureText delegatedBarcode makes els))
           (drawCalls decodePng measureText delegatedBarcode makes els)
         = Fulfilled png.
Proof.
  unfold drawElements. cbv zeta.
  destruct (ensureFont normalFontPath loadFont fonts) as [fonts' [[] | reason |]];
    cbn [snd];
    [| split; [discriminate | intros (H & _); discriminate H] ..].
  destruct (existsb isText els) eqn:Ht; cbn [andb].
  - destruct (makes 1%float 1%float) eqn:H1; cbn [negb].
    + match goal with
      | |- context [if makes ?a ?b then _ else _] => destruct (makes a b) eqn:Hm
      end.
      * destruct (encodePNGToStream _ _ _) as [bytes | [] |]; cbv iota;
          (split; [intros H; try discriminate H; injection H as ->; repeat split
                  | intros (_ & _ & _ & H); congruence]).
      * split; [discriminate | intros (_ & _ & H & _); discriminate H].
    + split; [discriminate | intros (_ & H & _); discriminate (H eq_refl)].
  - match goal with
    | |- context [if makes ?a ?b then _ else _] => destruct (makes a b) eqn:Hm
    end.
    + destruct (encodePNGToStream _ _ _) as [bytes | [] |]; cbv iota;
        (split; [intros H; try discriminate H; injection H as ->; repeat split;
                 discriminate
                | intros (_ & _ & _ & H); congruence]).
    + split; [discriminate | intros (_ & _ & H & _); discriminate H].
Qed.

(** C7, as the code has it.  [analyze] is a total function.  [render]
    throws its own error, that no labels were detected, exactly when the
    document yields no label.  When [analyze] returns a label, [render]
    returns PNG bytes exactly when [drawElements] completes on the
    elements of the first label: [ensureFont] resolves, the image library
    makes the canvas (and the 1 x 1 bitmap a Text element is measured
    on), and the encoder completes; the bytes are the encoder's. *)
Theorem render_outcome (fonts : FontModule) (zpl : string) :
  let rendered :=
    snd (render decodePng measureText delegatedBarcode makes normalFontPath
           loadFont encodePNGToStream fonts zpl) in
  (rendered = Rejected NoLabelsDetected <-> analyze zpl = [])
  /\ (forall png : list Byte.byte,
        rendered = Fulfilled png
        <-> exists label rest,
              analyze zpl = label :: rest
              /\ snd (ensureFont normalFontPath loadFont fonts) = Fulfilled tt
              /\ (existsb isText (elements label) = true ->
                  makes 1%float 1%float = true)
              /\ makes
                   (fst (canvasSize decodePng measureText delegatedBarcode makes
                           (elements label)))
                   (snd (canvasSize decodePng measureText delegatedBarcode makes
                           (elements label))) = true
              /\ encodePNGToStream
                   (fst (canvasSize decodePng measureText delegatedBarcode makes
                           (elements label)))
                   (snd (canvasSize decodePng measureText delegatedBarcode makes
                           (elements label)))
                   (drawCalls decodePng measureText delegatedBarcode makes
                      (elements label))
                 = Fulfilled png).
Proof.
  cbv zeta. unfold render. destruct (analyze zpl) as [|label rest].
  - split; [split; reflexivity |].
    intros png. split; [discriminate |]. intros (l & r & H & _). discriminate H.
  - split.
    + split; [| discriminate]. intros H.
      now apply drawElements_reason in H.
    + intros png. rewrite drawElements_fulfilled. split.
      * intros H. now exists label, rest.
      * intros (l & r & Heq & H). now injection Heq as <- <-.
Qed.

End RenderProofs.

(** C7 as stated fails: a document can yield a label and [render] not
    return.  The box of the first document gives a canvas of
    1000000004 x 1000000004 dots, beyond what any host allocates, and
    [drawElements] rejects with the exception of [PImage.make].  On a
    host where the load of a bold face never settles, [render] does not
    settle either, whatever the label. *)
Lemma render_fails_with_a_label :
  let fonts := {| loaded := false; fontCalls := [] |} in
  let decodePng (_ : list Byte.byte) : option Bitmap := None in
  let measureText (_ : option string) (_ : float) (_ : string) := 0%float in
  let delegatedBarcode (_ : BarcodeElement) := (0%float, 0%float, false) in
  let encode (_ _ : float) (_ : list ContextCall) : Promise unit (list Byte.byte) :=
    Fulfilled [] in
  let loads (_ : string) : Promise unit unit := Fulfilled tt in
  let noBoldFace (path : string) : Promise unit unit :=
    if String.eqb path boldFontPath then Pending else Fulfilled tt in
  List.length (analyze "^XA^FO999999999,999999999^GB1,1^XZ") = 1
  /\ snd (render decodePng measureText delegatedBarcode withinArrayLimit
            "fonts/DejaVuSans.ttf" loads encode fonts
            "^XA^FO999999999,999999999^GB1,1^XZ")
     = Rejected CanvasNotMade
  /\ List.length (analyze "^XA^XZ") = 1
  /\ snd (render decodePng measureText delegatedBarcode withinArrayLimit
            "fonts/DejaVuSans.ttf" noBoldFace encode fonts "^XA^XZ")
     = Pending.
Proof. repeat split; vm_compute; reflexivity. Qed.

(** On a host that loads the fonts and makes the canvas, the same
    entry point returns the bytes of the encoder. *)
Lemma render_returns_example :
  snd (render (fun _ => None) (fun _ _ _ => 0%float)
         (fun _ => (0%float, 0%float, false)) withinArrayLimit
         "fonts/DejaVuSans.ttf" (fun _ => Fulfilled tt)
         (fun w h _ => if PrimFloat.eqb w 34 && PrimFloat.eqb h 34
                       then Fulfilled [Byte.x89] else Rejected tt)
         {| loaded := false; fontCalls := [] |} "^XA^FO10,10^GB20,20,2^FS^XZ")
  = Fulfilled [Byte.x89].
Proof. vm_compute. reflexivity. Qed.

(** ** More on the tokenizer *)

Lemma stripVertical_app (a b : string) :
  stripVertical (a +:+ b) = stripVertical a +:+ stripVertical b.
Proof.
  induction a as [|c a IH]; [reflexivity |].
  rewrite append_cons. simpl. destruct (isVerticalSpace c); [exact IH |].
  now rewrite append_cons, IH.
Qed.

Lemma stripVertical_idempotent (s : string) :
  stripVertical (stripVertical s) = stripVertical s.
Proof.
  induction s as [|c s IH]; [reflexivity |]. simpl.
  destruct (isVerticalSpace c) eqn:Hc; [exact IH |].
  simpl. now rewrite Hc, IH.
Qed.

(** The guard on the empty string changes nothing: the loop on an empty
    input pushes nothing either. *)
Lemma splitZplCommands_loop (zpl : string) :
  splitZplCommands zpl = splitLoop (stripVertical zpl) [] "".
Proof. unfold splitZplCommands. now destruct zpl. Qed.

(** The commands already pushed are a prefix of the result. *)
Lemma splitLoop_pushed (clean : string) :
  forall commands buffer,
    splitLoop clean commands buffer = (commands ++ splitLoop clean [] buffer)%list.
Proof.
  induction clean as [|c rest IH]; intros commands buffer; simpl.
  - destruct (JsString.isEmpty buffer); [now rewrite app_nil_r | reflexivity].
  - destruct (isIntroducer c && negb (JsString.isEmpty buffer)).
    + rewrite IH, (IH [buffer]). now rewrite <- app_assoc.
    + apply IH.
Qed.

(** An introducer closes what was scanned before it. *)
Lemma splitLoop_app (a : string) (c : ascii) (b : string) :
  isIntroducer c = true ->
  forall commands buffer,
    splitLoop (a +:+ String c b) commands buffer
    = (splitLoop a commands buffer ++ splitLoop (String c b) [] "")%list.
Proof.
  intros Hc. induction a as [|x a IH]; intros commands buffer.
  - rewrite append_empty_l. simpl. rewrite Hc.
    destruct buffer as [|y ys]; simpl.
    + apply splitLoop_pushed.
    + rewrite splitLoop_pushed. reflexivity.
  - rewrite append_cons. simpl.
    destruct (isIntroducer x && negb (JsString.isEmpty buffer)); apply IH.
Qed.

(** X1. Only the cleaned input matters: two documents that differ in
    their vertical white space alone give the same tokens and the same
    labels. *)
Theorem vertical_space_is_ignored (a b : string) :
  stripVertical a = stripVertical b ->
  splitZplCommands a = splitZplCommands b /\ analyze a = analyze b.
Proof.
  intros H.
  assert (Hs : splitZplCommands a = splitZplCommands b)
    by now rewrite !splitZplCommands_loop, H.
  split; [exact Hs |]. unfold analyze, interpret. now rewrite Hs.
Qed.

Lemma vertical_space_is_ignored_witness :
  splitZplCommands (String "010" "^XA" +:+ String "013" (String "010" "^FDa^XZ"))
  = splitZplCommands "^XA^FDa^XZ"
  /\ analyze (String "010" "^XA" +:+ String "013" (String "010" "^FDa^XZ"))
     = analyze "^XA^FDa^XZ".
Proof.
  apply (vertical_space_is_ignored
           (String "010" "^XA" +:+ String "013" (String "010" "^FDa^XZ"))
           "^XA^FDa^XZ").
  reflexivity.
Defined.

(** X2. Splitting is stable: the tokens of a document, put back end to
    end, split into the same tokens again. *)
Theorem split_concat_split (zpl : string) :
  splitZplCommands (concatTokens (splitZplCommands zpl)) = splitZplCommands zpl.
Proof.
  rewrite (splitZplCommands_loop (concatTokens _)), (splitZplCommands_loop zpl).
  rewrite splitLoop_concat. simpl. rewrite !append_empty_l.
  now rewrite stripVertical_idempotent.
Qed.

(** X3. Splitting distributes over concatenation at an introducer: when
    the second document starts with [^] or [~], the tokens of the two
    documents put together are the tokens of the first followed by the
    tokens of the second. *)
Theorem split_app (a b : string) :
  startsWithIntroducer b = true ->
  splitZplCommands (a +:+ b) = (splitZplCommands a ++ splitZplCommands b)%list.
Proof.
  intros Hb. destruct b as [|c b]; [discriminate |]. simpl in Hb.
  rewrite !splitZplCommands_loop, stripVertical_app.
  assert (Hv : isVerticalSpace c = false).
  { unfold isIntroducer in Hb. apply orb_true_iff in Hb.
    destruct Hb as [H | H]; apply Ascii.eqb_eq in H; subst; reflexivity. }
  simpl. rewrite Hv. now apply splitLoop_app.
Qed.

Lemma split_app_witness :
  splitZplCommands ("^XA^FO1,2" +:+ "^FDa^XZ")
  = (splitZplCommands "^XA^FO1,2" ++ splitZplCommands "^FDa^XZ")%list.
Proof. apply (split_app "^XA^FO1,2" "^FDa^XZ"). reflexivity. Defined.

(** ** More on the command loop *)

(** The four ways through one iteration of the loop. *)
Lemma step_cases (st : AnalyzerState) (rawCmd : string) :
  let cmd := JsString.trim rawCmd in
  ((String.length cmd <? 2) = true /\ isLabelStart rawCmd = false
   /\ isLabelEnd rawCmd = false /\ step st rawCmd = st)
  \/ (isLabelStart rawCmd = true /\ isLabelEnd rawCmd = false
      /\ step st rawCmd
         = {| printer := Printer.reset; labels := labels st; currentElements := [] |})
  \/ (isLabelStart rawCmd = false /\ isLabelEnd rawCmd = true
      /\ step st rawCmd = pushLabel st)
  \/ ((String.length cmd <? 2) = false /\ isLabelStart rawCmd = false
      /\ isLabelEnd rawCmd = false
      /\ step st rawCmd
         = {| printer := fst (execCommand (commandPrefix cmd) cmd (printer st));
              labels := labels st;
              currentElements :=
                currentElements st
                ++ snd (execCommand (commandPrefix cmd) cmd (printer st)) |}).
Proof.
  intros cmd. unfold step, isLabelStart, isLabelEnd. fold cmd.
  destruct (String.length cmd <? 2) eqn:Hshort.
  - left. repeat split; try reflexivity.
    + destruct (testXA cmd) eqn:H; [| reflexivity].
      apply testLabelCommand_length in H. congruence.
    + destruct (testXZ cmd) eqn:H; [| reflexivity].
      apply testLabelCommand_length in H. congruence.
  - destruct (testXA cmd) eqn:Ha.
    + right. left. repeat split; try reflexivity.
      destruct (testXZ cmd) eqn:Hz; [| reflexivity].
      apply testXZ_not_XA in Hz. congruence.
    + destruct (testXZ cmd) eqn:Hz.
      * right. right. left. repeat split; reflexivity.
      * right. right. right. repeat split; try reflexivity.
        now destruct (execCommand (commandPrefix cmd) cmd (printer st)).
Qed.

Lemma step_labels (st : AnalyzerState) (rawCmd : string) :
  labels (step st rawCmd)
  = if isLabelEnd rawCmd
    then (labels st ++ [ {| elements := currentElements st |} ])%list
    else labels st.
Proof.
  destruct (step_cases st rawCmd) as
    [(_ & _ & Hz & ->) | [(_ & Hz & ->) | [(_ & Hz & ->) | (_ & _ & Hz & ->)]]];
    now rewrite Hz.
Qed.

Lemma run_labels_length (commands : list string) :
  forall st,
    List.length (labels (run commands st))
    = List.length (labels st) + countLabelEnds commands.
Proof.
  induction commands as [|t rest IH]; intros st;
    [unfold countLabelEnds; simpl; lia |].
  simpl. rewrite IH, step_labels. unfold countLabelEnds. simpl.
  destruct (isLabelEnd t); simpl; [rewrite length_app; simpl |]; lia.
Qed.

(** X4. Labels are only ever appended: whatever commands run, from any
    state, the labels pushed before are still there, unchanged and in
    place, and exactly one label is added for each [^XZ] token. *)
Theorem labels_append_only (commands : list string) :
  forall st : AnalyzerState,
    exists new : list Label,
      labels (run commands st) = (labels st ++ new)%list
      /\ List.length new = countLabelEnds commands.
Proof.
  induction commands as [|t rest IH]; intros st.
  - exists []. split; [now rewrite app_nil_r | reflexivity].
  - simpl. destruct (IH (step st t)) as (new & Hl & Hn).
    rewrite step_labels in Hl. unfold countLabelEnds in *. simpl.
    destruct (isLabelEnd t).
    + exists ({| elements := currentElements st |} :: new). split.
      * rewrite Hl. now rewrite <- app_assoc.
      * simpl. now rewrite Hn.
    + exists new. split; assumption.
Qed.

(** X5. The number of labels [analyze] returns is the number of [^XZ]
    tokens, plus one when elements are left over after the last token. *)
Theorem analyze_label_count (zpl : string) :
  List.length (analyze zpl)
  = countLabelEnds (splitZplCommands zpl)
    + match currentElements (interpret zpl) with [] => 0 | _ :: _ => 1 end.
Proof.
  unfold analyze, interpret.
  pose proof (run_labels_length (splitZplCommands zpl) initialState) as Hn.
  simpl in Hn.
  destruct (currentElements (run (splitZplCommands zpl) initialState)).
  - rewrite Hn. lia.
  - simpl. rewrite length_app, Hn. simpl. lia.
Qed.

Lemma existsb_eqb_false (s : string) (l : list string) :
  existsb (String.eqb s) l = false -> forall k, In k l -> String.eqb s k = false.
Proof.
  induction l as [|x l IH]; intros H k Hin; [destruct Hin |].
  simpl in H. apply orb_false_iff in H as [Hx Hl].
  destruct Hin as [<- | Hin]; [assumption | now apply IH].
Qed.

(** X6. Unsupported input never disturbs the analysis: a token shorter
    than two characters, and a token whose designator has no case of its
    own and starts neither [B] nor [A], leave the printer, the labels and
    the current elements exactly as they were. *)
Theorem ignored_token_changes_nothing (st : AnalyzerState) (rawCmd : string) :
  isIgnored rawCmd = true -> step st rawCmd = st.
Proof.
  unfold isIgnored. intros H.
  destruct (step_cases st rawCmd) as
    [(_ & _ & _ & Hs) | [(Ha & _ & _) | [(_ & Hz & _) | (Hlen & Ha & Hz & Hs)]]].
  - exact Hs.
  - unfold isLabelStart in Ha. rewrite Ha in H. simpl in H.
    rewrite orb_false_r in H.
    destruct (JsString.trim rawCmd) as [|c0 [|c1 [|c2 r]]]; discriminate.
  - unfold isLabelEnd in Hz. rewrite Hz in H. simpl in H.
    rewrite andb_false_r, orb_false_r in H.
    destruct (JsString.trim rawCmd) as [|c0 [|c1 [|c2 r]]]; discriminate.
  - rewrite Hlen in H. simpl in H.
    unfold isLabelStart in Ha. unfold isLabelEnd in Hz.
    rewrite Ha, Hz in H. simpl in H.
    apply andb_true_iff in H as [H HA]. apply andb_true_iff in H as [Hk HB].
    apply negb_true_iff in HA, HB, Hk.
    pose proof (existsb_eqb_false (commandPrefix (JsString.trim rawCmd))
                  handledDesignators Hk) as Hne.
    rewrite Hs. unfold execCommand.
    rewrite !Hne by (simpl; tauto). rewrite HB, HA. simpl.
    destruct st. simpl. now rewrite app_nil_r.
Qed.

Lemma ignored_token_changes_nothing_witness :
  step (interpret "^XA^FO1,2^BCN,10") "^MMT" = interpret "^XA^FO1,2^BCN,10"
  /\ step (interpret "^XA^FO1,2^BCN,10") "^" = interpret "^XA^FO1,2^BCN,10".
Proof.
  split;
    [ apply (ignored_token_changes_nothing (interpret "^XA^FO1,2^BCN,10") "^MMT")
    | apply (ignored_token_changes_nothing (interpret "^XA^FO1,2^BCN,10") "^") ];
    reflexivity.
Defined.

(** ** What the commands push, and what they leave armed *)

Lemma blockElements_no_barcode font originType block pos fontHeight offsetY maxLines e :
  forall lines i,
    ~ In (Barcode e)
         (blockElements font originType block pos fontHeight offsetY maxLines i lines).
Proof.
  induction lines as [|line rest IH]; intros i; simpl; [tauto |].
  destruct (PrimFloat.ltb (JsNumber.ofNat i) maxLines); simpl; [| tauto].
  intros [H | H]; [discriminate | exact (IH _ H)].
Qed.

(** Of all the handlers only [^FD] pushes a Barcode, and only from a
    pending specification. *)
Lemma execCommand_barcode (prefix cmd : string) (p : VirtualPrinter)
    (e : BarcodeElement) :
  In (Barcode e) (snd (execCommand prefix cmd p)) ->
  prefix = "FD"
  /\ exists bc,
       pendingBarcode p = Some bc
       /\ barcode_codeType e = spec_codeType bc
       /\ barcode_text e = JsString.substringFrom 3 cmd.
Proof.
  unfold execCommand.
  repeat match goal with
         | |- context [String.eqb prefix ?s] =>
             let E := fresh "E" in
             destruct (String.eqb prefix s) eqn:E;
             [ apply String.eqb_eq in E | clear E ]
         end;
    try (simpl; intros [H | []]; discriminate);
    try (simpl; intros []).
  - unfold fieldOrientationCommand.
    destruct (JsString.isEmpty _); simpl; intros [].
  - unfold downloadGraphic.
    destruct (JsString.indexOfFrom _ _ _) as [first|]; [| intros []].
    destruct (JsString.indexOfFrom _ _ _) as [second|]; [| intros []].
    destruct (JsString.indexOfFrom _ _ _) as [third|]; intros [].
  - unfold downloadObject. destruct (6 <=? _); intros [].
  - unfold fieldData. destruct (pendingBarcode p) as [bc|] eqn:Hbc.
    + simpl. intros [H | []]. injection H as <-. split; [assumption |].
      exists bc. repeat split; reflexivity.
    + destruct (fieldBlock p) as [block|]; simpl.
      * intros H. now apply blockElements_no_barcode in H.
      * intros [H | []]. discriminate.
  - destruct (JsString.startsWithChar "B" prefix).
    + unfold barcodeCommand. destruct (takeOrientation _) as [o rest].
      destruct (barcodeSpecOf _ _ _ _); intros [].
    + destruct (JsString.startsWithChar "A" prefix); [| intros []].
      unfold fontCommand. destruct (takeOrientation _) as [o rest]. intros [].
Qed.

(** X7. A Barcode element comes from [^FD] alone, and only when a barcode
    command is pending: a Barcode among the current elements after a token
    was there before, or the token is an [^FD] read under a pending
    specification, whose code type it has and whose payload is its
    text. *)
Theorem barcode_only_from_field_data
    (st : AnalyzerState) (rawCmd : string) (e : BarcodeElement) :
  In (Barcode e) (currentElements (step st rawCmd)) ->
  In (Barcode e) (currentElements st)
  \/ (commandPrefix (JsString.trim rawCmd) = "FD"
      /\ exists bc,
           pendingBarcode (printer st) = Some bc
           /\ barcode_codeType e = spec_codeType bc
           /\ barcode_text e = JsString.substringFrom 3 (JsString.trim rawCmd)).
Proof.
  destruct (step_cases st rawCmd) as
    [(_ & _ & _ & ->) | [(_ & _ & ->) | [(_ & _ & ->) | (_ & _ & _ & ->)]]];
    simpl; try tauto.
  intros H. apply in_app_or in H as [H | H]; [now left | right].
  now apply execCommand_barcode in H.
Qed.

Lemma barcode_only_from_field_data_witness :
  exists bc,
    pendingBarcode (printer (interpret "^XA^BCN,10")) = Some bc
    /\ spec_codeType bc = code128.
Proof.
  destruct (barcode_only_from_field_data (interpret "^XA^BCN,10") "^FD12"
              {| barcode_x := 0; barcode_y := 0; barcode_codeType := code128;
                 barcode_text := "12"; barcode_height := 10;
                 barcode_moduleWidth := 2; barcode_ratio := 3;
                 barcode_options := noOptions; barcode_orientation := OrN;
                 barcode_printInterpretation := true;
                 barcode_printAbove := false |})
    as [H | (_ & bc & Hbc & Hct & _)].
  - left. vm_compute. reflexivity.
  - vm_compute in H. destruct H.
  - exists bc. split; [exact Hbc | now rewrite <- Hct].
Defined.

(** X8. What [^FD] leaves behind: the next position and the pending
    barcode are always cleared.  The field block is cleared when the data
    went to text; when the data went to a pending barcode, the field block
    stays armed for the next [^FD]. *)
Theorem field_data_consumes (st : AnalyzerState) (rawCmd : string) :
  commandPrefix (JsString.trim rawCmd) = "FD" ->
  nextPosition (printer (step st rawCmd)) = None
  /\ pendingBarcode (printer (step st rawCmd)) = None
  /\ (pendingBarcode (printer st) = None ->
      fieldBlock (printer (step st rawCmd)) = None)
  /\ (pendingBarcode (printer st) <> None ->
      fieldBlock (printer (step st rawCmd)) = fieldBlock (printer st)).
Proof.
  intros H. dispatch H. unfold fieldData.
  destruct (pendingBarcode (printer st)) as [bc|] eqn:Hbc.
  - simpl. repeat split; try reflexivity. discriminate.
  - destruct (fieldBlock (printer st)) as [block|] eqn:Hfb; simpl;
      repeat split; try reflexivity; try assumption; congruence.
Qed.

Lemma field_data_consumes_witness :
  let st := interpret "^XA^FO1,2^FB60,2^BCN,10" in
  nextPosition (printer (step st "^FD12")) = None
  /\ pendingBarcode (printer (step st "^FD12")) = None
  /\ fieldBlock (printer (step st "^FD12")) = fieldBlock (printer st)
  /\ fieldBlock (printer (step (step st "^FD12") "^FDab")) = None.
Proof.
  cbv zeta.
  destruct (field_data_consumes (interpret "^XA^FO1,2^FB60,2^BCN,10") "^FD12" eq_refl)
    as (Hn & Hp & _ & Hkeep).
  destruct (field_data_consumes
              (step (interpret "^XA^FO1,2^FB60,2^BCN,10") "^FD12") "^FDab" eq_refl)
    as (_ & _ & Hclear & _).
  split; [exact Hn |]. split; [exact Hp |].
  split; [apply Hkeep; discriminate | apply Hclear; exact Hp].
Defined.

(** X9. [^FO] and [^FT] place the element that follows: the Box, Circle,
    Diagonal or Image pushed by the next command sits at the label home
    plus the coordinates parsed from the position command (0 for a missing
    or unreadable one), and the position is consumed. *)
Theorem field_origin_places_next_element
    (st : AnalyzerState) (positionCmd elementCmd : string) :
  In (commandPrefix (JsString.trim positionCmd)) ["FO"; "FT"] ->
  In (commandPrefix (JsString.trim elementCmd)) ["GB"; "GC"; "GD"; "IM"; "XG"] ->
  let parts := commandParts (JsString.trim positionCmd) in
  let x := JsNumber.orElse (JsNumber.parseIntAt parts 0) 0 in
  let y := JsNumber.orElse (JsNumber.parseIntAt parts 1) 0 in
  exists el : Element,
    currentElements (step (step st positionCmd) elementCmd)
    = (currentElements st ++ [el])%list
    /\ xyOf el = (fst (labelHome (printer st)) + x,
                  snd (labelHome (printer st)) + y)%float
    /\ nextPosition (printer (step (step st positionCmd) elementCmd)) = None.
Proof.
  intros Hpos Hel parts x y. simpl in Hpos, Hel.
  destruct Hpos as [Hp | [Hp | []]]; symmetry in Hp;
    destruct Hel as [H | [H | [H | [H | [H | []]]]]]; symmetry in H;
    dispatch H; dispatch Hp; rewrite app_nil_r;
    (eexists; split; [reflexivity | split; reflexivity]).
Qed.

Lemma field_origin_places_next_element_witness :
  exists el : Element,
    currentElements (step (step (interpret "^XA^LH100,200") "^FO5,x") "^GB10,10,1")
    = [el]
    /\ xyOf el = (105, 200)%float.
Proof.
  destruct (field_origin_places_next_element (interpret "^XA^LH100,200")
              "^FO5,x" "^GB10,10,1")
    as (el & Hc & Hxy & _).
  - left. reflexivity.
  - left. reflexivity.
  - exists el. split; [exact Hc |]. rewrite Hxy. vm_compute. reflexivity.
Defined.

(** X10. Without an armed position the shapes and the images fall back
    differently: a Box, Circle or Diagonal goes to (0, 0), whatever the
    label home, while an Image goes to the label home. *)
Theorem unpositioned_element_fallback (st : AnalyzerState) (rawCmd : string) :
  nextPosition (printer st) = None ->
  (In (commandPrefix (JsString.trim rawCmd)) ["GB"; "GC"; "GD"] ->
   exists el : Element,
     currentElements (step st rawCmd) = (currentElements st ++ [el])%list
     /\ xyOf el = (0, 0)%float)
  /\ (In (commandPrefix (JsString.trim rawCmd)) ["IM"; "XG"] ->
      exists el : Element,
        currentElements (step st rawCmd) = (currentElements st ++ [el])%list
        /\ xyOf el = labelHome (printer st)).
Proof.
  intros Hnone. split; intros Hin; simpl in Hin.
  - destruct Hin as [H | [H | [H | []]]]; symmetry in H; dispatch H;
      (eexists; split; [reflexivity |]); simpl;
      unfold positionOr; rewrite Hnone; reflexivity.
  - destruct Hin as [H | [H | []]]; symmetry in H; dispatch H;
      (eexists; split; [reflexivity |]); simpl;
      unfold positionOr; rewrite Hnone; now destruct (labelHome (printer st)).
Qed.

Lemma unpositioned_element_fallback_witness :
  (exists el : Element,
      currentElements (step (interpret "^XA^LH100,200") "^GC30") = [el]
      /\ xyOf el = (0, 0)%float)
  /\ (exists el : Element,
         currentElements (step (interpret "^XA^LH100,200") "^XGR:A.GRF") = [el]
         /\ xyOf el = (100, 200)%float).
Proof.
  destruct (unpositioned_element_fallback (interpret "^XA^LH100,200") "^GC30" eq_refl)
    as [Hshape _].
  destruct (unpositioned_element_fallback (interpret "^XA^LH100,200") "^XGR:A.GRF" eq_refl)
    as [_ Himage].
  split.
  - apply Hshape. right. left. reflexivity.
  - apply Himage. right. left. reflexivity.
Defined.

(** X24. A field separator ends the field: the [^FD] that follows an
    [^FS] is plain text again, whatever barcode or position was armed
    before.  Without field block it pushes one Text element with the
    payload, at the label home and with the top-left origin. *)
Theorem field_separator_ends_field (st : AnalyzerState) (separator data : string) :
  commandPrefix (JsString.trim separator) = "FS" ->
  commandPrefix (JsString.trim data) = "FD" ->
  fieldBlock (printer st) = None ->
  exists e : TextElement,
    currentElements (step (step st separator) data)
    = (currentElements st ++ [Text e])%list
    /\ text_text e = JsString.substringFrom 3 (JsString.trim data)
    /\ (text_x e, text_y e) = labelHome (printer st)
    /\ text_originType e = TopLeft.
Proof.
  intros Hfs Hfd Hblock. dispatch Hfd. dispatch Hfs. rewrite app_nil_r.
  unfold fieldData. simpl. rewrite Hblock. simpl.
  eexists. split; [reflexivity |]. simpl.
  repeat split. now destruct (labelHome (printer st)).
Qed.

Lemma field_separator_ends_field_witness :
  exists e : TextElement,
    currentElements (step (step (interpret "^XA^LH7,9^FO1,2^BCN,10") "^FS") "^FDab")
    = [Text e]
    /\ text_text e = "ab"
    /\ (text_x e, text_y e) = (7, 9)%float.
Proof.
  destruct (field_separator_ends_field (interpret "^XA^LH7,9^FO1,2^BCN,10")
              "^FS" "^FDab" eq_refl eq_refl eq_refl)
    as (e & Hc & Ht & Hxy & _).
  exists e. split; [exact Hc |]. split; [exact Ht |].
  rewrite Hxy. vm_compute. reflexivity.
Defined.

(** ** Invariants of the printer *)

Lemma setFont_usable name o height width (p : VirtualPrinter) :
  usableSettings p = true ->
  usableSettings (Printer.setFont name o height width p) = true.
Proof.
  unfold usableSettings. intros H.
  repeat (apply andb_true_iff in H as [H ?]).
  simpl. repeat (apply andb_true_iff; split); try assumption.
  - destruct height as [h|]; [| assumption].
    destruct (negb (is_nan h) && JsNumber.gt h 0) eqn:E; [| assumption].
    now apply andb_true_iff in E.
  - destruct (negb (is_nan _) && PrimFloat.leb 0 _) eqn:E; [| assumption].
    now apply andb_true_iff in E.
  - destruct (negb (is_nan _) && PrimFloat.leb 0 _) eqn:E; [| assumption].
    now apply andb_true_iff in E.
Qed.

Lemma setBarcodeDefaults_usable moduleWidth ratio height (p : VirtualPrinter) :
  usableSettings p = true ->
  usableSettings (Printer.setBarcodeDefaults moduleWidth ratio height p) = true.
Proof.
  unfold usableSettings. intros H.
  repeat (apply andb_true_iff in H as [H ?]).
  simpl. repeat (apply andb_true_iff; split); try assumption.
  - now destruct (JsNumber.gt moduleWidth 0) eqn:E.
  - destruct ratio as [r|]; [| assumption].
    now destruct (JsNumber.gt r 0) eqn:E.
  - destruct height as [h|]; [| assumption].
    now destruct (JsNumber.gt h 0) eqn:E.
Qed.

Lemma execCommand_usable (prefix cmd : string) (p : VirtualPrinter) :
  usableSettings p = true ->
  usableSettings (fst (execCommand prefix cmd p)) = true.
Proof.
  intros H. unfold execCommand.
  repeat match goal with
         | |- context [String.eqb prefix ?s] =>
             destruct (String.eqb prefix s)
         end;
    try exact H.
  - now apply setBarcodeDefaults_usable.
  - now apply setFont_usable.
  - unfold fieldOrientationCommand.
    destruct (JsString.isEmpty _); [exact H |].
    simpl. unfold Printer.setFieldOrientation.
    now destruct (Printer.orientationOfString _).
  - unfold downloadGraphic.
    destruct (JsString.indexOfFrom _ _ _) as [first|]; [| exact H].
    destruct (JsString.indexOfFrom _ _ _) as [second|]; [| exact H].
    destruct (JsString.indexOfFrom _ _ _) as [third|]; [| exact H].
    simpl. unfold Printer.saveGraphic. now destruct (JsString.isEmpty _).
  - unfold downloadObject. destruct (6 <=? _); [| exact H].
    simpl. unfold Printer.saveGraphic. now destruct (JsString.isEmpty _).
  - unfold fieldData. destruct (pendingBarcode p); [exact H |].
    now destruct (fieldBlock p).
  - destruct (JsString.startsWithChar "B" prefix).
    + unfold barcodeCommand. destruct (takeOrientation _) as [o rest].
      now destruct (barcodeSpecOf _ _ _ _).
    + destruct (JsString.startsWithChar "A" prefix); [| exact H].
      unfold fontCommand. destruct (takeOrientation _) as [o rest].
      now apply setFont_usable.
Qed.

Lemma step_usable (st : AnalyzerState) (rawCmd : string) :
  usableSettings (printer st) = true ->
  usableSettings (printer (step st rawCmd)) = true.
Proof.
  intros H.
  destruct (step_cases st rawCmd) as
    [(_ & _ & _ & ->) | [(_ & _ & ->) | [(_ & _ & ->) | (_ & _ & _ & ->)]]].
  - exact H.
  - reflexivity.
  - exact H.
  - now apply execCommand_usable.
Qed.

Lemma run_usable (commands : list string) :
  forall st,
    usableSettings (printer st) = true ->
    usableSettings (printer (run commands st)) = true.
Proof.
  induction commands as [|t rest IH]; intros st H; [exact H |].
  simpl. apply IH. now apply step_usable.
Qed.

(** X11. Whatever the document, the numeric settings of the printer stay
    usable: the font height is positive, the font width is a number that
    is not negative, and the barcode module width, ratio and height are
    positive.  Zero, negative and unreadable parameters of [^CF], [^A] and
    [^BY] never get into the state. *)
Theorem settings_stay_usable (zpl : string) :
  usableSettings (printer (interpret zpl)) = true.
Proof. unfold interpret. now apply run_usable. Qed.

(** ** The field orientation *)

Lemma execCommand_fieldOrientation (prefix cmd : string) (p : VirtualPrinter) :
  prefix <> "FW" ->
  fieldOrientation (fst (execCommand prefix cmd p)) = fieldOrientation p.
Proof.
  intros Hfw. unfold execCommand.
  repeat match goal with
         | |- context [String.eqb prefix ?s] =>
             let E := fresh "E" in
             destruct (String.eqb prefix s) eqn:E;
             [ try (apply String.eqb_eq in E; congruence) | clear E ]
         end;
    try reflexivity.
  - unfold downloadGraphic.
    destruct (JsString.indexOfFrom _ _ _) as [first|]; [| reflexivity].
    destruct (JsString.indexOfFrom _ _ _) as [second|]; [| reflexivity].
    destruct (JsString.indexOfFrom _ _ _) as [third|]; [| reflexivity].
    simpl. unfold Printer.saveGraphic. now destruct (JsString.isEmpty _).
  - unfold downloadObject. destruct (6 <=? _); [| reflexivity].
    simpl. unfold Printer.saveGraphic. now destruct (JsString.isEmpty _).
  - unfold fieldData. destruct (pendingBarcode p); [reflexivity |].
    now destruct (fieldBlock p).
  - destruct (JsString.startsWithChar "B" prefix).
    + unfold barcodeCommand. destruct (takeOrientation _) as [o rest].
      now destruct (barcodeSpecOf _ _ _ _).
    + destruct (JsString.startsWithChar "A" prefix); [| reflexivity].
      unfold fontCommand. now destruct (takeOrientation _) as [o rest].
Qed.

Lemma run_fieldOrientation (commands : list string) :
  forall st,
    forallb (fun t => negb (isLabelStart t) && negb (isFieldOrientation t))
            commands = true ->
    fieldOrientation (printer (run commands st)) = fieldOrientation (printer st).
Proof.
  induction commands as [|t rest IH]; intros st Hall; [reflexivity |].
  simpl in *. apply andb_true_iff in Hall as [Ht Hrest].
  rewrite (IH _ Hrest).
  apply andb_true_iff in Ht as [Hxa Hfw]. apply negb_true_iff in Hxa, Hfw.
  destruct (step_cases st t) as
    [(_ & _ & _ & ->) | [(Ha & _) | [(_ & _ & ->) | (_ & _ & _ & ->)]]];
    try reflexivity; [congruence |].
  apply execCommand_fieldOrientation.
  unfold isFieldOrientation in Hfw. now apply String.eqb_neq in Hfw.
Qed.

Lemma blockElements_orientation font originType block pos fontHeight offsetY maxLines :
  forall lines i,
    Forall (fun el => orientationOf el = font_orientation font)
           (blockElements font originType block pos fontHeight offsetY
                          maxLines i lines).
Proof.
  induction lines as [|line rest IH]; intros i; simpl; [constructor |].
  destruct (PrimFloat.ltb (JsNumber.ofNat i) maxLines); constructor;
    [reflexivity | apply IH].
Qed.

(** X12. A field orientation set by [^FW] overrides the orientation of
    the font commands until the next [^XA]: as long as no [^XA] and no
    other [^FW] comes in between, also after [^A] commands that name
    another orientation, every Text element pushed by an [^FD] (without
    pending barcode) and the Image pushed by a recall have the field
    orientation. *)
Theorem field_orientation_overrides
    (st : AnalyzerState) (o : Orientation) (between : list string) (rawCmd : string) :
  fieldOrientation (printer st) = Some o ->
  forallb (fun t => negb (isLabelStart t) && negb (isFieldOrientation t))
          between = true ->
  (commandPrefix (JsString.trim rawCmd) = "FD"
   /\ pendingBarcode (printer (run between st)) = None)
  \/ isRecall rawCmd = true ->
  exists pushed : list Element,
    currentElements (step (run between st) rawCmd)
    = (currentElements (run between st) ++ pushed)%list
    /\ Forall (fun el => orientationOf el = o) pushed.
Proof.
  intros Ho Hbetween Hcmd.
  pose proof (run_fieldOrientation between st Hbetween) as Hfo.
  rewrite Ho in Hfo. set (st' := run between st) in *.
  destruct Hcmd as [[Hfd Hpending] | Hrecall].
  - dispatch Hfd. eexists. split; [reflexivity |].
    unfold fieldData. rewrite Hpending.
    destruct (fieldBlock (printer st')) as [block|]; simpl.
    + unfold fieldBlockText.
      eapply List.Forall_impl; [| apply blockElements_orientation].
      intros el Hel. rewrite Hel. simpl. now rewrite Hfo.
    + constructor; [| constructor]. simpl. now rewrite Hfo.
  - apply orb_true_iff in Hrecall.
    destruct Hrecall as [H | H]; apply String.eqb_eq in H; dispatch H;
      (eexists; split; [reflexivity |]);
      (constructor; [| constructor]); simpl; now rewrite Hfo.
Qed.

Lemma field_orientation_overrides_witness :
  exists pushed : list Element,
    currentElements
      (step (run ["^A0N,30,20"; "^FO1,2"] (interpret "^XA^FWR")) "^FDab")
    = pushed
    /\ Forall (fun el => orientationOf el = OrR) pushed.
Proof.
  destruct (field_orientation_overrides (interpret "^XA^FWR") OrR
              ["^A0N,30,20"; "^FO1,2"] "^FDab" eq_refl eq_refl)
    as (pushed & Hc & Ho).
  - left. split; reflexivity.
  - exists pushed. split; [exact Hc | exact Ho].
Defined.

(** ** Stored graphics *)

Lemma step_graphics_kept (st : AnalyzerState) (rawCmd : string) :
  isLabelStart rawCmd = false -> isDownload rawCmd = false ->
  graphics (printer (step st rawCmd)) = graphics (printer st).
Proof.
  intros Hxa Hnd.
  destruct (step_cases st rawCmd) as
    [(_ & _ & _ & ->) | [(Ha & _) | [(_ & _ & ->) | (_ & _ & _ & ->)]]];
    try reflexivity; [congruence |].
  apply orb_false_iff in Hnd as [Hdg Hdy].
  apply String.eqb_neq in Hdg, Hdy.
  now apply execCommand_graphics.
Qed.

Lemma run_graphics_kept (commands : list string) :
  forall st,
    forallb (fun t => negb (isLabelStart t) && negb (isDownload t)) commands = true ->
    graphics (printer (run commands st)) = graphics (printer st).
Proof.
  induction commands as [|t rest IH]; intros st Hall; [reflexivity |].
  simpl in *. apply andb_true_iff in Hall as [Ht Hrest].
  rewrite (IH _ Hrest).
  apply andb_true_iff in Ht as [Hxa Hnd]. apply negb_true_iff in Hxa, Hnd.
  now apply step_graphics_kept.
Qed.

(** X13. A stored graphic stays recallable until the next [^XA]: across
    any commands other than [^XA] and downloads, label ends included, an
    [^XG] or [^IM] that names it pushes one Image element referring to
    it. *)
Theorem stored_graphic_is_recalled
    (st : AnalyzerState) (g : Graphic) (between : list string) (recall : string) :
  graphics (printer st) !! recalledName recall = Some g ->
  forallb (fun t => negb (isLabelStart t) && negb (isDownload t)) between = true ->
  isRecall recall = true ->
  exists e : ImageElement,
    currentElements (step (run between st) recall)
    = (currentElements (run between st) ++ [Image e])%list
    /\ image_graphic e = Some g.
Proof.
  intros Hg Hbetween Hrecall.
  pose proof (run_graphics_kept between st Hbetween) as Hkept.
  destruct (step_recall (run between st) recall Hrecall) as (e & He & Hlook).
  exists e. split; [exact He |].
  rewrite Hlook. unfold Printer.getGraphic. rewrite Hkept.
  unfold recalledName in Hg. now rewrite Hg.
Qed.

Lemma stored_graphic_is_recalled_witness :
  exists e : ImageElement,
    currentElements
      (step (run ["^FDa"; "^XZ"; "^FO3,4"] (interpret "^XA~DGR:A.GRF,2,1,FFFF"))
            "^XG R:A.GRF ,2,2")
    = [Image e]
    /\ image_graphic e = Some (RawGraphic 2 1 "FFFF").
Proof.
  apply (stored_graphic_is_recalled (interpret "^XA~DGR:A.GRF,2,1,FFFF")
           (RawGraphic 2 1 "FFFF") ["^FDa"; "^XZ"; "^FO3,4"] "^XG R:A.GRF ,2,2");
    vm_compute; reflexivity.
Defined.

(** X14. A [~DY] without its fields stores nothing: with fewer than six
    comma-separated fields, or with a name that is empty after trimming,
    it leaves the whole state as it was. *)
Theorem short_download_stores_nothing (st : AnalyzerState) (rawCmd : string) :
  commandPrefix (JsString.trim rawCmd) = "DY" ->
  List.length (commandParts (JsString.trim rawCmd)) < 6
  \/ JsString.trim (nth 0 (commandParts (JsString.trim rawCmd)) "") = "" ->
  step st rawCmd = st.
Proof.
  intros H Hshort. dispatch H. unfold downloadObject.
  destruct (6 <=? List.length (commandParts (JsString.trim rawCmd))) eqn:Hlen.
  - destruct Hshort as [Hlt | Hname].
    + apply Nat.leb_le in Hlen. lia.
    + rewrite Hname. simpl. destruct st. simpl. now rewrite app_nil_r.
  - simpl. destruct st. simpl. now rewrite app_nil_r.
Qed.

Lemma short_download_stores_nothing_witness :
  step (interpret "^XA^FO1,2") "~DYR:L.PNG,P,P,4,89504E47" = interpret "^XA^FO1,2"
  /\ step (interpret "^XA^FO1,2") "~DY ,P,P,4,,89504E47" = interpret "^XA^FO1,2".
Proof.
  split.
  - apply (short_download_stores_nothing (interpret "^XA^FO1,2")
             "~DYR:L.PNG,P,P,4,89504E47" eq_refl).
    left. vm_compute. lia.
  - apply (short_download_stores_nothing (interpret "^XA^FO1,2")
             "~DY ,P,P,4,,89504E47" eq_refl).
    right. reflexivity.
Defined.

(** ** Wrapping *)

Lemma packWords_lines (maxChars : float) (all : list string) :
  PrimFloat.eqb maxChars infinity = false ->
  forall words line,
    (forall w, In w words -> In w all) ->
    (fitsIn maxChars line = true \/ In line all) \/ (line = "" /\ words <> []) ->
    Forall (fun l => fitsIn maxChars l = true \/ In l all)
           (packWords maxChars words line).
Proof.
  intros Hfinite. induction words as [|word rest IH]; intros line Hsub Hline.
  - simpl. constructor; [| constructor].
    destruct Hline as [H | [_ H]]; [exact H | congruence].
  - simpl. rewrite Hfinite. simpl.
    assert (Hword : In word all) by (apply Hsub; now left).
    assert (Hrest : forall w, In w rest -> In w all)
      by (intros w Hw; apply Hsub; now right).
    destruct line as [|c line'].
    + simpl. rewrite andb_false_r. apply IH; [exact Hrest |]. left. now right.
    + simpl JsString.isEmpty. simpl negb. rewrite andb_true_r.
      destruct (JsNumber.gt _ maxChars) eqn:Hlong.
      * constructor.
        -- destruct Hline as [H | [H _]]; [exact H | discriminate].
        -- apply IH; [exact Hrest |]. left. now right.
      * apply IH; [exact Hrest |]. left. left.
        unfold fitsIn. now rewrite Hlong.
Qed.

Lemma splitWhiteSpaceFrom_nonempty (inRun : bool) (s : string) :
  JsString.splitWhiteSpaceFrom inRun s <> [].
Proof.
  revert inRun. induction s as [|c r IH]; intros inRun; simpl; [discriminate |].
  destruct (JsString.isWhiteSpace c).
  - destruct inRun; [apply IH | discriminate].
  - destruct (JsString.splitWhiteSpaceFrom false r); discriminate.
Qed.

(** X15. A wrapped line overflows the block only when it cannot be
    helped: with a finite limit, every line [wrapText] produces either
    holds at most [maxChars] characters or is a single word of the payload
    that is longer than the limit by itself. *)
Theorem wrapped_line_fits_or_is_one_word (maxChars : float) (text : string) :
  PrimFloat.eqb maxChars infinity = false ->
  Forall (fun l =>
            fitsIn maxChars l = true
            \/ exists raw, In raw (JsString.splitParagraphs text)
                           /\ In l (JsString.splitWhiteSpace raw))
         (wrapText maxChars text).
Proof.
  intros Hfinite. unfold wrapText.
  induction (JsString.splitParagraphs text) as [|raw rest IH]; simpl;
    [constructor |].
  apply Forall_app. split.
  - eapply List.Forall_impl;
      [| apply (packWords_lines maxChars (JsString.splitWhiteSpace raw) Hfinite)].
    + intros l [H | H]; [now left | right]. exists raw. split; [now left | exact H].
    + tauto.
    + right. split; [reflexivity | apply splitWhiteSpaceFrom_nonempty].
  - eapply List.Forall_impl; [| exact IH].
    intros l [H | (raw' & Hin & Hl)]; [now left | right].
    exists raw'. split; [now right | exact Hl].
Qed.

Lemma wrapped_line_fits_or_is_one_word_witness :
  Forall (fun l =>
            fitsIn 5 l = true
            \/ exists raw, In raw (JsString.splitParagraphs "ab cd extraordinary e\&f")
                           /\ In l (JsString.splitWhiteSpace raw))
         (wrapText 5 "ab cd extraordinary e\&f")
  /\ wrapText 5 "ab cd extraordinary e\&f" = ["ab cd"; "extraordinary"; "e"; "f"].
Proof.
  split.
  - apply (wrapped_line_fits_or_is_one_word 5 "ab cd extraordinary e\&f").
    reflexivity.
  - vm_compute. reflexivity.
Defined.

Lemma packWords_unbounded (words : list string) :
  forall line, exists l, packWords infinity words line = [l].
Proof.
  induction words as [|word rest IH]; intros line; simpl; [eauto |].
  change (PrimFloat.eqb infinity infinity) with true. simpl. apply IH.
Qed.

(** X16. A field block without a positive width never wraps: the text is
    split at [\&] only, one line for each paragraph. *)
Theorem field_block_without_width_keeps_paragraphs
    (font : Font) (block : FieldBlock) (text : string) :
  JsNumber.gt (fb_width block) 0 = false ->
  List.length (wrapText (maxCharsOf font block) text)
  = List.length (JsString.splitParagraphs text).
Proof.
  intros Hwidth. unfold maxCharsOf. rewrite Hwidth. unfold wrapText.
  induction (JsString.splitParagraphs text) as [|raw rest IH]; [reflexivity |].
  simpl. rewrite length_app, IH.
  destruct (packWords_unbounded (JsString.splitWhiteSpace raw) "") as [l ->].
  reflexivity.
Qed.

Lemma field_block_without_width_keeps_paragraphs_witness :
  List.length
    (wrapText (maxCharsOf (Printer.getFont Printer.reset)
                          {| fb_width := 0; fb_lines := 0; fb_lineSpacing := 0;
                             fb_align := "L"; fb_indent := 0 |})
              "a long first paragraph\&second")
  = 2.
Proof.
  rewrite (field_block_without_width_keeps_paragraphs (Printer.getFont Printer.reset)
             {| fb_width := 0; fb_lines := 0; fb_lineSpacing := 0;
                fb_align := "L"; fb_indent := 0 |}
             "a long first paragraph\&second" eq_refl).
  reflexivity.
Defined.

(** ** The Code 39 table and the bars *)

Lemma pattern_shape (ch : ascii) :
  String.length (Code39.patternOrDash ch) = 9
  /\ countWide (Code39.patternOrDash ch) = 3.
Proof.
  destruct ch as [[] [] [] [] [] [] [] []]; split; vm_compute; reflexivity.
Qed.

(** X17. Every pattern the generator can draw is a well-formed Code 39
    character: nine elements, exactly three of them wide.  This holds for
    the 44 entries of the table and for the dash drawn in place of any
    other character. *)
Theorem code39_patterns_three_of_nine (ch : ascii) :
  String.length (Code39.patternOrDash ch) = 9
  /\ countWide (Code39.patternOrDash ch) = 3
  /\ (Code39.CODE39_PATTERNS ch = None ->
      Code39.patternOrDash ch = Code39.patternOrDash "-").
Proof.
  destruct (pattern_shape ch) as [Hl Hw]. repeat split; try assumption.
  intros Hnone. unfold Code39.patternOrDash. now rewrite Hnone.
Qed.

Lemma code39_patterns_three_of_nine_witness :
  Code39.CODE39_PATTERNS "_" = None
  /\ Code39.patternOrDash "_" = Code39.patternOrDash "-"
  /\ countWide (Code39.patternOrDash "_") = 3.
Proof.
  destruct (code39_patterns_three_of_nine "_") as (_ & Hw & Hdash).
  split; [reflexivity |]. split; [apply Hdash; reflexivity | exact Hw].
Defined.

(** X18. The table is decodable: two different characters of the
    alphabet never share a pattern. *)
Theorem code39_patterns_distinct (a b : ascii) :
  In a code39Alphabet -> In b code39Alphabet ->
  Code39.CODE39_PATTERNS a = Code39.CODE39_PATTERNS b -> a = b.
Proof.
  intros Ha Hb Heq.
  assert (Hall :
    forallb (fun x =>
      forallb (fun y =>
        match Code39.CODE39_PATTERNS x, Code39.CODE39_PATTERNS y with
        | Some p, Some q => implb (String.eqb p q) (Ascii.eqb x y)
        | _, _ => false
        end) code39Alphabet) code39Alphabet = true)
    by (vm_compute; reflexivity).
  rewrite forallb_forall in Hall. specialize (Hall a Ha).
  rewrite forallb_forall in Hall. specialize (Hall b Hb).
  rewrite <- Heq in Hall.
  destruct (Code39.CODE39_PATTERNS a) as [p|]; [| discriminate].
  rewrite String.eqb_refl in Hall. simpl in Hall. now apply Ascii.eqb_eq.
Qed.

Lemma code39_patterns_distinct_witness :
  Code39.CODE39_PATTERNS "A" <> Code39.CODE39_PATTERNS "B".
Proof.
  intros H.
  assert (E : "A"%char = "B"%char).
  { apply (code39_patterns_distinct "A" "B"); [vm_compute; tauto | vm_compute; tauto | exact H]. }
  discriminate E.
Defined.









(** ** Characters outside the Code 39 alphabet *)











(** ** Drawing *)

Lemma scopedFrom_seq (calls rest : list ContextCall) (n m : nat) :
  scopedFrom n calls = Some m ->
  scopedFrom n (calls ++ rest) = scopedFrom m rest.
Proof.
  revert n m. induction calls as [|c calls IH]; intros n m Hn; simpl in *.
  - now injection Hn as ->.
  - destruct c as [[| | | |] | | | | | | | | | | | | | | |]; simpl in *;
      try (now apply IH);
      destruct n; try discriminate; now apply IH.
Qed.

Lemma drawElement_scoped decodePng measureText delegatedBarcode makes
    (el : Element) (d : nat) :
  scopedFrom d (drawElement decodePng measureText delegatedBarcode makes el) = Some d.
Proof.
  destruct el as [e | e | e | e | e | e]; simpl.
  - unfold drawText. simpl.
    destruct (text_orientation e); destruct (isFontZero (text_fontName e));
      reflexivity.
  - unfold drawBarcode.
    destruct (hasImage _); [| reflexivity].
    destruct (barcode_orientation e); reflexivity.
  - unfold drawBox. simpl. destruct (_ || _); reflexivity.
  - unfold drawCircle. simpl. destruct (_ || _); reflexivity.
  - reflexivity.
  - unfold drawImage. destruct (fst (fst (prepareImage decodePng e))); [| reflexivity].
    destruct (image_orientation e); reflexivity.
Qed.

(** X21. No drawer leaves the context changed for the next one: in the
    calls [drawElements] makes, for any elements, every [save] has its
    [restore], no [restore] comes without a [save], and every translation,
    rotation and scaling happens between the two. *)
Theorem drawing_is_scoped
    (decodePng : list Byte.byte -> option Bitmap)
    (measureText : option string -> float -> string -> float)
    (delegatedBarcode : BarcodeElement -> float * float * bool)
    (makes : float -> float -> bool)
    (els : list Element) :
  scopedFrom 0 (drawCalls decodePng measureText delegatedBarcode makes els) = Some 0.
Proof.
  unfold drawCalls. simpl.
  induction els as [|el rest IH]; [reflexivity |].
  simpl. rewrite (scopedFrom_seq _ _ 0 0); [exact IH |].
  apply drawElement_scoped.
Qed.

(** ** The font loader *)

(** X22. [ensureFont] loads once.  It resolves exactly when the fonts
    were loaded before, or the load of the regular face resolves and
    neither load of a bold face is left unsettled: a rejection of a bold
    face is absorbed, a load that never settles is not.  The flag is set
    exactly when it resolves, and after a call that resolved every later
    call resolves without a call to the image library, whatever has
    become of the files. *)
Theorem ensureFont_loads_once
    (normalFontPath : string) (loadFont loadFontLater : string -> Promise unit unit)
    (s : FontModule) :
  let first := ensureFont normalFontPath loadFont s in
  (snd first = Fulfilled tt
   <-> loaded s = true
       \/ (loadFont normalFontPath = Fulfilled tt
           /\ loadFont boldFontPath <> Pending
           /\ loadFont condensedBoldPath <> Pending))
  /\ (loaded (fst first) = true <-> snd first = Fulfilled tt)
  /\ (snd first = Fulfilled tt ->
      ensureFont normalFontPath loadFontLater (fst first)
      = (fst first, Fulfilled tt)).
Proof.
  unfold ensureFont. destruct (loaded s) eqn:Hl; cbn [fst snd].
  - rewrite Hl. repeat split; auto.
  - destruct (loadFont normalFontPath) as [[] | [] |];
      destruct (loadFont boldFontPath) as [[] | [] |];
      destruct (loadFont condensedBoldPath) as [[] | [] |];
      cbn [fst snd loaded];
      (split;
       [split;
        [intros H; first [discriminate H | right; repeat split; congruence]
        | intros [H | (H1 & H2 & H3)]; first [congruence | reflexivity]]
       | split;
         [split; intros H; first [congruence | reflexivity]
         | intros H; first [discriminate H | reflexivity]]]).
Qed.

Lemma ensureFont_loads_once_witness :
  let s := {| loaded := false; fontCalls := [] |} in
  let onlyRegular (path : string) : Promise unit unit :=
    if String.eqb path "fonts/DejaVuSans.ttf" then Fulfilled tt else Rejected tt in
  let first := ensureFont "fonts/DejaVuSans.ttf" onlyRegular s in
  snd first = Fulfilled tt
  /\ List.length (fontCalls (fst first)) = 6
  /\ ensureFont "fonts/DejaVuSans.ttf" (fun _ => Pending) (fst first)
     = (fst first, Fulfilled tt).
Proof.
  cbv zeta.
  destruct (ensureFont_loads_once "fonts/DejaVuSans.ttf"
              (fun path => if String.eqb path "fonts/DejaVuSans.ttf"
                           then Fulfilled tt else Rejected tt)
              (fun _ => Pending)
              {| loaded := false; fontCalls := [] |})
    as (_ & _ & Hlater).
  split; [reflexivity |]. split; [reflexivity |]. apply Hlater. reflexivity.
Defined.

(** ** Images *)

(** X25. Only a PNG that decodes is ever drawn: the calls made for an
    Image element contain a [drawImage] exactly when its graphic is a PNG
    buffer that the decoder accepts.  A recall of an unknown name, a
    graphic stored by [~DG] and a PNG that fails to decode draw
    nothing. *)
Theorem image_drawn_iff_png_decodes
    (decodePng : list Byte.byte -> option Bitmap)
    (measureText : option string -> float -> string -> float)
    (delegatedBarcode : BarcodeElement -> float * float * bool)
    (makes : float -> float -> bool)
    (e : ImageElement) :
  (exists dx dy dw dh,
      In (Canvas (OpDrawImage dx dy dw dh))
         (drawElement decodePng measureText delegatedBarcode makes (Image e)))
  <-> (exists data img,
          image_graphic e = Some (PngGraphic data)
          /\ decodePng data = Some img).
Proof.
  unfold drawElement, prepareImage, drawImage. split.
  - intros (dx & dy & dw & dh & Hin).
    destruct (image_graphic e) as [[total row str | data | | name | v | v | v] |];
      try destruct Hin.
    destruct (decodePng data) as [img |] eqn:Hd; [| destruct Hin].
    now exists data, img.
  - intros (data & img & Hg & Hd). rewrite Hg, Hd. simpl.
    destruct (image_orientation e); do 4 eexists; simpl; intuition eauto.
Qed.

(** ** The fields of a download *)

Lemma indexOfFrom_shift (c : ascii) (s : string) :
  forall k,
    JsString.indexOfFrom c k s
    = option_map (Nat.add k) (JsString.indexOfFrom c 0 (JsString.substringFrom k s)).
Proof.
  induction s as [|d r IH]; intros k.
  - now destruct k.
  - destruct k as [|k'].
    + cbn [JsString.substringFrom].
      now destruct (JsString.indexOfFrom c 0 (String d r)).
    + simpl JsString.substringFrom.
      change (JsString.indexOfFrom c (S k') (String d r))
        with (option_map S (JsString.indexOfFrom c k' r)).
      rewrite (IH k'). now destruct (JsString.indexOfFrom c 0 _).
Qed.

Lemma substringFrom_add (s : string) :
  forall a b,
    JsString.substringFrom (a + b) s
    = JsString.substringFrom b (JsString.substringFrom a s).
Proof.
  induction s as [|d r IH]; intros a b.
  - destruct a; simpl; now destruct b.
  - destruct a; [reflexivity |]. simpl. apply IH.
Qed.

Lemma split_nonempty (sep : ascii) (s : string) : JsString.split sep s <> [].
Proof.
  induction s as [|c r IH]; simpl; [discriminate |].
  destruct (Ascii.eqb c sep); [discriminate |].
  destruct (JsString.split sep r); discriminate.
Qed.

(** Splitting cuts at the first separator and goes on behind it. *)
Lemma split_cut (s : string) :
  JsString.split "," s
  = match JsString.indexOfFrom "," 0 s with
    | Some i =>
        JsString.take i s :: JsString.split "," (JsString.substringFrom (S i) s)
    | None => [s]
    end.
Proof.
  induction s as [|c r IH]; [reflexivity |].
  cbn [JsString.split JsString.indexOfFrom].
  rewrite (Ascii.eqb_sym "," c).
  destruct (Ascii.eqb c ","); [reflexivity |].
  rewrite IH. now destruct (JsString.indexOfFrom "," 0 r).
Qed.

Lemma join_cons (c : ascii) (w : string) (ws : list string) :
  JsString.join "," (String c w :: ws) = String c (JsString.join "," (w :: ws)).
Proof. destruct ws; reflexivity. Qed.

(** Joining what was split gives the string back. *)
Lemma join_split (s : string) : JsString.join "," (JsString.split "," s) = s.
Proof.
  induction s as [|c r IH]; [reflexivity |].
  cbn [JsString.split]. destruct (Ascii.eqb c ",") eqn:Hc.
  - apply Ascii.eqb_eq in Hc. subst c.
    pose proof (split_nonempty "," r) as Hne.
    destruct (JsString.split "," r) as [|w ws]; [congruence |].
    change (JsString.join "," ("" :: w :: ws))
      with ("" +:+ "," +:+ JsString.join "," (w :: ws)).
    now rewrite IH.
  - pose proof (split_nonempty "," r) as Hne.
    destruct (JsString.split "," r) as [|w ws]; [congruence |].
    now rewrite join_cons, IH.
Qed.

(** [~DG] reads the same fields as a split at the commas would give,
    except that the data field is everything behind the third comma. *)
Lemma downloadGraphic_fields (cmd : string) (p : VirtualPrinter) :
  downloadGraphic cmd p
  = match commandParts cmd with
    | name :: total :: bytesPerRow :: data :: more =>
        (Printer.saveGraphic (JsString.trim name)
           (RawGraphic (JsNumber.orElse (JsNumber.parseInt total) 0)
                       (JsNumber.orElse (JsNumber.parseInt bytesPerRow) 0)
                       (JsString.join "," (data :: more))) p, [])
    | _ => (p, [])
    end.
Proof.
  unfold downloadGraphic, commandParts.
  generalize (JsString.substringFrom 3 cmd). intros s.
  rewrite (split_cut s).
  destruct (JsString.indexOfFrom "," 0 s) as [i1|] eqn:H1; [| reflexivity].
  rewrite (indexOfFrom_shift "," s (i1 + 1)), Nat.add_1_r.
  rewrite (split_cut (JsString.substringFrom (S i1) s)).
  destruct (JsString.indexOfFrom "," 0 (JsString.substringFrom (S i1) s))
    as [j|] eqn:H2; [| reflexivity].
  cbn [option_map].
  assert (E2 : JsString.substringFrom (S i1 + j + 1) s
               = JsString.substringFrom (S j) (JsString.substringFrom (S i1) s)).
  { replace (S i1 + j + 1) with (S i1 + S j) by lia. apply substringFrom_add. }
  rewrite (indexOfFrom_shift "," s (S i1 + j + 1)), E2.
  rewrite (split_cut (JsString.substringFrom (S j) (JsString.substringFrom (S i1) s))).
  destruct (JsString.indexOfFrom "," 0
              (JsString.substringFrom (S j) (JsString.substringFrom (S i1) s)))
    as [k|] eqn:H3; [| reflexivity].
  cbn [option_map].
  assert (E3 : JsString.substringFrom (S i1 + j + 1 + k + 1) s
               = JsString.substringFrom (S k)
                   (JsString.substringFrom (S j) (JsString.substringFrom (S i1) s))).
  { replace (S i1 + j + 1 + k + 1) with (S i1 + j + 1 + S k) by lia.
    now rewrite substringFrom_add, E2. }
  rewrite E3.
  pose proof (split_nonempty "," (JsString.substringFrom (S k)
                (JsString.substringFrom (S j) (JsString.substringFrom (S i1) s))))
    as Hne.
  pose proof (join_split (JsString.substringFrom (S k)
                (JsString.substringFrom (S j) (JsString.substringFrom (S i1) s))))
    as Hjoin.
  destruct (JsString.split "," _) as [|data more]; [congruence |].
  rewrite Hjoin. unfold JsString.substring. rewrite E2.
  replace (i1 - 0) with i1 by lia.
  replace (S i1 + j - S i1) with j by lia.
  replace (S i1 + j + 1 + k - (S i1 + j + 1)) with k by lia.
  reflexivity.
Qed.

(** X23. [~DG] takes its first three comma-separated fields as name,
    total and bytes per row, and everything behind the third comma as
    data, commas included; the graphic is stored under the trimmed name.
    A [~DG] with fewer than four fields changes nothing. *)
Theorem download_graphic_fields (st : AnalyzerState) (rawCmd : string) :
  commandPrefix (JsString.trim rawCmd) = "DG" ->
  step st rawCmd
  = match commandParts (JsString.trim rawCmd) with
    | name :: total :: bytesPerRow :: data :: more =>
        {| printer :=
             Printer.saveGraphic (JsString.trim name)
               (RawGraphic (JsNumber.orElse (JsNumber.parseInt total) 0)
                           (JsNumber.orElse (JsNumber.parseInt bytesPerRow) 0)
                           (JsString.join "," (data :: more))) (printer st);
           labels := labels st;
           currentElements := currentElements st |}
    | _ => st
    end.
Proof.
  intros H. dispatch H. rewrite downloadGraphic_fields.
  destruct (commandParts (JsString.trim rawCmd)) as [|n [|t [|b [|d ds]]]];
    simpl; rewrite app_nil_r; try reflexivity; now destruct st.
Qed.

Lemma download_graphic_fields_witness :
  graphics (printer (step initialState "~DG R:A.GRF ,4,2,FF,00,FF,00"))
    !! "R:A.GRF" = Some (RawGraphic 4 2 "FF,00,FF,00")
  /\ step initialState "~DGR:A.GRF,4,2" = initialState.
Proof.
  split.
  - rewrite (download_graphic_fields initialState "~DG R:A.GRF ,4,2,FF,00,FF,00" eq_refl).
    vm_compute. reflexivity.
  - rewrite (download_graphic_fields initialState "~DGR:A.GRF,4,2" eq_refl).
    reflexivity.
Defined.

(** * Properties *)

(** ** Sanity checks of the string primitives *)

Example split_examples :
  JsString.split "," "a,,b" = ["a"; ""; "b"]
  /\ JsString.split "," "" = [""]
  /\ JsString.splitWhiteSpace " a  b " = [""; "a"; "b"; ""]
  /\ JsString.splitWhiteSpace "Hello world here" = ["Hello"; "world"; "here"]
  /\ JsString.splitParagraphs "ab\&cd\&" = ["ab"; "cd"; ""]
  /\ JsString.trim "  ^FD a b  " = "^FD a b"
  /\ JsString.indexOfFrom "," 2 "a,b,c" = Some 3
  /\ JsString.join "," [""; "89"] = ",89"
  /\ JsString.toUpperCase "^fd-a1z" = "^FD-A1Z"
  /\ JsString.toUpperCase (String (ascii_of_nat 223) "a") = "SSA"
  /\ JsString.toUpperCase (String (ascii_of_nat 233) (String (ascii_of_nat 247) ""))
     = String (ascii_of_nat 201) (String (ascii_of_nat 247) "").
Proof. repeat split; reflexivity. Qed.

Example number_examples :
  JsNumber.parseInt "  42abc" = 42%float
  /\ JsNumber.parseInt "-7" = (-7)%float
  /\ JsNumber.parseInt "" = nan
  /\ JsNumber.parseInt "9007199254740993" = 9007199254740992%float
  /\ JsNumber.parseFloat "2" = 2%float
  /\ JsNumber.parseFloat "0.1" = 0.1%float
  /\ JsNumber.parseFloat "2.5e2x" = 250%float
  /\ JsNumber.parseFloat "1e-320" = 1e-320%float
  /\ JsNumber.parseFloat "123456789.123456789e-3" = 123456.789123456789%float
  /\ JsNumber.parseFloat "1.7976931348623157e308" = 1.7976931348623157e308%float
  /\ JsNumber.parseFloat "." = nan
  /\ JsNumber.parseFloat "-.5" = (-0.5)%float
  /\ JsNumber.parseFloat "1e400" = infinity
  /\ JsNumber.floor 9.99%float = 9%float
  /\ JsNumber.floor (-0.5)%float = (-1)%float
  /\ JsNumber.ceil 167.5%float = 168%float
  /\ JsNumber.ceil (-0.5)%float = neg_zero
  /\ JsNumber.floor (39 / (10 * 0.6 * 0.65))%float = 9%float.
Proof. repeat split; vm_compute; reflexivity. Qed.

